(** * react-native-image-zoom: the gesture and transform engine of ImageViewer

    A shallow embedding of [src/image-zoom/image-zoom.component.tsx].

    - A JavaScript [number] is an exact rational ([Q]); [===] and [!==] on
      numbers are [Qeq_bool] and its negation, so results are compared with
      [==].  Rounding, infinities and NaN are not represented (in
      particular a quotient by zero, which JavaScript turns into an
      infinity or NaN, has no faithful counterpart here: a property of a
      position that the source obtains through a quotient by the scale
      is stated for a scale that is not 0).  The one square
      root that is kept, the span of a pinch, is rounded to one decimal as
      the source does, from the exact root.
    - [new Date().getTime()] is an input of the handler that reads it.
    - The private fields of the class are the fields of the record
      [ImageViewer]; a handler is a function from the component before the
      call to the component after it.
    - The calls made to the optional callbacks of [props] are appended to
      the ghost field [calls], oldest first.
    - [Animated.Value] belongs to react-native; it is kept as the last
      value written with [setValue] and the timing animation started last.
    - [setTimeout] handles are kept as [Timeout]; the firing of a pending
      timer is an input of its own. *)

From Stdlib Require Import String QArith Qabs Qround Qminmax ZArith Bool List Lia Lqa.
Import ListNotations.
Local Open Scope Q_scope.

(** ** Numbers *)

Module Num.

Definition ltb (a b : Q) : bool := negb (Qle_bool b a).
Definition gtb (a b : Q) : bool := ltb b a.
Definition leb (a b : Q) : bool := Qle_bool a b.
Definition eqb (a b : Q) : bool := Qeq_bool a b.
Definition neqb (a b : Q) : bool := negb (Qeq_bool a b).

(** [n || d] for a number [n]: zero is falsy. *)
Definition or (n d : Q) : Q := if eqb n 0 then d else n.

(** [o || d] for an optional number: [undefined] and zero are falsy. *)
Definition optOr (o : option Q) (d : Q) : Q :=
  match o with
  | None => d
  | Some n => or n d
  end.

(** Truthiness of an optional number. *)
Definition truthy (o : option Q) : bool :=
  match o with
  | None => false
  | Some n => neqb n 0
  end.

(** [Number(Math.sqrt(q).toFixed(1))]: the square root of [q] rounded to
    one decimal, computed exactly: the nearest integer to [sqrt (100 q)]
    is [(floor (sqrt (400 q)) + 1) / 2]. *)
Definition sqrtFixed1 (q : Q) : Q :=
  ((Z.sqrt (Qfloor (400 * q)) + 1) / 2)%Z # 10.

End Num.

Infix "<?" := Num.ltb (at level 70) : Q_scope.
Infix ">?" := Num.gtb (at level 70) : Q_scope.
Infix "<=?" := Num.leb (at level 70) : Q_scope.
Infix "=?" := Num.eqb (at level 70) : Q_scope.

(** ** The collaborators: Animated values and timers *)

Record TimingConfig := mkTiming {
  toValue : Q;
  duration : Q;
  useNativeDriver : bool
}.

Record AnimatedValue := mkAnimated {
  current : Q;
  timing : option TimingConfig
}.

(** [new Animated.Value(v)] *)
Definition newAnimated (v : Q) : AnimatedValue := mkAnimated v None.

(** [a.setValue(v)]: writes the value and stops the running animation. *)
Definition setValue (v : Q) (a : AnimatedValue) : AnimatedValue :=
  mkAnimated v None.

(** [Animated.timing(a, cfg).start()] *)
Definition timingStart (cfg : TimingConfig) (a : AnimatedValue) : AnimatedValue :=
  mkAnimated (current a) (Some cfg).

Record Point := mkPoint {
  pt_locationX : Q;
  pt_locationY : Q;
  pt_pageX : Q;
  pt_pageY : Q
}.

(** A [setTimeout] handle: never assigned, pending with the coordinates
    its callback captured, or cleared/fired. *)
Inductive Timeout :=
| Unset
| Pending (at_ : Point)
| Spent.

Definition clearTimeout (t : Timeout) : Timeout :=
  match t with
  | Unset => Unset
  | Pending _ => Spent
  | Spent => Spent
  end.

(** ** Events and props *)

Record Touch := mkTouch {
  pageX : Q;
  pageY : Q;
  locationX : Q;
  locationY : Q
}.

Record NativeEvent := mkEvent {
  changedTouches : list Touch;
  ev_locationX : Q;
  ev_locationY : Q;
  ev_pageX : Q;
  ev_pageY : Q
}.

(** [evt.nativeEvent.changedTouches[i]]; the responder system delivers at
    least one touch, the default stands for an index out of range. *)
Definition touch (evt : NativeEvent) (i : nat) : Touch :=
  nth i (changedTouches evt) (mkTouch 0 0 0 0).

Definition evPoint (evt : NativeEvent) : Point :=
  mkPoint (ev_locationX evt) (ev_locationY evt) (ev_pageX evt) (ev_pageY evt).

Record GestureState := mkGesture {
  dx : Q;
  dy : Q;
  vx : Q
}.

Record ICenterOn := mkCenterOn {
  co_x : Q;
  co_y : Q;
  co_scale : Q;
  co_duration : Q
}.

(** The argument of [onMove]. *)
Record IOnMove := mkOnMove {
  om_type : string;
  om_positionX : Q;
  om_positionY : Q;
  om_scale : Q;
  om_zoomCurrentDistance : Q
}.

(** A call made to one of the callbacks of [props]. *)
Inductive Call :=
| CallOnLongPress (p : Point)
| CallOnDoubleClick (p : Point)
| CallOnClick (p : Point)
| CallOnSwipeDown
| CallHorizontalOuterRangeOffset (offset : Q)
| CallResponderRelease (vx scale : Q)
| CallOnMove (m : IOnMove).

(** [ImageZoomProps] is declared in [image-zoom.type], which is not part of
    the sources at hand: the props the component reads are taken as they
    are used.  A number read through [|| 0] or tested for truthiness is
    optional; a callback is represented by whether it was supplied. *)
Record ImageZoomProps := mkProps {
  cropWidth : Q;
  cropHeight : Q;
  imageWidth : Q;
  imageHeight : Q;
  panToMove : bool;
  pinchToZoom : bool;
  enableDoubleClickZoom : bool;
  enableSwipeDown : bool;
  enableCenterFocus : bool;
  clickDistance : option Q;
  maxOverflow : option Q;
  doubleClickInterval : option Q;
  minScale : option Q;
  maxScale : option Q;
  swipeDownThreshold : option Q;
  p_useNativeDriver : bool;
  centerOnProp : option ICenterOn;
  onClick : bool;
  onDoubleClick : bool;
  onLongPress : bool;
  onSwipeDown : bool;
  horizontalOuterRangeOffset : bool;
  responderRelease : bool;
  onMove : bool
}.

(** ** The component

    The private fields of [ImageViewer], in the order of the class, and
    the ghost trace [calls]. *)

Record ImageViewer := mkViewer {
  lastPositionX : option Q;
  positionX : Q;
  animatedPositionX : AnimatedValue;
  lastPositionY : option Q;
  positionY : Q;
  animatedPositionY : AnimatedValue;
  scale : Q;
  animatedScale : AnimatedValue;
  zoomLastDistance : option Q;
  zoomCurrentDistance : Q;
  lastTouchStartTime : Z;
  horizontalWholeOuterCounter : Q;
  swipeDownOffset : Q;
  horizontalWholeCounter : Q;
  verticalWholeCounter : Q;
  centerDiffX : Q;
  centerDiffY : Q;
  singleClickTimeout : Timeout;
  longPressTimeout : Timeout;
  lastClickTime : Z;
  doubleClickX : Q;
  doubleClickY : Q;
  isDoubleClick : bool;
  isLongPress : bool;
  isHorizontalWrap : bool;
  calls : list Call
}.

(** Field assignments [this.f = v]. *)

Definition set_lastPositionX (v : option Q) (s : ImageViewer) : ImageViewer :=
  mkViewer v (positionX s) (animatedPositionX s) (lastPositionY s)
    (positionY s) (animatedPositionY s) (scale s) (animatedScale s)
    (zoomLastDistance s) (zoomCurrentDistance s) (lastTouchStartTime s)
    (horizontalWholeOuterCounter s) (swipeDownOffset s)
    (horizontalWholeCounter s) (verticalWholeCounter s) (centerDiffX s)
    (centerDiffY s) (singleClickTimeout s) (longPressTimeout s)
    (lastClickTime s) (doubleClickX s) (doubleClickY s) (isDoubleClick s)
    (isLongPress s) (isHorizontalWrap s) (calls s).

Definition set_positionX (v : Q) (s : ImageViewer) : ImageViewer :=
  mkViewer (lastPositionX s) v (animatedPositionX s) (lastPositionY s)
    (positionY s) (animatedPositionY s) (scale s) (animatedScale s)
    (zoomLastDistance s) (zoomCurrentDistance s) (lastTouchStartTime s)
    (horizontalWholeOuterCounter s) (swipeDownOffset s)
    (horizontalWholeCounter s) (verticalWholeCounter s) (centerDiffX s)
    (centerDiffY s) (singleClickTimeout s) (longPressTimeout s)
    (lastClickTime s) (doubleClickX s) (doubleClickY s) (isDoubleClick s)
    (isLongPress s) (isHorizontalWrap s) (calls s).

Definition set_animatedPositionX (v : AnimatedValue) (s : ImageViewer) : ImageViewer :=
  mkViewer (lastPositionX s) (positionX s) v (lastPositionY s) (positionY s)
    (animatedPositionY s) (scale s) (animatedScale s) (zoomLastDistance s)
    (zoomCurrentDistance s) (lastTouchStartTime s)
    (horizontalWholeOuterCounter s) (swipeDownOffset s)
    (horizontalWholeCounter s) (verticalWholeCounter s) (centerDiffX s)
    (centerDiffY s) (singleClickTimeout s) (longPressTimeout s)
    (lastClickTime s) (doubleClickX s) (doubleClickY s) (isDoubleClick s)
    (isLongPress s) (isHorizontalWrap s) (calls s).

Definition set_lastPositionY (v : option Q) (s : ImageViewer) : ImageViewer :=
  mkViewer (lastPositionX s) (positionX s) (animatedPositionX s) v
    (positionY s) (animatedPositionY s) (scale s) (animatedScale s)
    (zoomLastDistance s) (zoomCurrentDistance s) (lastTouchStartTime s)
    (horizontalWholeOuterCounter s) (swipeDownOffset s)
    (horizontalWholeCounter s) (verticalWholeCounter s) (centerDiffX s)
    (centerDiffY s) (singleClickTimeout s) (longPressTimeout s)
    (lastClickTime s) (doubleClickX s) (doubleClickY s) (isDoubleClick s)
    (isLongPress s) (isHorizontalWrap s) (calls s).

Definition set_positionY (v : Q) (s : ImageViewer) : ImageViewer :=
  mkViewer (lastPositionX s) (positionX s) (animatedPositionX s)
    (lastPositionY s) v (animatedPositionY s) (scale s) (animatedScale s)
    (zoomLastDistance s) (zoomCurrentDistance s) (lastTouchStartTime s)
    (horizontalWholeOuterCounter s) (swipeDownOffset s)
    (horizontalWholeCounter s) (verticalWholeCounter s) (centerDiffX s)
    (centerDiffY s) (singleClickTimeout s) (longPressTimeout s)
    (lastClickTime s) (doubleClickX s) (doubleClickY s) (isDoubleClick s)
    (isLongPress s) (isHorizontalWrap s) (calls s).

Definition set_animatedPositionY (v : AnimatedValue) (s : ImageViewer) : ImageViewer :=
  mkViewer (lastPositionX s) (positionX s) (animatedPositionX s)
    (lastPositionY s) (positionY s) v (scale s) (animatedScale s)
    (zoomLastDistance s) (zoomCurrentDistance s) (lastTouchStartTime s)
    (horizontalWholeOuterCounter s) (swipeDownOffset s)
    (horizontalWholeCounter s) (verticalWholeCounter s) (centerDiffX s)
    (centerDiffY s) (singleClickTimeout s) (longPressTimeout s)
    (lastClickTime s) (doubleClickX s) (doubleClickY s) (isDoubleClick s)
    (isLongPress s) (isHorizontalWrap s) (calls s).

Definition set_scale (v : Q) (s : ImageViewer) : ImageViewer :=
  mkViewer (lastPositionX s) (positionX s) (animatedPositionX s)
    (lastPositionY s) (positionY s) (animatedPositionY s) v
    (animatedScale s) (zoomLastDistance s) (zoomCurrentDistance s)
    (lastTouchStartTime s) (horizontalWholeOuterCounter s)
    (swipeDownOffset s) (horizontalWholeCounter s) (verticalWholeCounter s)
    (centerDiffX s) (centerDiffY s) (singleClickTimeout s)
    (longPressTimeout s) (lastClickTime s) (doubleClickX s) (doubleClickY s)
    (isDoubleClick s) (isLongPress s) (isHorizontalWrap s) (calls s).

Definition set_animatedScale (v : AnimatedValue) (s : ImageViewer) : ImageViewer :=
  mkViewer (lastPositionX s) (positionX s) (animatedPositionX s)
    (lastPositionY s) (positionY s) (animatedPositionY s) (scale s) v
    (zoomLastDistance s) (zoomCurrentDistance s) (lastTouchStartTime s)
    (horizontalWholeOuterCounter s) (swipeDownOffset s)
    (horizontalWholeCounter s) (verticalWholeCounter s) (centerDiffX s)
    (centerDiffY s) (singleClickTimeout s) (longPressTimeout s)
    (lastClickTime s) (doubleClickX s) (doubleClickY s) (isDoubleClick s)
    (isLongPress s) (isHorizontalWrap s) (calls s).

Definition set_zoomLastDistance (v : option Q) (s : ImageViewer) : ImageViewer :=
  mkViewer (lastPositionX s) (positionX s) (animatedPositionX s)
    (lastPositionY s) (positionY s) (animatedPositionY s) (scale s)
    (animatedScale s) v (zoomCurrentDistance s) (lastTouchStartTime s)
    (horizontalWholeOuterCounter s) (swipeDownOffset s)
    (horizontalWholeCounter s) (verticalWholeCounter s) (centerDiffX s)
    (centerDiffY s) (singleClickTimeout s) (longPressTimeout s)
    (lastClickTime s) (doubleClickX s) (doubleClickY s) (isDoubleClick s)
    (isLongPress s) (isHorizontalWrap s) (calls s).

Definition set_zoomCurrentDistance (v : Q) (s : ImageViewer) : ImageViewer :=
  mkViewer (lastPositionX s) (positionX s) (animatedPositionX s)
    (lastPositionY s) (positionY s) (animatedPositionY s) (scale s)
    (animatedScale s) (zoomLastDistance s) v (lastTouchStartTime s)
    (horizontalWholeOuterCounter s) (swipeDownOffset s)
    (horizontalWholeCounter s) (verticalWholeCounter s) (centerDiffX s)
    (centerDiffY s) (singleClickTimeout s) (longPressTimeout s)
    (lastClickTime s) (doubleClickX s) (doubleClickY s) (isDoubleClick s)
    (isLongPress s) (isHorizontalWrap s) (calls s).

Definition set_lastTouchStartTime (v : Z) (s : ImageViewer) : ImageViewer :=
  mkViewer (lastPositionX s) (positionX s) (animatedPositionX s)
    (lastPositionY s) (positionY s) (animatedPositionY s) (scale s)
    (animatedScale s) (zoomLastDistance s) (zoomCurrentDistance s) v
    (horizontalWholeOuterCounter s) (swipeDownOffset s)
    (horizontalWholeCounter s) (verticalWholeCounter s) (centerDiffX s)
    (centerDiffY s) (singleClickTimeout s) (longPressTimeout s)
    (lastClickTime s) (doubleClickX s) (doubleClickY s) (isDoubleClick s)
    (isLongPress s) (isHorizontalWrap s) (calls s).

Definition set_horizontalWholeOuterCounter (v : Q) (s : ImageViewer) : ImageViewer :=
  mkViewer (lastPositionX s) (positionX s) (animatedPositionX s)
    (lastPositionY s) (positionY s) (animatedPositionY s) (scale s)
    (animatedScale s) (zoomLastDistance s) (zoomCurrentDistance s)
    (lastTouchStartTime s) v (swipeDownOffset s) (horizontalWholeCounter s)
    (verticalWholeCounter s) (centerDiffX s) (centerDiffY s)
    (singleClickTimeout s) (longPressTimeout s) (lastClickTime s)
    (doubleClickX s) (doubleClickY s) (isDoubleClick s) (isLongPress s)
    (isHorizontalWrap s) (calls s).

Definition set_swipeDownOffset (v : Q) (s : ImageViewer) : ImageViewer :=
  mkViewer (lastPositionX s) (positionX s) (animatedPositionX s)
    (lastPositionY s) (positionY s) (animatedPositionY s) (scale s)
    (animatedScale s) (zoomLastDistance s) (zoomCurrentDistance s)
    (lastTouchStartTime s) (horizontalWholeOuterCounter s) v
    (horizontalWholeCounter s) (verticalWholeCounter s) (centerDiffX s)
    (centerDiffY s) (singleClickTimeout s) (longPressTimeout s)
    (lastClickTime s) (doubleClickX s) (doubleClickY s) (isDoubleClick s)
    (isLongPress s) (isHorizontalWrap s) (calls s).

Definition set_horizontalWholeCounter (v : Q) (s : ImageViewer) : ImageViewer :=
  mkViewer (lastPositionX s) (positionX s) (animatedPositionX s)
    (lastPositionY s) (positionY s) (animatedPositionY s) (scale s)
    (animatedScale s) (zoomLastDistance s) (zoomCurrentDistance s)
    (lastTouchStartTime s) (horizontalWholeOuterCounter s)
    (swipeDownOffset s) v (verticalWholeCounter s) (centerDiffX s)
    (centerDiffY s) (singleClickTimeout s) (longPressTimeout s)
    (lastClickTime s) (doubleClickX s) (doubleClickY s) (isDoubleClick s)
    (isLongPress s) (isHorizontalWrap s) (calls s).

Definition set_verticalWholeCounter (v : Q) (s : ImageViewer) : ImageViewer :=
  mkViewer (lastPositionX s) (positionX s) (animatedPositionX s)
    (lastPositionY s) (positionY s) (animatedPositionY s) (scale s)
    (animatedScale s) (zoomLastDistance s) (zoomCurrentDistance s)
    (lastTouchStartTime s) (horizontalWholeOuterCounter s)
    (swipeDownOffset s) (horizontalWholeCounter s) v (centerDiffX s)
    (centerDiffY s) (singleClickTimeout s) (longPressTimeout s)
    (lastClickTime s) (doubleClickX s) (doubleClickY s) (isDoubleClick s)
    (isLongPress s) (isHorizontalWrap s) (calls s).

Definition set_centerDiffX (v : Q) (s : ImageViewer) : ImageViewer :=
  mkViewer (lastPositionX s) (positionX s) (animatedPositionX s)
    (lastPositionY s) (positionY s) (animatedPositionY s) (scale s)
    (animatedScale s) (zoomLastDistance s) (zoomCurrentDistance s)
    (lastTouchStartTime s) (horizontalWholeOuterCounter s)
    (swipeDownOffset s) (horizontalWholeCounter s) (verticalWholeCounter s)
    v (centerDiffY s) (singleClickTimeout s) (longPressTimeout s)
    (lastClickTime s) (doubleClickX s) (doubleClickY s) (isDoubleClick s)
    (isLongPress s) (isHorizontalWrap s) (calls s).

Definition set_centerDiffY (v : Q) (s : ImageViewer) : ImageViewer :=
  mkViewer (lastPositionX s) (positionX s) (animatedPositionX s)
    (lastPositionY s) (positionY s) (animatedPositionY s) (scale s)
    (animatedScale s) (zoomLastDistance s) (zoomCurrentDistance s)
    (lastTouchStartTime s) (horizontalWholeOuterCounter s)
    (swipeDownOffset s) (horizontalWholeCounter s) (verticalWholeCounter s)
    (centerDiffX s) v (singleClickTimeout s) (longPressTimeout s)
    (lastClickTime s) (doubleClickX s) (doubleClickY s) (isDoubleClick s)
    (isLongPress s) (isHorizontalWrap s) (calls s).

Definition set_singleClickTimeout (v : Timeout) (s : ImageViewer) : ImageViewer :=
  mkViewer (lastPositionX s) (positionX s) (animatedPositionX s)
    (lastPositionY s) (positionY s) (animatedPositionY s) (scale s)
    (animatedScale s) (zoomLastDistance s) (zoomCurrentDistance s)
    (lastTouchStartTime s) (horizontalWholeOuterCounter s)
    (swipeDownOffset s) (horizontalWholeCounter s) (verticalWholeCounter s)
    (centerDiffX s) (centerDiffY s) v (longPressTimeout s) (lastClickTime s)
    (doubleClickX s) (doubleClickY s) (isDoubleClick s) (isLongPress s)
    (isHorizontalWrap s) (calls s).

Definition set_longPressTimeout (v : Timeout) (s : ImageViewer) : ImageViewer :=
  mkViewer (lastPositionX s) (positionX s) (animatedPositionX s)
    (lastPositionY s) (positionY s) (animatedPositionY s) (scale s)
    (animatedScale s) (zoomLastDistance s) (zoomCurrentDistance s)
    (lastTouchStartTime s) (horizontalWholeOuterCounter s)
    (swipeDownOffset s) (horizontalWholeCounter s) (verticalWholeCounter s)
    (centerDiffX s) (centerDiffY s) (singleClickTimeout s) v
    (lastClickTime s) (doubleClickX s) (doubleClickY s) (isDoubleClick s)
    (isLongPress s) (isHorizontalWrap s) (calls s).

Definition set_lastClickTime (v : Z) (s : ImageViewer) : ImageViewer :=
  mkViewer (lastPositionX s) (positionX s) (animatedPositionX s)
    (lastPositionY s) (positionY s) (animatedPositionY s) (scale s)
    (animatedScale s) (zoomLastDistance s) (zoomCurrentDistance s)
    (lastTouchStartTime s) (horizontalWholeOuterCounter s)
    (swipeDownOffset s) (horizontalWholeCounter s) (verticalWholeCounter s)
    (centerDiffX s) (centerDiffY s) (singleClickTimeout s)
    (longPressTimeout s) v (doubleClickX s) (doubleClickY s)
    (isDoubleClick s) (isLongPress s) (isHorizontalWrap s) (calls s).

Definition set_doubleClickX (v : Q) (s : ImageViewer) : ImageViewer :=
  mkViewer (lastPositionX s) (positionX s) (animatedPositionX s)
    (lastPositionY s) (positionY s) (animatedPositionY s) (scale s)
    (animatedScale s) (zoomLastDistance s) (zoomCurrentDistance s)
    (lastTouchStartTime s) (horizontalWholeOuterCounter s)
    (swipeDownOffset s) (horizontalWholeCounter s) (verticalWholeCounter s)
    (centerDiffX s) (centerDiffY s) (singleClickTimeout s)
    (longPressTimeout s) (lastClickTime s) v (doubleClickY s)
    (isDoubleClick s) (isLongPress s) (isHorizontalWrap s) (calls s).

Definition set_doubleClickY (v : Q) (s : ImageViewer) : ImageViewer :=
  mkViewer (lastPositionX s) (positionX s) (animatedPositionX s)
    (lastPositionY s) (positionY s) (animatedPositionY s) (scale s)
    (animatedScale s) (zoomLastDistance s) (zoomCurrentDistance s)
    (lastTouchStartTime s) (horizontalWholeOuterCounter s)
    (swipeDownOffset s) (horizontalWholeCounter s) (verticalWholeCounter s)
    (centerDiffX s) (centerDiffY s) (singleClickTimeout s)
    (longPressTimeout s) (lastClickTime s) (doubleClickX s) v
    (isDoubleClick s) (isLongPress s) (isHorizontalWrap s) (calls s).

Definition set_isDoubleClick (v : bool) (s : ImageViewer) : ImageViewer :=
  mkViewer (lastPositionX s) (positionX s) (animatedPositionX s)
    (lastPositionY s) (positionY s) (animatedPositionY s) (scale s)
    (animatedScale s) (zoomLastDistance s) (zoomCurrentDistance s)
    (lastTouchStartTime s) (horizontalWholeOuterCounter s)
    (swipeDownOffset s) (horizontalWholeCounter s) (verticalWholeCounter s)
    (centerDiffX s) (centerDiffY s) (singleClickTimeout s)
    (longPressTimeout s) (lastClickTime s) (doubleClickX s) (doubleClickY s)
    v (isLongPress s) (isHorizontalWrap s) (calls s).

Definition set_isLongPress (v : bool) (s : ImageViewer) : ImageViewer :=
  mkViewer (lastPositionX s) (positionX s) (animatedPositionX s)
    (lastPositionY s) (positionY s) (animatedPositionY s) (scale s)
    (animatedScale s) (zoomLastDistance s) (zoomCurrentDistance s)
    (lastTouchStartTime s) (horizontalWholeOuterCounter s)
    (swipeDownOffset s) (horizontalWholeCounter s) (verticalWholeCounter s)
    (centerDiffX s) (centerDiffY s) (singleClickTimeout s)
    (longPressTimeout s) (lastClickTime s) (doubleClickX s) (doubleClickY s)
    (isDoubleClick s) v (isHorizontalWrap s) (calls s).

Definition set_isHorizontalWrap (v : bool) (s : ImageViewer) : ImageViewer :=
  mkViewer (lastPositionX s) (positionX s) (animatedPositionX s)
    (lastPositionY s) (positionY s) (animatedPositionY s) (scale s)
    (animatedScale s) (zoomLastDistance s) (zoomCurrentDistance s)
    (lastTouchStartTime s) (horizontalWholeOuterCounter s)
    (swipeDownOffset s) (horizontalWholeCounter s) (verticalWholeCounter s)
    (centerDiffX s) (centerDiffY s) (singleClickTimeout s)
    (longPressTimeout s) (lastClickTime s) (doubleClickX s) (doubleClickY s)
    (isDoubleClick s) (isLongPress s) v (calls s).

Definition set_calls (v : list Call) (s : ImageViewer) : ImageViewer :=
  mkViewer (lastPositionX s) (positionX s) (animatedPositionX s)
    (lastPositionY s) (positionY s) (animatedPositionY s) (scale s)
    (animatedScale s) (zoomLastDistance s) (zoomCurrentDistance s)
    (lastTouchStartTime s) (horizontalWholeOuterCounter s)
    (swipeDownOffset s) (horizontalWholeCounter s) (verticalWholeCounter s)
    (centerDiffX s) (centerDiffY s) (singleClickTimeout s)
    (longPressTimeout s) (lastClickTime s) (doubleClickX s) (doubleClickY s)
    (isDoubleClick s) (isLongPress s) (isHorizontalWrap s) v.

(** The component as constructed: the field initialisers of the class. *)
Definition initial : ImageViewer :=
  mkViewer None 0 (newAnimated 0) None 0 (newAnimated 0) 1 (newAnimated 1)
    None 0 0%Z 0 0 0 0 0 0 Unset Unset 0%Z 0 0 false false false [].

(** [if (props.cb) { props.cb(args) }] *)
Definition call (c : Call) (s : ImageViewer) : ImageViewer :=
  set_calls (calls s ++ [c]) s.

Definition callIf (supplied : bool) (c : Call) (s : ImageViewer) : ImageViewer :=
  if supplied then call c s else s.

(** The calls made between [s] and a later [s']. *)
Definition callsSince (s s' : ImageViewer) : list Call :=
  skipn (length (calls s)) (calls s').

Section Component.

Variable props : ImageZoomProps.

(** [Animated.timing(a, {toValue, duration, useNativeDriver}).start()] *)
Definition animateTo (v d : Q) (a : AnimatedValue) : AnimatedValue :=
  timingStart (mkTiming v d (p_useNativeDriver props)) a.

Definition imageDidMove (type : string) (s : ImageViewer) : ImageViewer :=
  callIf (onMove props)
    (CallOnMove (mkOnMove type (positionX s) (positionY s) (scale s)
                   (zoomCurrentDistance s))) s.

(** *** onPanResponderGrant *)

(** The body of [if (this.props.enableDoubleClickZoom)], lines 135-177:
    the zoom toggle at the recorded double-click point. *)
Definition doubleClickZoom (s : ImageViewer) : ImageViewer :=
  let s :=
    if (scale s >? 1) || (scale s <? 1) then
      let s := set_scale 1 s in
      let s := set_positionX 0 s in
      set_positionY 0 s
    else
      let beforeScale := scale s in
      let s := set_scale 2 s in
      let diffScale := scale s - beforeScale in
      let s := set_positionX
                 (((cropWidth props / 2 - doubleClickX s) * diffScale) / scale s) s in
      set_positionY
        (((cropHeight props / 2 - doubleClickY s) * diffScale) / scale s) s in
  let s := imageDidMove "centerOn" s in
  let s := set_animatedScale (animateTo (scale s) 100 (animatedScale s)) s in
  let s := set_animatedPositionX
             (animateTo (positionX s) 100 (animatedPositionX s)) s in
  set_animatedPositionY (animateTo (positionY s) 100 (animatedPositionY s)) s.

(** [now] is the value of [new Date().getTime()] during the call. *)
Definition onPanResponderGrant (now : Z) (evt : NativeEvent)
    (s : ImageViewer) : ImageViewer :=
  let s := set_lastPositionX None s in
  let s := set_lastPositionY None s in
  let s := set_zoomLastDistance None s in
  let s := set_horizontalWholeCounter 0 s in
  let s := set_verticalWholeCounter 0 s in
  let s := set_lastTouchStartTime now s in
  let s := set_isDoubleClick false s in
  let s := set_isLongPress false s in
  let s := set_isHorizontalWrap false s in
  let s := set_singleClickTimeout (clearTimeout (singleClickTimeout s)) s in
  let s :=
    if Nat.ltb 1 (length (changedTouches evt)) then
      let centerX := (pageX (touch evt 0) + pageX (touch evt 1)) / 2 in
      let s := set_centerDiffX (centerX - cropWidth props / 2) s in
      let centerY := (pageY (touch evt 0) + pageY (touch evt 1)) / 2 in
      set_centerDiffY (centerY - cropHeight props / 2) s
    else s in
  let s := set_longPressTimeout (clearTimeout (longPressTimeout s)) s in
  let s := set_longPressTimeout (Pending (evPoint evt)) s in
  if Nat.leb (length (changedTouches evt)) 1 then
    if inject_Z (now - lastClickTime s) <? Num.optOr (doubleClickInterval props) 0
    then
      let s := set_lastClickTime 0%Z s in
      let s := set_doubleClickX (pageX (touch evt 0)) s in
      let s := set_doubleClickY (pageY (touch evt 0)) s in
      let s := callIf (onDoubleClick props)
                 (CallOnDoubleClick
                    (mkPoint (locationX (touch evt 0)) (locationY (touch evt 0))
                       (doubleClickX s) (doubleClickY s))) s in
      let s := set_longPressTimeout (clearTimeout (longPressTimeout s)) s in
      let s := set_isDoubleClick true s in
      if enableDoubleClickZoom props then doubleClickZoom s else s
    else set_lastClickTime now s
  else s.

(** The callback armed by [setTimeout] at line 102, when it fires. *)
Definition longPressTimeoutFires (s : ImageViewer) : ImageViewer :=
  match longPressTimeout s with
  | Pending p =>
      let s := set_longPressTimeout Spent s in
      let s := set_isLongPress true s in
      callIf (onLongPress props) (CallOnLongPress p) s
  | _ => s
  end.

(** *** onPanResponderMove *)

(** Lines 226-268: an overflow on one side is used up before the image
    is dragged back; returns the remaining [diffX]. *)
Definition retractOverflow (diffX : Q) (s : ImageViewer) : Q * ImageViewer :=
  if horizontalWholeOuterCounter s >? 0 then
    if diffX <? 0 then
      if horizontalWholeOuterCounter s >? Qabs diffX then
        (0, set_horizontalWholeOuterCounter
              (horizontalWholeOuterCounter s + diffX) s)
      else
        let diffX := diffX + horizontalWholeOuterCounter s in
        let s := set_horizontalWholeOuterCounter 0 s in
        (diffX, callIf (horizontalOuterRangeOffset props)
                  (CallHorizontalOuterRangeOffset 0) s)
    else
      (diffX, set_horizontalWholeOuterCounter
                (horizontalWholeOuterCounter s + diffX) s)
  else if horizontalWholeOuterCounter s <? 0 then
    if diffX >? 0 then
      if Qabs (horizontalWholeOuterCounter s) >? diffX then
        (0, set_horizontalWholeOuterCounter
              (horizontalWholeOuterCounter s + diffX) s)
      else
        let diffX := diffX + horizontalWholeOuterCounter s in
        let s := set_horizontalWholeOuterCounter 0 s in
        (diffX, callIf (horizontalOuterRangeOffset props)
                  (CallHorizontalOuterRangeOffset 0) s)
    else
      (diffX, set_horizontalWholeOuterCounter
                (horizontalWholeOuterCounter s + diffX) s)
  else (diffX, s).

(** Lines 223-293. *)
Definition dragHorizontally (diffX : Q) (s : ImageViewer) : ImageViewer :=
  if imageWidth props * scale s >? cropWidth props then
    let (diffX, s) := retractOverflow diffX s in
    let s := set_positionX (positionX s + diffX / scale s) s in
    let horizontalMax :=
      (imageWidth props * scale s - cropWidth props) / 2 / scale s in
    let s :=
      if positionX s <? - horizontalMax then
        let s := set_positionX (- horizontalMax) s in
        set_horizontalWholeOuterCounter
          (horizontalWholeOuterCounter s + (-1) / 1e10) s
      else if positionX s >? horizontalMax then
        let s := set_positionX horizontalMax s in
        set_horizontalWholeOuterCounter
          (horizontalWholeOuterCounter s + 1 / 1e10) s
      else s in
    set_animatedPositionX (setValue (positionX s) (animatedPositionX s)) s
  else
    set_horizontalWholeOuterCounter (horizontalWholeOuterCounter s + diffX) s.

(** Lines 296-300. *)
Definition limitOverflow (s : ImageViewer) : ImageViewer :=
  if horizontalWholeOuterCounter s >? Num.optOr (maxOverflow props) 0 then
    set_horizontalWholeOuterCounter (Num.optOr (maxOverflow props) 0) s
  else if horizontalWholeOuterCounter s <? - Num.optOr (maxOverflow props) 0 then
    set_horizontalWholeOuterCounter (- Num.optOr (maxOverflow props) 0) s
  else s.

(** Lines 216-308. *)
Definition panHorizontal (diffX diffY : Q) (s : ImageViewer) : ImageViewer :=
  if swipeDownOffset s =? 0 then
    let s :=
      if Qabs diffX >? Qabs diffY then set_isHorizontalWrap true s else s in
    let s := dragHorizontally diffX s in
    let s := limitOverflow s in
    if Num.neqb (horizontalWholeOuterCounter s) 0 then
      callIf (horizontalOuterRangeOffset props)
        (CallHorizontalOuterRangeOffset (horizontalWholeOuterCounter s)) s
    else s
  else s.

(** Lines 311-350.  The quotients by [scale s] (lines 312 and 342) are
    those of the source when the scale is not 0; at scale 0 the source
    computes NaN or an infinity. *)
Definition panVertical (diffY : Q) (s : ImageViewer) : ImageViewer :=
  if imageHeight props * scale s >? cropHeight props then
    let s := set_positionY (positionY s + diffY / scale s) s in
    set_animatedPositionY (setValue (positionY s) (animatedPositionY s)) s
  else
    if enableSwipeDown props && negb (isHorizontalWrap s) then
      let s := set_swipeDownOffset (swipeDownOffset s + diffY) s in
      if swipeDownOffset s >? 0 then
        let s := set_positionY (positionY s + diffY / scale s) s in
        let s := set_animatedPositionY
                   (setValue (positionY s) (animatedPositionY s)) s in
        let s := set_scale (scale s - diffY / 1000) s in
        set_animatedScale (setValue (scale s) (animatedScale s)) s
      else s
    else s.

(** Lines 192-200: the displacement since the previous move. *)
Definition moveDiff (d : Q) (last : option Q) : Q :=
  let diff := d - Num.optOr last 0 in
  match last with
  | None => 0
  | Some _ => diff
  end.

(** Lines 361-384. *)
Definition pinchDistance (evt : NativeEvent) : Q :=
  let '(minX, maxX) :=
    if locationX (touch evt 0) >? locationX (touch evt 1)
    then (pageX (touch evt 1), pageX (touch evt 0))
    else (pageX (touch evt 0), pageX (touch evt 1)) in
  let '(minY, maxY) :=
    if locationY (touch evt 0) >? locationY (touch evt 1)
    then (pageY (touch evt 1), pageY (touch evt 0))
    else (pageY (touch evt 0), pageY (touch evt 1)) in
  let widthDistance := maxX - minX in
  let heightDistance := maxY - minY in
  Num.sqrtFixed1 (widthDistance * widthDistance + heightDistance * heightDistance).

(** Lines 387-394. *)
Definition limitZoom (zoom : Q) : Q :=
  let zoom :=
    if zoom <? Num.optOr (minScale props) 0
    then Num.optOr (minScale props) 0 else zoom in
  if zoom >? Num.optOr (maxScale props) 0
  then Num.optOr (maxScale props) 0 else zoom.

(** Lines 360-414: the body of [if (this.props.pinchToZoom)].  The
    quotients by the new scale (lines 409-410) are those of the source when
    that scale is not 0; at scale 0 the source computes NaN or an
    infinity. *)
Definition pinchZoom (evt : NativeEvent) (s : ImageViewer) : ImageViewer :=
  let s := set_zoomCurrentDistance (pinchDistance evt) s in
  let s :=
    match zoomLastDistance s with
    | Some last =>
        let distanceDiff := (zoomCurrentDistance s - last) / 200 in
        let zoom := limitZoom (scale s + distanceDiff) in
        let beforeScale := scale s in
        let s := set_scale zoom s in
        let s := set_animatedScale (setValue (scale s) (animatedScale s)) s in
        let diffScale := scale s - beforeScale in
        let s := set_positionX
                   (positionX s - (centerDiffX s * diffScale) / scale s) s in
        let s := set_positionY
                   (positionY s - (centerDiffY s * diffScale) / scale s) s in
        let s := set_animatedPositionX
                   (setValue (positionX s) (animatedPositionX s)) s in
        set_animatedPositionY (setValue (positionY s) (animatedPositionY s)) s
    | None => s
    end in
  set_zoomLastDistance (Some (zoomCurrentDistance s)) s.

(** Lines 203-212: the displacement is recorded and added to the totals
    of the gesture; a total beyond 5 cancels the long press. *)
Definition trackMove (gestureState : GestureState) (diffX diffY : Q)
    (s : ImageViewer) : ImageViewer :=
  let s := set_lastPositionX (Some (dx gestureState)) s in
  let s := set_lastPositionY (Some (dy gestureState)) s in
  let s := set_horizontalWholeCounter (horizontalWholeCounter s + diffX) s in
  let s := set_verticalWholeCounter (verticalWholeCounter s + diffY) s in
  if (Qabs (horizontalWholeCounter s) >? 5) || (Qabs (verticalWholeCounter s) >? 5)
  then set_longPressTimeout (clearTimeout (longPressTimeout s)) s
  else s.

Definition onPanResponderMove (evt : NativeEvent) (gestureState : GestureState)
    (s : ImageViewer) : ImageViewer :=
  if isDoubleClick s then s
  else
    let s :=
      if Nat.leb (length (changedTouches evt)) 1 then
        let diffX := moveDiff (dx gestureState) (lastPositionX s) in
        let diffY := moveDiff (dy gestureState) (lastPositionY s) in
        let s := trackMove gestureState diffX diffY s in
        if panToMove props then
          let s := panHorizontal diffX diffY s in
          panVertical diffY s
        else s
      else
        let s := set_longPressTimeout (clearTimeout (longPressTimeout s)) s in
        if pinchToZoom props then pinchZoom evt s else s in
    imageDidMove "onPanResponderMove" s.

(** *** onPanResponderRelease and the settling of the transform *)

(** Lines 470-471: the release is a swipe down. *)
Definition isSwipeDown (s : ImageViewer) : bool :=
  enableSwipeDown props &&
  match swipeDownThreshold props with
  | Some threshold => Num.neqb threshold 0 && (swipeDownOffset s >? threshold)
  | None => false
  end.

(** Lines 480-488. *)
Definition restoreScale (s : ImageViewer) : ImageViewer :=
  if enableCenterFocus props && (scale s <? 1) then
    let s := set_scale 1 s in
    set_animatedScale (animateTo (scale s) 100 (animatedScale s)) s
  else s.

(** Lines 490-498. *)
Definition recentreX (s : ImageViewer) : ImageViewer :=
  if imageWidth props * scale s <=? cropWidth props then
    let s := set_positionX 0 s in
    set_animatedPositionX (animateTo (positionX s) 100 (animatedPositionX s)) s
  else s.

(** Lines 500-508. *)
Definition recentreY (s : ImageViewer) : ImageViewer :=
  if imageHeight props * scale s <=? cropHeight props then
    let s := set_positionY 0 s in
    set_animatedPositionY (animateTo (positionY s) 100 (animatedPositionY s)) s
  else s.

(** Lines 512-525. *)
Definition boundY (s : ImageViewer) : ImageViewer :=
  if imageHeight props * scale s >? cropHeight props then
    let verticalMax :=
      (imageHeight props * scale s - cropHeight props) / 2 / scale s in
    let s :=
      if positionY s <? - verticalMax then set_positionY (- verticalMax) s
      else if positionY s >? verticalMax then set_positionY verticalMax s
      else s in
    set_animatedPositionY (animateTo (positionY s) 100 (animatedPositionY s)) s
  else s.

(** Lines 527-540. *)
Definition boundX (s : ImageViewer) : ImageViewer :=
  if imageWidth props * scale s >? cropWidth props then
    let horizontalMax :=
      (imageWidth props * scale s - cropWidth props) / 2 / scale s in
    let s :=
      if positionX s <? - horizontalMax then set_positionX (- horizontalMax) s
      else if positionX s >? horizontalMax then set_positionX horizontalMax s
      else s in
    set_animatedPositionX (animateTo (positionX s) 100 (animatedPositionX s)) s
  else s.

(** Lines 543-556. *)
Definition centerFocus (s : ImageViewer) : ImageViewer :=
  if enableCenterFocus props && (scale s =? 1) then
    let s := set_positionX 0 s in
    let s := set_positionY 0 s in
    let s := set_animatedPositionX
               (animateTo (positionX s) 100 (animatedPositionX s)) s in
    set_animatedPositionY (animateTo (positionY s) 100 (animatedPositionY s)) s
  else s.

(** Lines 468-565, the six checks above in the order of the source. *)
Definition panResponderReleaseResolve (s : ImageViewer) : ImageViewer :=
  if isSwipeDown s then
    (* Stop reset. *)
    callIf (onSwipeDown props) CallOnSwipeDown s
  else
    let s := restoreScale s in
    let s := recentreX s in
    let s := recentreY s in
    let s := boundY s in
    let s := boundX s in
    let s := centerFocus s in
    let s := set_horizontalWholeOuterCounter 0 s in
    let s := set_swipeDownOffset 0 s in
    imageDidMove "onPanResponderRelease" s.

(** [Math.sqrt(d2) < c], decided without the root: [0 < c] and
    [d2 < c * c]. *)
Definition sqrtLt (d2 c : Q) : bool := (0 <? c) && (d2 <? c * c).

Definition onPanResponderRelease (evt : NativeEvent) (gestureState : GestureState)
    (s : ImageViewer) : ImageViewer :=
  let s := set_longPressTimeout (clearTimeout (longPressTimeout s)) s in
  if isDoubleClick s then s
  else if isLongPress s then s
  else
    if Nat.eqb (length (changedTouches evt)) 1
       && sqrtLt (dx gestureState * dx gestureState + dy gestureState * dy gestureState)
            (Num.optOr (clickDistance props) 0)
    then set_singleClickTimeout (Pending (evPoint evt)) s
    else
      let s := callIf (responderRelease props)
                 (CallResponderRelease (vx gestureState) (scale s)) s in
      panResponderReleaseResolve s.

(** The callback armed by [setTimeout] at line 442, when it fires. *)
Definition singleClickTimeoutFires (s : ImageViewer) : ImageViewer :=
  match singleClickTimeout s with
  | Pending p =>
      let s := set_singleClickTimeout Spent s in
      callIf (onClick props) (CallOnClick p) s
  | _ => s
  end.

(** *** The public commands *)

Definition resetScale (s : ImageViewer) : ImageViewer :=
  let s := set_positionX 0 s in
  let s := set_positionY 0 s in
  let s := set_scale 1 s in
  set_animatedScale (setValue 1 (animatedScale s)) s.

Definition reset (s : ImageViewer) : ImageViewer :=
  let s := set_scale 1 s in
  let s := set_animatedScale (setValue (scale s) (animatedScale s)) s in
  let s := set_positionX 0 s in
  let s := set_animatedPositionX (setValue (positionX s) (animatedPositionX s)) s in
  let s := set_positionY 0 s in
  set_animatedPositionY (setValue (positionY s) (animatedPositionY s)) s.

Definition didCenterOnChange (params paramsNext : ICenterOn) : bool :=
  Num.neqb (co_x params) (co_x paramsNext)
  || Num.neqb (co_y params) (co_y paramsNext)
  || Num.neqb (co_scale params) (co_scale paramsNext).

(** The completion callback of the parallel animation is
    [centerOnCompletes]. *)
Definition centerOn (params : ICenterOn) (s : ImageViewer) : ImageViewer :=
  let s := set_positionX (co_x params) s in
  let s := set_positionY (co_y params) s in
  let s := set_scale (co_scale params) s in
  let duration := Num.or (co_duration params) 300 in
  let s := set_animatedScale (animateTo (scale s) duration (animatedScale s)) s in
  let s := set_animatedPositionX
             (animateTo (positionX s) duration (animatedPositionX s)) s in
  set_animatedPositionY (animateTo (positionY s) duration (animatedPositionY s)) s.

Definition centerOnCompletes (s : ImageViewer) : ImageViewer :=
  imageDidMove "centerOn" s.

Definition componentDidMount (s : ImageViewer) : ImageViewer :=
  match centerOnProp props with
  | Some params => centerOn params s
  | None => s
  end.

(** [prevCenterOn] is [prevProps.centerOn]. *)
Definition componentDidUpdate (prevCenterOn : option ICenterOn)
    (s : ImageViewer) : ImageViewer :=
  match centerOnProp props, prevCenterOn with
  | Some params, None => centerOn params s
  | Some params, Some prev =>
      if didCenterOnChange prev params then centerOn params s else s
  | None, _ => s
  end.

(** *** The component as a machine *)

Inductive Input :=
| Grant (now : Z) (evt : NativeEvent)
| Move (evt : NativeEvent) (gestureState : GestureState)
| Release (evt : NativeEvent) (gestureState : GestureState)
| Terminate
| LongPressTimer
| SingleClickTimer
| DoResetScale
| DoReset
| DoCenterOn (params : ICenterOn)
| CenterOnDone
| DidMount
| DidUpdate (prevCenterOn : option ICenterOn).

Definition step (s : ImageViewer) (i : Input) : ImageViewer :=
  match i with
  | Grant now evt => onPanResponderGrant now evt s
  | Move evt g => onPanResponderMove evt g s
  | Release evt g => onPanResponderRelease evt g s
  | Terminate => s
  | LongPressTimer => longPressTimeoutFires s
  | SingleClickTimer => singleClickTimeoutFires s
  | DoResetScale => resetScale s
  | DoReset => reset s
  | DoCenterOn params => centerOn params s
  | CenterOnDone => centerOnCompletes s
  | DidMount => componentDidMount s
  | DidUpdate prev => componentDidUpdate prev s
  end.

Definition run (s : ImageViewer) (inputs : list Input) : ImageViewer :=
  fold_left step inputs s.

End Component.

(** ** What a handler leaves alone

    The relations between the component before and after a handler that
    the properties below are stated with. *)

(** What the six checks of the settle leave alone. *)
Definition settleFrame (s s' : ImageViewer) : Prop :=
  calls s' = calls s /\
  horizontalWholeOuterCounter s' = horizontalWholeOuterCounter s /\
  swipeDownOffset s' = swipeDownOffset s.

(** Both overflow counters are as before. *)
Definition sameOverflow (s s' : ImageViewer) : Prop :=
  horizontalWholeOuterCounter s' = horizontalWholeOuterCounter s /\
  swipeDownOffset s' = swipeDownOffset s.

(** What the horizontal pan leaves alone, the flag apart. *)
Definition horizontalFrame (s s' : ImageViewer) : Prop :=
  swipeDownOffset s' = swipeDownOffset s /\
  scale s' = scale s /\
  longPressTimeout s' = longPressTimeout s /\
  isHorizontalWrap s' = isHorizontalWrap s /\
  horizontalWholeCounter s' = horizontalWholeCounter s /\
  verticalWholeCounter s' = verticalWholeCounter s.

(** The flag a horizontal pan leaves behind. *)
Definition wrapAfter (diffX diffY : Q) (s : ImageViewer) : bool :=
  isHorizontalWrap s
  || ((swipeDownOffset s =? 0) && (Qabs diffX >? Qabs diffY)).

(** The span and the double-click flag are as before. *)
Definition sameSpan (s s' : ImageViewer) : Prop :=
  zoomLastDistance s' = zoomLastDistance s /\
  isDoubleClick s' = isDoubleClick s.

(** A recorded span comes from a pinch: the gesture is no double click and
    pinchToZoom is on. *)
Definition recorded (props : ImageZoomProps) (s : ImageViewer) : Prop :=
  zoomLastDistance s <> None ->
  isDoubleClick s = false /\ pinchToZoom props = true.

(** [clamp(x, lo, hi)], as [Math.min(Math.max(x, lo), hi)]. *)
Definition clamp (x lo hi : Q) : Q := Qmin (Qmax x lo) hi.

(** ** More relations between the component before and after a handler *)

(** The tolerance [(image * scale - crop) / 2 / scale] of lines 275, 514
    and 529: how far the image may be off centre without a border. *)
Definition maxOffset (image crop sc : Q) : Q := (image * sc - crop) / 2 / sc.

(** The transform is as before. *)
Definition sameTransform (s s' : ImageViewer) : Prop :=
  scale s' = scale s /\ positionX s' = positionX s /\ positionY s' = positionY s.

(** A transform the release settle has nothing to correct: the scale is
    not below 1 under center focus, an axis that fits is centred, an axis
    that overflows is within its tolerance, and under center focus at
    scale 1 both offsets are 0. *)
Definition settled (props : ImageZoomProps) (s : ImageViewer) : Prop :=
  enableCenterFocus props && (scale s <? 1) = false /\
  (imageWidth props * scale s <= cropWidth props -> positionX s = 0) /\
  (imageHeight props * scale s <= cropHeight props -> positionY s = 0) /\
  (cropWidth props < imageWidth props * scale s ->
   Qabs (positionX s) <= maxOffset (imageWidth props) (cropWidth props) (scale s)) /\
  (cropHeight props < imageHeight props * scale s ->
   Qabs (positionY s) <= maxOffset (imageHeight props) (cropHeight props) (scale s)) /\
  (enableCenterFocus props && (scale s =? 1) = true ->
   positionX s = 0 /\ positionY s = 0).

(** The fields by which gestures are told apart are as before. *)
Definition sameClassifier (s s' : ImageViewer) : Prop :=
  lastPositionX s' = lastPositionX s /\
  lastPositionY s' = lastPositionY s /\
  singleClickTimeout s' = singleClickTimeout s /\
  longPressTimeout s' = longPressTimeout s /\
  lastClickTime s' = lastClickTime s /\
  isDoubleClick s' = isDoubleClick s /\
  isLongPress s' = isLongPress s /\
  centerDiffX s' = centerDiffX s /\
  centerDiffY s' = centerDiffY s.

(** The calls made between [s] and [s'] all satisfy [P]. *)
Definition appended (P : Call -> Prop) (s s' : ImageViewer) : Prop :=
  exists l, calls s' = calls s ++ l /\ Forall P l.

(** A call of horizontalOuterRangeOffset with an offset within [M]. *)
Definition overflowCall (M : Q) (c : Call) : Prop :=
  match c with
  | CallHorizontalOuterRangeOffset offset => Qabs offset <= M
  | _ => False
  end.

(** Any call but one of horizontalOuterRangeOffset with an offset beyond
    [M]. *)
Definition boundedCall (M : Q) (c : Call) : Prop :=
  match c with
  | CallHorizontalOuterRangeOffset offset => Qabs offset <= M
  | _ => True
  end.

(** The input is a gesture start. *)
Definition isGrant (i : Input) : bool :=
  match i with
  | Grant _ _ => true
  | _ => false
  end.

(** The point [onDoubleClick] is called with: lines 120-125. *)
Definition doubleClickPoint (evt : NativeEvent) : Point :=
  mkPoint (locationX (touch evt 0)) (locationY (touch evt 0))
    (pageX (touch evt 0)) (pageY (touch evt 0)).

(** ** Runs of the component: props, events and inputs *)

Module Demo.

(** A 300 x 200 image in a 300 x 300 viewport, every callback supplied. *)
Definition props : ImageZoomProps :=
  mkProps 300 300 300 200 true true true true false
    (Some 10) (Some 100) (Some 175) (Some (6 # 10)) (Some 10) (Some 230)
    false None true true true true true true true.

(** The same with [swipeDownThreshold] 0. *)
Definition zeroThreshold : ImageZoomProps :=
  mkProps 300 300 300 200 true true true true false
    (Some 10) (Some 100) (Some 175) (Some (6 # 10)) (Some 10) (Some 0)
    false None true true true true true true true.

(** The same with a [centerOn] prop. *)
Definition target : ICenterOn := mkCenterOn 20 30 2 0.

Definition centred : ImageZoomProps :=
  mkProps 300 300 300 200 true true true true false
    (Some 10) (Some 100) (Some 175) (Some (6 # 10)) (Some 10) (Some 230)
    false (Some target) true true true true true true true.

(** The same with [enableCenterFocus] on. *)
Definition focused : ImageZoomProps :=
  mkProps 300 300 300 200 true true true true true
    (Some 10) (Some 100) (Some 175) (Some (6 # 10)) (Some 10) (Some 230)
    false None true true true true true true true.

(** A 600 x 200 image in the 300 x 300 viewport. *)
Definition wide : ImageZoomProps :=
  mkProps 300 300 600 200 true true true true false
    (Some 10) (Some 100) (Some 175) (Some (6 # 10)) (Some 10) (Some 230)
    false None true true true true true true true.

(** The first props with [panToMove] and [pinchToZoom] off. *)
Definition locked : ImageZoomProps :=
  mkProps 300 300 300 200 false false true true false
    (Some 10) (Some 100) (Some 175) (Some (6 # 10)) (Some 10) (Some 230)
    false None true true true true true true true.

Definition oneTouch (x y : Q) : NativeEvent :=
  mkEvent [mkTouch x y x y] x y x y.

Definition twoTouches (x0 y0 x1 y1 : Q) : NativeEvent :=
  mkEvent [mkTouch x0 y0 x0 y0; mkTouch x1 y1 x1 y1] x0 y0 x0 y0.

Definition moved (x y : Q) : GestureState := mkGesture x y 0.

(** One finger goes down and is dragged by (x, y). *)
Definition drag (x y : Q) : list Input :=
  [Grant 1000 (oneTouch 150 150);
   Move (oneTouch 150 150) (moved 0 0);
   Move (oneTouch (150 + x) (150 + y)) (moved x y)].

(** Two fingers go down 100 apart around the centre of the viewport. *)
Definition pinchStart : list Input :=
  [Grant 1000 (twoTouches 100 150 200 150);
   Move (twoTouches 100 150 200 150) (moved 0 0)].

(** The component after the first move of a drag, of a pinch. *)
Definition dragging : ImageViewer :=
  run props initial
    [Grant 1000 (oneTouch 150 150); Move (oneTouch 150 150) (moved 0 0)].

Definition pinching : ImageViewer := run props initial pinchStart.

(** The same pinch on an image first centred on (20, 30) at scale 2. *)
Definition pinchingAside : ImageViewer :=
  run props initial (DoCenterOn target :: pinchStart).

(** Mounted with the [centerOn] prop, the animation completed, then dragged
    by 9 to the right. *)
Definition panned : ImageViewer :=
  run centred initial (DidMount :: CenterOnDone :: drag 9 0).

(** A tap and, 100 ms later, a second one: a double click. *)
Definition doubleTap (t : Z) : list Input :=
  [Grant t (oneTouch 100 120);
   Release (oneTouch 100 120) (moved 0 0);
   Grant (t + 100) (oneTouch 100 120);
   Release (oneTouch 100 120) (moved 0 0)].

End Demo.

(** * Properties *)

(** ** Comparisons *)

Lemma ltb_spec (a b : Q) : reflect (a < b) (a <? b).
Proof.
  unfold Num.ltb. destruct (Qle_bool b a) eqn:E; constructor.
  - apply Qle_bool_iff in E. now apply Qle_not_lt.
  - apply Qnot_le_lt. intro H. apply Qle_bool_iff in H. congruence.
Qed.

Lemma gtb_spec (a b : Q) : reflect (b < a) (a >? b).
Proof. unfold Num.gtb. apply ltb_spec. Qed.

Lemma leb_spec (a b : Q) : reflect (a <= b) (a <=? b).
Proof.
  unfold Num.leb. destruct (Qle_bool a b) eqn:E; constructor.
  - now apply Qle_bool_iff.
  - intro H. apply Qle_bool_iff in H. congruence.
Qed.

Lemma eqb_spec (a b : Q) : reflect (a == b) (a =? b).
Proof.
  unfold Num.eqb. destruct (Qeq_bool a b) eqn:E; constructor.
  - now apply Qeq_bool_iff.
  - intro H. apply Qeq_bool_iff in H. congruence.
Qed.

Lemma neqb_spec (a b : Q) : reflect (~ a == b) (Num.neqb a b).
Proof.
  unfold Num.neqb. destruct (Qeq_bool a b) eqn:E; constructor.
  - intro H. now apply H, Qeq_bool_iff.
  - intro H. apply Qeq_bool_iff in H. congruence.
Qed.

(** ** The trace of callbacks *)

Lemma callsSince_app (s s' : ImageViewer) (l : list Call) :
  calls s' = calls s ++ l -> callsSince s s' = l.
Proof.
  intros H. unfold callsSince. rewrite H, skipn_app, skipn_all, Nat.sub_diag.
  reflexivity.
Qed.

(** ** Settling at release *)

Section Settle.

Variable props : ImageZoomProps.

Lemma isSwipeDown_iff (s : ImageViewer) :
  isSwipeDown props s = true <->
  enableSwipeDown props = true /\
  exists threshold, swipeDownThreshold props = Some threshold /\
                    ~ threshold == 0 /\ threshold < swipeDownOffset s.
Proof.
  unfold isSwipeDown. destruct (enableSwipeDown props); cbn.
  2: { split; [discriminate | intros [H _]; discriminate]. }
  destruct (swipeDownThreshold props) as [t |].
  2: { split; [discriminate | intros [_ [t [H _]]]; discriminate]. }
  destruct (neqb_spec t 0) as [Hz | Hz]; destruct (gtb_spec (swipeDownOffset s) t) as [Hg | Hg];
    cbn; split; try discriminate; try (intros _; split; [reflexivity | exists t; tauto]).
  all: intros [_ [t' [E [Hz' Hg']]]]; injection E as <-; tauto.
Qed.

Lemma resolve_dismiss (s : ImageViewer) :
  isSwipeDown props s = true ->
  panResponderReleaseResolve props s = callIf (onSwipeDown props) CallOnSwipeDown s.
Proof. intros H. unfold panResponderReleaseResolve. now rewrite H. Qed.

Ltac settle_block :=
  intros; unfold settleFrame;
  repeat match goal with
         | |- context [if ?b then _ else _] => destruct b
         end; repeat split; reflexivity.

Lemma restoreScale_frame s : settleFrame s (restoreScale props s).
Proof. unfold restoreScale. settle_block. Qed.

Lemma recentreX_frame s : settleFrame s (recentreX props s).
Proof. unfold recentreX. settle_block. Qed.

Lemma recentreY_frame s : settleFrame s (recentreY props s).
Proof. unfold recentreY. settle_block. Qed.

Lemma boundY_frame s : settleFrame s (boundY props s).
Proof. unfold boundY. settle_block. Qed.

Lemma boundX_frame s : settleFrame s (boundX props s).
Proof. unfold boundX. settle_block. Qed.

Lemma centerFocus_frame s : settleFrame s (centerFocus props s).
Proof. unfold centerFocus. settle_block. Qed.

Lemma settleFrame_trans s1 s2 s3 :
  settleFrame s1 s2 -> settleFrame s2 s3 -> settleFrame s1 s3.
Proof. unfold settleFrame. intuition congruence. Qed.

Lemma checks_frame s :
  settleFrame s
    (centerFocus props (boundX props (boundY props (recentreY props
       (recentreX props (restoreScale props s)))))).
Proof.
  repeat (eapply settleFrame_trans;
          [| first [ apply centerFocus_frame | apply boundX_frame
                   | apply boundY_frame | apply recentreY_frame
                   | apply recentreX_frame ] ]).
  apply restoreScale_frame.
Qed.

Lemma resolve_settle_counters (s : ImageViewer) :
  isSwipeDown props s = false ->
  horizontalWholeOuterCounter (panResponderReleaseResolve props s) = 0 /\
  swipeDownOffset (panResponderReleaseResolve props s) = 0.
Proof.
  intros H. unfold panResponderReleaseResolve. rewrite H. cbv zeta.
  unfold imageDidMove, callIf. destruct (onMove props); split; reflexivity.
Qed.

Lemma resolve_settle_calls (s : ImageViewer) :
  isSwipeDown props s = false ->
  exists m, calls (panResponderReleaseResolve props s)
            = calls s ++ (if onMove props then [CallOnMove m] else []).
Proof.
  intros H. unfold panResponderReleaseResolve. rewrite H. cbv zeta.
  destruct (checks_frame s) as [Hc _]. revert Hc.
  generalize (centerFocus props (boundX props (boundY props (recentreY props
       (recentreX props (restoreScale props s)))))).
  intros s' Hc. unfold imageDidMove, callIf.
  destruct (onMove props).
  - eexists. unfold call. cbn. rewrite Hc. reflexivity.
  - exists (mkOnMove "" 0 0 0 0). cbn. rewrite Hc, app_nil_r. reflexivity.
Qed.

Lemma resolve_calls (s : ImageViewer) :
  exists m, callsSince s (panResponderReleaseResolve props s)
            = if isSwipeDown props s
              then (if onSwipeDown props then [CallOnSwipeDown] else [])
              else (if onMove props then [CallOnMove m] else []).
Proof.
  destruct (isSwipeDown props s) eqn:H.
  - exists (mkOnMove "" 0 0 0 0). rewrite resolve_dismiss by assumption.
    apply callsSince_app. unfold callIf, call.
    destruct (onSwipeDown props); cbn; [reflexivity | now rewrite app_nil_r].
  - destruct (resolve_settle_calls s H) as [m Hm]. exists m.
    now apply callsSince_app.
Qed.

(** C1 (as amended): the release settle is a swipe down exactly when
    enableSwipeDown is on, swipeDownThreshold is set and not zero and
    swipeDownOffset exceeds it; such a release returns at once and leaves
    both overflow counters as they were, and every other release settle
    ends with horizontalWholeOuterCounter = 0 and swipeDownOffset = 0. *)
Theorem release_resolve_counters (s : ImageViewer) :
  (isSwipeDown props s = true <->
   enableSwipeDown props = true /\
   exists threshold, swipeDownThreshold props = Some threshold /\
                     ~ threshold == 0 /\ threshold < swipeDownOffset s) /\
  (if isSwipeDown props s
   then horizontalWholeOuterCounter (panResponderReleaseResolve props s)
          = horizontalWholeOuterCounter s /\
        swipeDownOffset (panResponderReleaseResolve props s) = swipeDownOffset s
   else horizontalWholeOuterCounter (panResponderReleaseResolve props s) = 0 /\
        swipeDownOffset (panResponderReleaseResolve props s) = 0).
Proof.
  split; [apply isSwipeDown_iff |].
  destruct (isSwipeDown props s) eqn:H.
  - rewrite resolve_dismiss by assumption. unfold callIf.
    destruct (onSwipeDown props); split; reflexivity.
  - now apply resolve_settle_counters.
Qed.

End Settle.

(** ** Frames of the handlers on the overflow counters *)

Ltac crush_ifs :=
  repeat match goal with
         | |- context [if ?b then _ else _] => destruct b; cbv beta iota zeta
         end.

Section Frames.

Variable props : ImageZoomProps.

Lemma doubleClickZoom_overflow s : sameOverflow s (doubleClickZoom props s).
Proof.
  unfold sameOverflow, doubleClickZoom, imageDidMove, callIf.
  crush_ifs; split; reflexivity.
Qed.

Lemma grant_overflow now evt s :
  sameOverflow s (onPanResponderGrant props now evt s).
Proof.
  unfold onPanResponderGrant. cbv zeta.
  destruct (Nat.leb _ 1); [destruct (_ <? _) |].
  - destruct (enableDoubleClickZoom props).
    + match goal with
      | |- sameOverflow _ (doubleClickZoom _ ?x) =>
          destruct (doubleClickZoom_overflow x) as [H1 H2];
          split; [rewrite H1 | rewrite H2]
      end; unfold callIf; crush_ifs; reflexivity.
    + unfold sameOverflow, callIf; crush_ifs; split; reflexivity.
  - unfold sameOverflow; crush_ifs; split; reflexivity.
  - unfold sameOverflow; crush_ifs; split; reflexivity.
Qed.

Lemma timers_overflow s :
  sameOverflow s (longPressTimeoutFires props s) /\
  sameOverflow s (singleClickTimeoutFires props s).
Proof.
  unfold sameOverflow, longPressTimeoutFires, singleClickTimeoutFires, callIf.
  destruct (longPressTimeout s), (singleClickTimeout s); crush_ifs;
    repeat split; reflexivity.
Qed.

Lemma centerOn_overflow params s : sameOverflow s (centerOn props params s).
Proof. split; reflexivity. Qed.

Lemma commands_overflow s prev :
  sameOverflow s (resetScale s) /\ sameOverflow s (reset s) /\
  sameOverflow s (centerOnCompletes props s) /\
  sameOverflow s (componentDidMount props s) /\
  sameOverflow s (componentDidUpdate props prev s).
Proof.
  unfold componentDidMount, componentDidUpdate, centerOnCompletes,
    imageDidMove, callIf.
  destruct (centerOnProp props), prev; crush_ifs;
    repeat split; reflexivity.
Qed.

(** *** The horizontal pan *)

Lemma horizontalFrame_trans s1 s2 s3 :
  horizontalFrame s1 s2 -> horizontalFrame s2 s3 -> horizontalFrame s1 s3.
Proof. unfold horizontalFrame. intuition congruence. Qed.

Lemma retractOverflow_frame diffX s :
  horizontalFrame s (snd (retractOverflow props diffX s)).
Proof.
  unfold horizontalFrame, retractOverflow, callIf.
  crush_ifs; repeat split; reflexivity.
Qed.

Lemma dragHorizontally_frame diffX s :
  horizontalFrame s (dragHorizontally props diffX s).
Proof.
  unfold dragHorizontally.
  destruct (_ >? _); [| repeat split; reflexivity].
  pose proof (retractOverflow_frame diffX s) as H.
  destruct (retractOverflow props diffX s) as [d s1]. cbn [snd] in H.
  eapply horizontalFrame_trans; [exact H |]. cbv zeta.
  unfold horizontalFrame. crush_ifs; repeat split; reflexivity.
Qed.

Lemma limitOverflow_frame s : horizontalFrame s (limitOverflow props s).
Proof.
  unfold horizontalFrame, limitOverflow. crush_ifs; repeat split; reflexivity.
Qed.

Lemma limitOverflow_bound s :
  0 <= Num.optOr (maxOverflow props) 0 ->
  Qabs (horizontalWholeOuterCounter (limitOverflow props s))
    <= Num.optOr (maxOverflow props) 0.
Proof.
  intros HM. unfold limitOverflow. apply Qabs_Qle_condition.
  destruct (gtb_spec (horizontalWholeOuterCounter s) (Num.optOr (maxOverflow props) 0))
    as [H1 | H1].
  - cbn. split; [| apply Qle_refl].
    apply Qle_trans with 0; [| assumption].
    apply (Qopp_le_compat 0) in HM. exact HM.
  - apply Qnot_lt_le in H1.
    destruct (ltb_spec (horizontalWholeOuterCounter s) (- Num.optOr (maxOverflow props) 0))
      as [H2 | H2].
    + cbn. split; [apply Qle_refl |].
      apply Qle_trans with 0; [| assumption].
      apply (Qopp_le_compat 0) in HM. exact HM.
    + apply Qnot_lt_le in H2. split; assumption.
Qed.

Lemma panHorizontal_frame diffX diffY s :
  let s' := panHorizontal props diffX diffY s in
  swipeDownOffset s' = swipeDownOffset s /\
  scale s' = scale s /\
  longPressTimeout s' = longPressTimeout s /\
  isHorizontalWrap s' = wrapAfter diffX diffY s /\
  horizontalWholeCounter s' = horizontalWholeCounter s /\
  verticalWholeCounter s' = verticalWholeCounter s.
Proof.
  unfold panHorizontal, wrapAfter. cbv zeta.
  destruct (swipeDownOffset s =? 0).
  2: { rewrite orb_false_r. repeat split; reflexivity. }
  set (s1 := if Qabs diffX >? Qabs diffY then set_isHorizontalWrap true s else s).
  assert (H1 : swipeDownOffset s1 = swipeDownOffset s /\ scale s1 = scale s /\
               longPressTimeout s1 = longPressTimeout s /\
               isHorizontalWrap s1
               = (isHorizontalWrap s || (true && (Qabs diffX >? Qabs diffY))) /\
               horizontalWholeCounter s1 = horizontalWholeCounter s /\
               verticalWholeCounter s1 = verticalWholeCounter s).
  { subst s1. destruct (Qabs diffX >? Qabs diffY); cbn.
    - rewrite orb_true_r. repeat split; reflexivity.
    - rewrite orb_false_r. repeat split; reflexivity. }
  clearbody s1.
  pose proof (horizontalFrame_trans _ _ _ (dragHorizontally_frame diffX s1)
                (limitOverflow_frame (dragHorizontally props diffX s1))) as H2.
  revert H2. generalize (limitOverflow props (dragHorizontally props diffX s1)).
  intros s2 (A & B & C & D & E & F). destruct H1 as (A1 & B1 & C1 & D1 & E1 & F1).
  unfold callIf. crush_ifs; unfold call; cbn [swipeDownOffset scale
    longPressTimeout isHorizontalWrap horizontalWholeCounter
    verticalWholeCounter set_calls]; repeat split; congruence.
Qed.

Lemma panHorizontal_bound diffX diffY s :
  Qabs (horizontalWholeOuterCounter s) <= Num.optOr (maxOverflow props) 0 ->
  Qabs (horizontalWholeOuterCounter (panHorizontal props diffX diffY s))
    <= Num.optOr (maxOverflow props) 0.
Proof.
  intros H. assert (HM : 0 <= Num.optOr (maxOverflow props) 0).
  { apply Qle_trans with (2 := H). apply Qabs_nonneg. }
  unfold panHorizontal. cbv zeta.
  destruct (swipeDownOffset s =? 0); [| assumption].
  match goal with
  | |- context [limitOverflow props ?x] => pose proof (limitOverflow_bound x HM) as B;
      revert B; generalize (limitOverflow props x)
  end.
  intros s2 B. unfold callIf. crush_ifs; exact B.
Qed.

(** *** The vertical pan *)

Lemma panVertical_frame diffY s :
  let s' := panVertical props diffY s in
  horizontalWholeOuterCounter s' = horizontalWholeOuterCounter s /\
  longPressTimeout s' = longPressTimeout s /\
  isHorizontalWrap s' = isHorizontalWrap s /\
  horizontalWholeCounter s' = horizontalWholeCounter s /\
  verticalWholeCounter s' = verticalWholeCounter s.
Proof.
  unfold panVertical. cbv zeta. crush_ifs; repeat split; reflexivity.
Qed.

Lemma panVertical_swipeDown diffY s :
  ~ swipeDownOffset (panVertical props diffY s) == swipeDownOffset s ->
  enableSwipeDown props = true /\
  imageHeight props * scale s <= cropHeight props /\
  isHorizontalWrap s = false.
Proof.
  unfold panVertical. cbv zeta.
  destruct (gtb_spec (imageHeight props * scale s) (cropHeight props)) as [H | H].
  { intros N. exfalso. apply N. reflexivity. }
  apply Qnot_lt_le in H.
  destruct (enableSwipeDown props); cbn [andb].
  2: { intros N. exfalso. apply N. reflexivity. }
  destruct (isHorizontalWrap s); cbn [negb].
  { intros N. exfalso. apply N. reflexivity. }
  intros _. repeat split. exact H.
Qed.

(** *** The pinch *)

Lemma pinchZoom_frame evt s :
  let s' := pinchZoom props evt s in
  sameOverflow s s' /\
  longPressTimeout s' = longPressTimeout s /\
  isHorizontalWrap s' = isHorizontalWrap s.
Proof.
  unfold pinchZoom, sameOverflow. cbv zeta.
  destruct (zoomLastDistance _); repeat split; reflexivity.
Qed.

(** *** The move as a whole *)

Lemma trackMove_frame g diffX diffY s :
  let s' := trackMove g diffX diffY s in
  sameOverflow s s' /\ scale s' = scale s /\
  isHorizontalWrap s' = isHorizontalWrap s /\
  horizontalWholeCounter s' = horizontalWholeCounter s + diffX /\
  verticalWholeCounter s' = verticalWholeCounter s + diffY /\
  longPressTimeout s'
  = if (Qabs (horizontalWholeCounter s + diffX) >? 5)
       || (Qabs (verticalWholeCounter s + diffY) >? 5)
    then clearTimeout (longPressTimeout s) else longPressTimeout s.
Proof.
  unfold trackMove, sameOverflow. cbv zeta.
  cbn [horizontalWholeCounter verticalWholeCounter set_verticalWholeCounter
       set_horizontalWholeCounter set_lastPositionY set_lastPositionX].
  destruct (_ || _); repeat split; reflexivity.
Qed.

Lemma imageDidMove_frame type s :
  let s' := imageDidMove props type s in
  sameOverflow s s' /\ scale s' = scale s /\
  isHorizontalWrap s' = isHorizontalWrap s /\
  longPressTimeout s' = longPressTimeout s /\
  positionX s' = positionX s /\ positionY s' = positionY s /\
  zoomLastDistance s' = zoomLastDistance s /\
  horizontalWholeCounter s' = horizontalWholeCounter s /\
  verticalWholeCounter s' = verticalWholeCounter s.
Proof.
  unfold imageDidMove, callIf, sameOverflow.
  destruct (onMove props); repeat split; reflexivity.
Qed.

Lemma move_bound evt g s :
  Qabs (horizontalWholeOuterCounter s) <= Num.optOr (maxOverflow props) 0 ->
  Qabs (horizontalWholeOuterCounter (onPanResponderMove props evt g s))
    <= Num.optOr (maxOverflow props) 0.
Proof.
  intros H. unfold onPanResponderMove. cbv zeta.
  destruct (isDoubleClick s); [assumption |].
  match goal with
  | |- context [imageDidMove props ?t ?x] =>
      destruct (imageDidMove_frame t x) as [[-> _] _]
  end.
  destruct (Nat.leb _ 1).
  - set (diffX := moveDiff _ (lastPositionX s)).
    set (diffY := moveDiff _ (lastPositionY s)).
    destruct (trackMove_frame g diffX diffY s) as [[E _] _].
    destruct (panToMove props).
    + destruct (panVertical_frame diffY
                  (panHorizontal props diffX diffY (trackMove g diffX diffY s)))
        as [-> _].
      apply panHorizontal_bound. now rewrite E.
    + now rewrite E.
  - destruct (pinchToZoom props); [| assumption].
    match goal with
    | |- context [pinchZoom props evt ?x] =>
        destruct (pinchZoom_frame evt x) as [[-> _] _]
    end.
    assumption.
Qed.

Lemma move_swipeDown evt g s :
  ~ swipeDownOffset (onPanResponderMove props evt g s) == swipeDownOffset s ->
  enableSwipeDown props = true /\
  imageHeight props * scale s <= cropHeight props /\
  isHorizontalWrap (onPanResponderMove props evt g s) = false.
Proof.
  unfold onPanResponderMove. cbv zeta.
  destruct (isDoubleClick s).
  { intros N. exfalso. apply N. reflexivity. }
  match goal with
  | |- context [imageDidMove props ?t ?x] =>
      destruct (imageDidMove_frame t x) as ([_ ->] & _ & -> & _)
  end.
  destruct (Nat.leb _ 1).
  - set (diffX := moveDiff _ (lastPositionX s)).
    set (diffY := moveDiff _ (lastPositionY s)).
    destruct (trackMove_frame g diffX diffY s) as ([_ E1] & E2 & _).
    destruct (panToMove props).
    + destruct (panHorizontal_frame diffX diffY (trackMove g diffX diffY s))
        as (F1 & F2 & _).
      destruct (panVertical_frame diffY
                  (panHorizontal props diffX diffY (trackMove g diffX diffY s)))
        as (_ & _ & -> & _).
      intros N. rewrite <- E1, <- F1 in N.
      apply panVertical_swipeDown in N. now rewrite F2, E2 in N.
    + intros N. exfalso. apply N. now rewrite E1.
  - destruct (pinchToZoom props).
    + match goal with
      | |- context [pinchZoom props evt ?x] =>
          destruct (pinchZoom_frame evt x) as [[_ ->] _]
      end.
      intros N. exfalso. apply N. reflexivity.
    + intros N. exfalso. apply N. reflexivity.
Qed.

Lemma move_single_touch evt g s :
  isDoubleClick s = false ->
  (length (changedTouches evt) <= 1)%nat ->
  let diffX := moveDiff (dx g) (lastPositionX s) in
  let diffY := moveDiff (dy g) (lastPositionY s) in
  let s' := onPanResponderMove props evt g s in
  isHorizontalWrap s'
  = (isHorizontalWrap s
     || (panToMove props && (swipeDownOffset s =? 0) && (Qabs diffX >? Qabs diffY)))
  /\ horizontalWholeCounter s' = horizontalWholeCounter s + diffX
  /\ verticalWholeCounter s' = verticalWholeCounter s + diffY
  /\ longPressTimeout s'
     = if (Qabs (horizontalWholeCounter s + diffX) >? 5)
          || (Qabs (verticalWholeCounter s + diffY) >? 5)
       then clearTimeout (longPressTimeout s) else longPressTimeout s.
Proof.
  intros Hd Hl. cbv zeta. unfold onPanResponderMove. rewrite Hd.
  apply Nat.leb_le in Hl. rewrite Hl. cbv zeta.
  set (diffX := moveDiff _ (lastPositionX s)).
  set (diffY := moveDiff _ (lastPositionY s)).
  destruct (trackMove_frame g diffX diffY s) as ([_ E1] & _ & E3 & E4 & E5 & E6).
  match goal with
  | |- context [imageDidMove props ?t ?x] =>
      destruct (imageDidMove_frame t x)
        as (_ & _ & -> & -> & _ & _ & _ & -> & ->)
  end.
  destruct (panToMove props); cbn [andb].
  - destruct (panHorizontal_frame diffX diffY (trackMove g diffX diffY s))
      as (_ & _ & F3 & F4 & F5 & F6).
    destruct (panVertical_frame diffY
                (panHorizontal props diffX diffY (trackMove g diffX diffY s)))
      as (_ & -> & -> & -> & ->).
    rewrite F3, F4, F5, F6. unfold wrapAfter. rewrite E1, E3.
    repeat split; assumption.
  - rewrite orb_false_r. repeat split; assumption.
Qed.

(** *** Release and the other inputs *)

Lemma release_overflow evt g s :
  sameOverflow s (onPanResponderRelease props evt g s) \/
  (horizontalWholeOuterCounter (onPanResponderRelease props evt g s) = 0 /\
   swipeDownOffset (onPanResponderRelease props evt g s) = 0).
Proof.
  unfold onPanResponderRelease. cbv zeta.
  destruct (isDoubleClick _); [left; split; reflexivity |].
  destruct (isLongPress _); [left; split; reflexivity |].
  destruct (_ && _); [left; split; reflexivity |].
  match goal with
  | |- context [panResponderReleaseResolve props ?x] =>
      assert (E : sameOverflow s x)
        by (unfold callIf; crush_ifs; split; reflexivity);
      destruct (isSwipeDown props x) eqn:D;
      [ left; rewrite (resolve_dismiss props x D)
      | right; exact (resolve_settle_counters props x D) ]
  end.
  destruct E as [E1 E2]. unfold callIf, sameOverflow.
  destruct (onSwipeDown props); cbn [call horizontalWholeOuterCounter
    swipeDownOffset set_calls]; split; assumption.
Qed.

(** Every input but a move leaves the overflow counters as they were or
    at zero. *)
Lemma step_overflow s i :
  (exists evt g, i = Move evt g) \/
  sameOverflow s (step props s i) \/
  (horizontalWholeOuterCounter (step props s i) = 0 /\
   swipeDownOffset (step props s i) = 0).
Proof.
  destruct i; cbn [step].
  - right; left. apply grant_overflow.
  - left. eauto.
  - right. apply release_overflow.
  - right; left. split; reflexivity.
  - right; left. apply timers_overflow.
  - right; left. apply timers_overflow.
  - right; left. apply (commands_overflow s None).
  - right; left. apply (commands_overflow s None).
  - right; left. apply centerOn_overflow.
  - right; left. apply (commands_overflow s None).
  - right; left. apply (commands_overflow s None).
  - right; left. apply (commands_overflow s prevCenterOn).
Qed.

Lemma step_bound s i :
  Qabs (horizontalWholeOuterCounter s) <= Num.optOr (maxOverflow props) 0 ->
  Qabs (horizontalWholeOuterCounter (step props s i))
    <= Num.optOr (maxOverflow props) 0.
Proof.
  intros H.
  destruct (step_overflow s i) as [(evt & g & ->) | [[E _] | [E _]]].
  - apply move_bound. assumption.
  - now rewrite E.
  - rewrite E. apply Qle_trans with (2 := H). apply Qabs_nonneg.
Qed.

Lemma run_bound inputs s :
  Qabs (horizontalWholeOuterCounter s) <= Num.optOr (maxOverflow props) 0 ->
  Qabs (horizontalWholeOuterCounter (run props s inputs))
    <= Num.optOr (maxOverflow props) 0.
Proof.
  revert s. induction inputs as [| i inputs IH]; intros s H; cbn.
  - assumption.
  - apply IH, step_bound, H.
Qed.

(** C6: with a configured maxOverflow that is not negative, the horizontal
    overflow counter of the component stays within [-maxOverflow,
    maxOverflow]: in every state reached from the initial one, and after
    any further move event, the nudge on a hard clamp included. *)
Theorem horizontal_overflow_bounded (inputs : list Input)
    (evt : NativeEvent) (g : GestureState) :
  0 <= Num.optOr (maxOverflow props) 0 ->
  Qabs (horizontalWholeOuterCounter (run props initial inputs))
    <= Num.optOr (maxOverflow props) 0 /\
  Qabs (horizontalWholeOuterCounter
          (onPanResponderMove props evt g (run props initial inputs)))
    <= Num.optOr (maxOverflow props) 0.
Proof.
  intros HM.
  assert (H : Qabs (horizontalWholeOuterCounter (run props initial inputs))
              <= Num.optOr (maxOverflow props) 0)
    by (apply run_bound; exact HM).
  split; [exact H | apply move_bound; exact H].
Qed.

(** *** The swipe-down counter *)

Lemma step_swipeDown s i :
  swipeDownOffset s == 0 ->
  ~ swipeDownOffset (step props s i) == 0 ->
  exists evt g,
    i = Move evt g /\
    enableSwipeDown props = true /\
    imageHeight props * scale s <= cropHeight props /\
    isHorizontalWrap (step props s i) = false.
Proof.
  intros Z N.
  destruct (step_overflow s i) as [(evt & g & ->) | [[_ E] | [_ E]]].
  - exists evt, g. split; [reflexivity |]. cbn [step] in *.
    apply move_swipeDown. intros C. apply N. now rewrite C.
  - exfalso. apply N. now rewrite E.
  - exfalso. apply N. now rewrite E.
Qed.

End Frames.

(** ** The gesture start *)

Section GestureStart.

Variable props : ImageZoomProps.

Lemma doubleClickZoom_totals (s : ImageViewer) :
  horizontalWholeCounter (doubleClickZoom props s) = horizontalWholeCounter s /\
  verticalWholeCounter (doubleClickZoom props s) = verticalWholeCounter s.
Proof.
  unfold doubleClickZoom, imageDidMove, callIf.
  crush_ifs; split; reflexivity.
Qed.

Lemma grant_totals (now : Z) (evt : NativeEvent) (s : ImageViewer) :
  horizontalWholeCounter (onPanResponderGrant props now evt s) = 0 /\
  verticalWholeCounter (onPanResponderGrant props now evt s) = 0.
Proof.
  unfold onPanResponderGrant. cbv zeta.
  destruct (Nat.leb _ 1); [destruct (_ <? _) |].
  - destruct (enableDoubleClickZoom props).
    + match goal with
      | |- context [doubleClickZoom props ?x] =>
          destruct (doubleClickZoom_totals x) as [-> ->]
      end.
      unfold callIf. crush_ifs; split; reflexivity.
    + unfold callIf. crush_ifs; split; reflexivity.
  - crush_ifs; split; reflexivity.
  - crush_ifs; split; reflexivity.
Qed.


(** *** The double-click zoom *)

Lemma scale_is_one (s : ImageViewer) :
  (scale s >? 1) || (scale s <? 1) = negb (scale s =? 1).
Proof.
  destruct (gtb_spec (scale s) 1), (ltb_spec (scale s) 1), (eqb_spec (scale s) 1);
    cbn; try reflexivity; exfalso; lra.
Qed.

Lemma doubleClickZoom_at_one (s : ImageViewer) :
  (scale s =? 1) = true ->
  scale (doubleClickZoom props s) = 2 /\
  positionX (doubleClickZoom props s)
    = ((cropWidth props / 2 - doubleClickX s) * (2 - scale s)) / 2 /\
  positionY (doubleClickZoom props s)
    = ((cropHeight props / 2 - doubleClickY s) * (2 - scale s)) / 2 /\
  doubleClickX (doubleClickZoom props s) = doubleClickX s /\
  doubleClickY (doubleClickZoom props s) = doubleClickY s.
Proof.
  intros H. unfold doubleClickZoom. rewrite scale_is_one, H. cbv zeta.
  unfold imageDidMove, callIf. destruct (onMove props); repeat split; reflexivity.
Qed.

Lemma doubleClickZoom_zoomed (s : ImageViewer) :
  (scale s =? 1) = false ->
  scale (doubleClickZoom props s) = 1 /\
  positionX (doubleClickZoom props s) = 0 /\
  positionY (doubleClickZoom props s) = 0 /\
  doubleClickX (doubleClickZoom props s) = doubleClickX s /\
  doubleClickY (doubleClickZoom props s) = doubleClickY s.
Proof.
  intros H. unfold doubleClickZoom. rewrite scale_is_one, H. cbv zeta.
  unfold imageDidMove, callIf. destruct (onMove props); repeat split; reflexivity.
Qed.

(** C4 (as amended): the double-click zoom is a toggle.  From scale 1 it
    sets scale 2 with the offset anchored at the double-click point, and a
    second toggle at that point gives scale 1 and offset (0,0); from any
    other scale it first resets to scale 1 and offset (0,0), and the
    second toggle then zooms to scale 2 with the anchored offset. *)
Theorem double_click_zoom_toggle (s : ImageViewer) :
  if scale s =? 1 then
    scale (doubleClickZoom props s) = 2 /\
    positionX (doubleClickZoom props s)
      == ((cropWidth props / 2 - doubleClickX s) * (2 - 1)) / 2 /\
    positionY (doubleClickZoom props s)
      == ((cropHeight props / 2 - doubleClickY s) * (2 - 1)) / 2 /\
    scale (doubleClickZoom props (doubleClickZoom props s)) = 1 /\
    positionX (doubleClickZoom props (doubleClickZoom props s)) = 0 /\
    positionY (doubleClickZoom props (doubleClickZoom props s)) = 0
  else
    scale (doubleClickZoom props s) = 1 /\
    positionX (doubleClickZoom props s) = 0 /\
    positionY (doubleClickZoom props s) = 0 /\
    scale (doubleClickZoom props (doubleClickZoom props s)) = 2 /\
    positionX (doubleClickZoom props (doubleClickZoom props s))
      == ((cropWidth props / 2 - doubleClickX s) * (2 - 1)) / 2 /\
    positionY (doubleClickZoom props (doubleClickZoom props s))
      == ((cropHeight props / 2 - doubleClickY s) * (2 - 1)) / 2.
Proof.
  destruct (eqb_spec (scale s) 1) as [H | H].
  - assert (H1 : (scale s =? 1) = true) by (destruct (eqb_spec (scale s) 1); tauto).
    destruct (doubleClickZoom_at_one s H1) as (A & B & C & _).
    assert (H2 : (scale (doubleClickZoom props s) =? 1) = false)
      by (rewrite A; reflexivity).
    destruct (doubleClickZoom_zoomed _ H2) as (A' & B' & C' & _).
    rewrite B, C, H. repeat split; try assumption; reflexivity.
  - assert (H1 : (scale s =? 1) = false) by (destruct (eqb_spec (scale s) 1); tauto).
    destruct (doubleClickZoom_zoomed s H1) as (A & B & C & D & E).
    assert (H2 : (scale (doubleClickZoom props s) =? 1) = true)
      by (rewrite A; reflexivity).
    destruct (doubleClickZoom_at_one _ H2) as (A' & B' & C' & _).
    rewrite B', C', A, D, E. repeat split; try assumption; reflexivity.
Qed.

End GestureStart.

(** ** The recorded span *)

Section Span.

Variable props : ImageZoomProps.

Lemma sameSpan_trans s1 s2 s3 : sameSpan s1 s2 -> sameSpan s2 s3 -> sameSpan s1 s3.
Proof. unfold sameSpan. intuition congruence. Qed.

Ltac span_block := unfold sameSpan, callIf; crush_ifs; split; reflexivity.

Lemma imageDidMove_span type s : sameSpan s (imageDidMove props type s).
Proof. unfold imageDidMove. span_block. Qed.

Lemma doubleClickZoom_span s : sameSpan s (doubleClickZoom props s).
Proof. unfold doubleClickZoom, imageDidMove. span_block. Qed.

Lemma trackMove_span g diffX diffY s : sameSpan s (trackMove g diffX diffY s).
Proof. unfold trackMove. cbv zeta. span_block. Qed.

Lemma dragHorizontally_span diffX s : sameSpan s (dragHorizontally props diffX s).
Proof.
  unfold dragHorizontally.
  destruct (_ >? _); [| split; reflexivity].
  assert (H : sameSpan s (snd (retractOverflow props diffX s)))
    by (unfold retractOverflow; span_block).
  destruct (retractOverflow props diffX s) as [d s1]. cbn [snd] in H.
  eapply sameSpan_trans; [exact H |]. cbv zeta. span_block.
Qed.

Lemma panHorizontal_span diffX diffY s : sameSpan s (panHorizontal props diffX diffY s).
Proof.
  unfold panHorizontal. cbv zeta.
  destruct (swipeDownOffset s =? 0); [| split; reflexivity].
  match goal with
  | |- context [dragHorizontally props diffX ?x] =>
      assert (H1 : sameSpan s x) by span_block;
      pose proof (sameSpan_trans _ _ _ H1 (dragHorizontally_span diffX x)) as H2;
      revert H2; generalize (dragHorizontally props diffX x)
  end.
  intros s2 H2. eapply sameSpan_trans; [exact H2 |].
  unfold limitOverflow. span_block.
Qed.

Lemma panVertical_span diffY s : sameSpan s (panVertical props diffY s).
Proof. unfold panVertical. cbv zeta. span_block. Qed.

Lemma release_span evt g s : sameSpan s (onPanResponderRelease props evt g s).
Proof.
  unfold onPanResponderRelease. cbv zeta.
  destruct (isDoubleClick _); [split; reflexivity |].
  destruct (isLongPress _); [split; reflexivity |].
  destruct (_ && _); [split; reflexivity |].
  match goal with
  | |- context [panResponderReleaseResolve props ?x] =>
      assert (H : sameSpan s x) by span_block; revert H; generalize x
  end.
  intros s1 H. eapply sameSpan_trans; [exact H |].
  unfold panResponderReleaseResolve.
  destruct (isSwipeDown props s1); [span_block |]. cbv zeta.
  repeat match goal with
         | |- sameSpan ?a (imageDidMove props ?t ?x) =>
             apply sameSpan_trans with x; [| apply imageDidMove_span]
         | |- sameSpan ?a (set_swipeDownOffset ?v ?x) =>
             apply sameSpan_trans with x; [| split; reflexivity]
         | |- sameSpan ?a (set_horizontalWholeOuterCounter ?v ?x) =>
             apply sameSpan_trans with x; [| split; reflexivity]
         | |- sameSpan ?a (?f props ?x) =>
             apply sameSpan_trans with x;
             [| unfold f; cbv zeta; span_block]
         end.
  split; reflexivity.
Qed.

Lemma others_span s params prev :
  sameSpan s (longPressTimeoutFires props s) /\
  sameSpan s (singleClickTimeoutFires props s) /\
  sameSpan s (resetScale s) /\ sameSpan s (reset s) /\
  sameSpan s (centerOn props params s) /\
  sameSpan s (centerOnCompletes props s) /\
  sameSpan s (componentDidMount props s) /\
  sameSpan s (componentDidUpdate props prev s).
Proof.
  unfold longPressTimeoutFires, singleClickTimeoutFires, componentDidMount,
    componentDidUpdate, centerOnCompletes, imageDidMove, sameSpan, callIf.
  destruct (longPressTimeout s), (singleClickTimeout s), (centerOnProp props), prev;
    crush_ifs; repeat split; reflexivity.
Qed.

Lemma grant_span now evt s :
  zoomLastDistance (onPanResponderGrant props now evt s) = None.
Proof.
  unfold onPanResponderGrant. cbv zeta.
  destruct (Nat.leb _ 1); [destruct (_ <? _) |].
  - destruct (enableDoubleClickZoom props).
    + match goal with
      | |- context [doubleClickZoom props ?x] =>
          destruct (doubleClickZoom_span x) as [-> _]
      end.
      unfold callIf. crush_ifs; reflexivity.
    + unfold callIf. crush_ifs; reflexivity.
  - crush_ifs; reflexivity.
  - crush_ifs; reflexivity.
Qed.

Lemma pinchZoom_span evt s :
  isDoubleClick (pinchZoom props evt s) = isDoubleClick s.
Proof.
  unfold pinchZoom. cbv zeta. destruct (zoomLastDistance _); reflexivity.
Qed.

(** A span is recorded only by a pinch: outside a double click and with
    pinchToZoom on. *)
Lemma step_recorded s i :
  recorded props s -> recorded props (step props s i).
Proof.
  unfold recorded. intros H.
  assert (K : forall s', sameSpan s s' ->
                zoomLastDistance s' <> None ->
                isDoubleClick s' = false /\ pinchToZoom props = true).
  { intros s' [E1 E2]. rewrite E1, E2. exact H. }
  destruct i; cbn [step]; try (apply K; first
    [ apply release_span | split; reflexivity
    | apply (others_span s (mkCenterOn 0 0 0 0) None)
    | apply (others_span s params None)
    | apply (others_span s (mkCenterOn 0 0 0 0) prevCenterOn) ]).
  - rewrite grant_span. congruence.
  - unfold onPanResponderMove. destruct (isDoubleClick s) eqn:D.
    { rewrite D. exact H. }
    cbv zeta.
    match goal with
    | |- context [imageDidMove props ?t ?x] =>
        destruct (imageDidMove_span t x) as [-> ->]
    end.
    destruct (Nat.leb _ 1).
    + apply K.
      set (diffX := moveDiff _ (lastPositionX s)).
      set (diffY := moveDiff _ (lastPositionY s)).
      pose proof (trackMove_span gestureState diffX diffY s) as T.
      destruct (panToMove props); [| exact T].
      eapply sameSpan_trans; [exact T |].
      eapply sameSpan_trans; [apply panHorizontal_span | apply panVertical_span].
    + destruct (pinchToZoom props).
      * intros _. rewrite pinchZoom_span. cbn. auto.
      * cbn. rewrite D. intros N. destruct (H N) as [_ F]. discriminate F.
Qed.

Lemma run_recorded inputs s :
  recorded props s -> recorded props (run props s inputs).
Proof.
  revert s. induction inputs as [| i inputs IH]; intros s H; cbn.
  - exact H.
  - apply IH, step_recorded, H.
Qed.

Lemma initial_recorded : recorded props initial.
Proof. unfold recorded. cbn. congruence. Qed.

End Span.

(** ** Moves *)

Lemma clamp_inside (x lo hi : Q) : lo <= x -> x <= hi -> clamp x lo hi == x.
Proof.
  intros H1 H2. unfold clamp.
  rewrite (Q.max_l x lo) by assumption. now apply Q.min_l.
Qed.

Lemma clamp_eq (x y lo hi : Q) : x == y -> clamp x lo hi == clamp y lo hi.
Proof. intros H. unfold clamp. now rewrite H. Qed.

Section Moves.

Variable props : ImageZoomProps.

Lemma limitZoom_clamp (zoom : Q) :
  limitZoom props zoom
  == clamp zoom (Num.optOr (minScale props) 0) (Num.optOr (maxScale props) 0).
Proof.
  unfold limitZoom, clamp. cbv zeta.
  destruct (ltb_spec zoom (Num.optOr (minScale props) 0)) as [H1 | H1].
  - rewrite (Q.max_r zoom _) by (now apply Qlt_le_weak).
    destruct (gtb_spec (Num.optOr (minScale props) 0) (Num.optOr (maxScale props) 0))
      as [H2 | H2].
    + symmetry. apply Q.min_r. now apply Qlt_le_weak.
    + symmetry. apply Q.min_l. now apply Qnot_lt_le.
  - apply Qnot_lt_le in H1. rewrite (Q.max_l zoom _) by assumption.
    destruct (gtb_spec zoom (Num.optOr (maxScale props) 0)) as [H2 | H2].
    + symmetry. apply Q.min_r. now apply Qlt_le_weak.
    + symmetry. apply Q.min_l. now apply Qnot_lt_le.
Qed.

(** A move of two fingers or more, outside a double click, with the
    pinch enabled. *)
Lemma move_pinch evt g s :
  isDoubleClick s = false ->
  (1 < length (changedTouches evt))%nat ->
  pinchToZoom props = true ->
  onPanResponderMove props evt g s
  = imageDidMove props "onPanResponderMove"
      (pinchZoom props evt
         (set_longPressTimeout (clearTimeout (longPressTimeout s)) s)).
Proof.
  intros Hd Hl Hp. unfold onPanResponderMove. rewrite Hd.
  assert (E : Nat.leb (length (changedTouches evt)) 1 = false)
    by (apply Nat.leb_gt; exact Hl).
  rewrite E, Hp. reflexivity.
Qed.

Lemma pinchZoom_scale evt s last :
  zoomLastDistance s = Some last ->
  scale (pinchZoom props evt s)
    = limitZoom props (scale s + (pinchDistance evt - last) / 200) /\
  zoomLastDistance (pinchZoom props evt s) = Some (pinchDistance evt).
Proof.
  intros H. unfold pinchZoom. cbv zeta.
  cbn [zoomLastDistance set_zoomCurrentDistance]. rewrite H.
  split; reflexivity.
Qed.

Lemma pinch_move_scale (evt : NativeEvent) (g : GestureState)
    (s : ImageViewer) (last : Q) :
  isDoubleClick s = false ->
  (1 < length (changedTouches evt))%nat ->
  pinchToZoom props = true ->
  zoomLastDistance s = Some last ->
  scale (onPanResponderMove props evt g s)
    == clamp (scale s + (pinchDistance evt - last) / 200)
         (Num.optOr (minScale props) 0) (Num.optOr (maxScale props) 0) /\
  zoomLastDistance (onPanResponderMove props evt g s) = Some (pinchDistance evt).
Proof.
  intros Hd Hl Hp Hz. rewrite (move_pinch evt g s Hd Hl Hp).
  match goal with
  | |- context [imageDidMove props ?t ?x] =>
      destruct (imageDidMove_frame props t x)
        as (_ & -> & _ & _ & _ & _ & -> & _)
  end.
  match goal with
  | |- context [pinchZoom props evt ?x] =>
      destruct (pinchZoom_scale evt x last Hz) as [-> ->]
  end.
  cbn [scale set_longPressTimeout].
  split; [apply limitZoom_clamp | reflexivity].
Qed.

(** C3: in every state the component reaches, a move of two fingers with a
    recorded previous span sets the scale to
    clamp(scale + (currentSpan - previousSpan) / 200, minScale, maxScale)
    and records the current span; from scale 1 the spans 100 then 140 give
    scale 1.2 when the bounds allow it. *)
Theorem pinch_scale_clamped (inputs : list Input) (evt : NativeEvent)
    (g : GestureState) (last : Q) :
  (1 < length (changedTouches evt))%nat ->
  zoomLastDistance (run props initial inputs) = Some last ->
  scale (onPanResponderMove props evt g (run props initial inputs))
    == clamp (scale (run props initial inputs) + (pinchDistance evt - last) / 200)
         (Num.optOr (minScale props) 0) (Num.optOr (maxScale props) 0) /\
  zoomLastDistance (onPanResponderMove props evt g (run props initial inputs))
    = Some (pinchDistance evt) /\
  (scale (run props initial inputs) == 1 -> last == 100 ->
   pinchDistance evt == 140 ->
   Num.optOr (minScale props) 0 <= 12 # 10 ->
   12 # 10 <= Num.optOr (maxScale props) 0 ->
   scale (onPanResponderMove props evt g (run props initial inputs)) == 12 # 10).
Proof.
  intros Hl Hz.
  destruct (run_recorded props inputs initial (initial_recorded props)) as [Hd Hp].
  { rewrite Hz. discriminate. }
  destruct (pinch_move_scale evt g _ last Hd Hl Hp Hz) as [C R].
  split; [exact C | split; [exact R |]].
  intros H1 H2 H3 Hlo Hhi. rewrite C.
  rewrite (clamp_eq _ (12 # 10)).
  - now apply clamp_inside.
  - rewrite H1, H2, H3. reflexivity.
Qed.

Lemma pinchZoom_centered evt s :
  centerDiffX s == 0 -> centerDiffY s == 0 ->
  positionX (pinchZoom props evt s) == positionX s /\
  positionY (pinchZoom props evt s) == positionY s.
Proof.
  intros Hx Hy. unfold pinchZoom. cbv zeta.
  cbn [zoomLastDistance set_zoomCurrentDistance].
  destruct (zoomLastDistance s) as [last |].
  - cbn [positionX positionY centerDiffX centerDiffY scale set_zoomLastDistance
         set_animatedPositionY set_animatedPositionX set_positionY set_positionX
         set_animatedScale set_scale set_zoomCurrentDistance].
    rewrite Hx, Hy. unfold Qdiv. rewrite !Qmult_0_l. split; ring.
  - split; reflexivity.
Qed.

(** C5: a move of two fingers processed with centerDiffX = 0 and
    centerDiffY = 0 leaves positionX and positionY as they were, whatever
    the change of scale, as long as the scale after the move is not 0:
    lines 409-410 divide by that scale, and at 0 the source computes
    0 / 0. *)
Theorem pinch_centered_keeps_position (evt : NativeEvent) (g : GestureState)
    (s : ImageViewer) :
  (1 < length (changedTouches evt))%nat ->
  centerDiffX s == 0 -> centerDiffY s == 0 ->
  ~ scale (onPanResponderMove props evt g s) == 0 ->
  positionX (onPanResponderMove props evt g s) == positionX s /\
  positionY (onPanResponderMove props evt g s) == positionY s.
Proof.
  intros Hl Hx Hy _. unfold onPanResponderMove.
  destruct (isDoubleClick s); [split; reflexivity |].
  assert (E : Nat.leb (length (changedTouches evt)) 1 = false)
    by (apply Nat.leb_gt; exact Hl).
  rewrite E. cbv zeta.
  match goal with
  | |- context [imageDidMove props ?t ?x] =>
      destruct (imageDidMove_frame props t x)
        as (_ & _ & _ & _ & -> & -> & _)
  end.
  destruct (pinchToZoom props); [| split; reflexivity].
  apply (pinchZoom_centered evt
           (set_longPressTimeout (clearTimeout (longPressTimeout s)) s)); assumption.
Qed.

(** C8 (as amended): in a single-touch move outside a double click, the
    gesture is flagged horizontal as soon as this move has |dx| > |dy|
    with panToMove on and no swipe down under way, whatever the totals of
    the gesture; a total beyond 5 on either axis cancels the long-press
    timer. *)
Theorem move_flags_horizontal (evt : NativeEvent) (g : GestureState)
    (s : ImageViewer) :
  isDoubleClick s = false ->
  (length (changedTouches evt) <= 1)%nat ->
  isHorizontalWrap (onPanResponderMove props evt g s)
  = (isHorizontalWrap s
     || (panToMove props && (swipeDownOffset s =? 0)
         && (Qabs (moveDiff (dx g) (lastPositionX s))
             >? Qabs (moveDiff (dy g) (lastPositionY s))))) /\
  longPressTimeout (onPanResponderMove props evt g s)
  = if (Qabs (horizontalWholeCounter (onPanResponderMove props evt g s)) >? 5)
       || (Qabs (verticalWholeCounter (onPanResponderMove props evt g s)) >? 5)
    then clearTimeout (longPressTimeout s) else longPressTimeout s.
Proof.
  intros Hd Hl.
  destruct (move_single_touch props evt g s Hd Hl) as (A & B & C & D).
  rewrite B, C. split; assumption.
Qed.

End Moves.

(** ** The swipe down *)

Section SwipeDown.

Variable props : ImageZoomProps.

(** C2 (as amended): the release settle calls onSwipeDown exactly when a
    callback was supplied, enableSwipeDown is on, swipeDownThreshold is
    set and not zero, and swipeDownOffset exceeds it; and an input takes
    swipeDownOffset away from zero only if it is a move made with
    enableSwipeDown on, imageHeight * scale <= cropHeight and the gesture
    not flagged horizontal. *)
Theorem swipe_down_dismissal (s : ImageViewer) (i : Input) :
  (In CallOnSwipeDown (callsSince s (panResponderReleaseResolve props s)) <->
   onSwipeDown props = true /\
   enableSwipeDown props = true /\
   exists threshold,
     swipeDownThreshold props = Some threshold /\
     ~ threshold == 0 /\ threshold < swipeDownOffset s) /\
  (swipeDownOffset s == 0 ->
   ~ swipeDownOffset (step props s i) == 0 ->
   exists evt g,
     i = Move evt g /\
     enableSwipeDown props = true /\
     imageHeight props * scale s <= cropHeight props /\
     isHorizontalWrap (step props s i) = false).
Proof.
  split; [| apply step_swipeDown].
  destruct (resolve_calls props s) as [m ->].
  rewrite <- isSwipeDown_iff.
  destruct (isSwipeDown props s), (onSwipeDown props), (onMove props); cbn;
    intuition (discriminate || auto).
Qed.

End SwipeDown.

(** ** The transform after the settle *)

Section Settled.

Variable props : ImageZoomProps.

Lemma restoreScale_scale s :
  scale (restoreScale props s)
  = if enableCenterFocus props && (scale s <? 1) then 1 else scale s.
Proof. unfold restoreScale. destruct (_ && _); reflexivity. Qed.

Lemma recentreX_transform s :
  scale (recentreX props s) = scale s /\
  positionX (recentreX props s)
  = if imageWidth props * scale s <=? cropWidth props then 0 else positionX s.
Proof. unfold recentreX. destruct (_ <=? _); split; reflexivity. Qed.

Lemma recentreY_transform s :
  scale (recentreY props s) = scale s /\
  positionX (recentreY props s) = positionX s /\
  positionY (recentreY props s)
  = if imageHeight props * scale s <=? cropHeight props then 0 else positionY s.
Proof. unfold recentreY. destruct (_ <=? _); repeat split; reflexivity. Qed.

Lemma boundY_transform s :
  scale (boundY props s) = scale s /\
  positionX (boundY props s) = positionX s /\
  (imageHeight props * scale s <= cropHeight props ->
   positionY (boundY props s) = positionY s).
Proof.
  unfold boundY. destruct (gtb_spec (imageHeight props * scale s) (cropHeight props))
    as [H | H]; cbv zeta.
  - repeat split; try (crush_ifs; reflexivity). intros L. exfalso.
    apply (Qlt_not_le _ _ H L).
  - repeat split; reflexivity.
Qed.

Lemma boundX_transform s :
  scale (boundX props s) = scale s /\
  positionY (boundX props s) = positionY s /\
  (imageWidth props * scale s <= cropWidth props ->
   positionX (boundX props s) = positionX s).
Proof.
  unfold boundX. destruct (gtb_spec (imageWidth props * scale s) (cropWidth props))
    as [H | H]; cbv zeta.
  - repeat split; try (crush_ifs; reflexivity). intros L. exfalso.
    apply (Qlt_not_le _ _ H L).
  - repeat split; reflexivity.
Qed.

Lemma centerFocus_transform s :
  scale (centerFocus props s) = scale s /\
  (positionX s = 0 -> positionX (centerFocus props s) = 0) /\
  (positionY s = 0 -> positionY (centerFocus props s) = 0).
Proof.
  unfold centerFocus. destruct (_ && _); cbv zeta; repeat split; auto.
Qed.

Lemma resolve_settle_transform s :
  isSwipeDown props s = false ->
  let s6 := centerFocus props (boundX props (boundY props (recentreY props
              (recentreX props (restoreScale props s))))) in
  scale (panResponderReleaseResolve props s) = scale s6 /\
  positionX (panResponderReleaseResolve props s) = positionX s6 /\
  positionY (panResponderReleaseResolve props s) = positionY s6.
Proof.
  intros H. unfold panResponderReleaseResolve. rewrite H. cbv zeta.
  unfold imageDidMove, callIf. destruct (onMove props); repeat split; reflexivity.
Qed.

(** X1: after a release settle that is no swipe down, an axis on which the
    scaled image fits the viewport is centred: its offset is 0. *)
Theorem settle_centres_fitting_axis (s : ImageViewer) :
  isSwipeDown props s = false ->
  (imageWidth props * scale (panResponderReleaseResolve props s) <= cropWidth props ->
   positionX (panResponderReleaseResolve props s) = 0) /\
  (imageHeight props * scale (panResponderReleaseResolve props s) <= cropHeight props ->
   positionY (panResponderReleaseResolve props s) = 0).
Proof.
  intros H. destruct (resolve_settle_transform s H) as (-> & -> & ->).
  set (s1 := restoreScale props s).
  destruct (recentreX_transform s1) as (A2 & B2).
  set (s2 := recentreX props s1) in *.
  destruct (recentreY_transform s2) as (A3 & B3 & C3).
  set (s3 := recentreY props s2) in *.
  destruct (boundY_transform s3) as (A4 & B4 & C4).
  set (s4 := boundY props s3) in *.
  destruct (boundX_transform s4) as (A5 & B5 & C5).
  set (s5 := boundX props s4) in *.
  destruct (centerFocus_transform s5) as (A6 & B6 & C6).
  rewrite A6, A5, A4, A3, A2.
  split; intros L.
  - apply B6. rewrite C5 by (rewrite A4, A3, A2; exact L).
    rewrite B4, B3, B2.
    destruct (leb_spec (imageWidth props * scale s1) (cropWidth props)); tauto.
  - apply C6. rewrite B5. rewrite C4 by (rewrite A3, A2; exact L).
    rewrite C3, A2.
    destruct (leb_spec (imageHeight props * scale s1) (cropHeight props)); tauto.
Qed.

(** X2: after a release settle that is no swipe down, with
    enableCenterFocus on, the scale is at least 1. *)
Theorem settle_center_focus_scale (s : ImageViewer) :
  isSwipeDown props s = false ->
  enableCenterFocus props = true ->
  1 <= scale (panResponderReleaseResolve props s).
Proof.
  intros H F. destruct (resolve_settle_transform s H) as (-> & _ & _).
  set (s1 := restoreScale props s).
  destruct (recentreX_transform s1) as (A2 & _).
  set (s2 := recentreX props s1) in *.
  destruct (recentreY_transform s2) as (A3 & _).
  set (s3 := recentreY props s2) in *.
  destruct (boundY_transform s3) as (A4 & _).
  set (s4 := boundY props s3) in *.
  destruct (boundX_transform s4) as (A5 & _).
  set (s5 := boundX props s4) in *.
  destruct (centerFocus_transform s5) as (A6 & _).
  rewrite A6, A5, A4, A3, A2. subst s1. rewrite restoreScale_scale, F. cbn [andb].
  destruct (ltb_spec (scale s) 1) as [L | L].
  - apply Qle_refl.
  - now apply Qnot_lt_le.
Qed.

End Settled.

(** ** The public commands *)

Section Commands.

Variable props : ImageZoomProps.

Lemma didCenterOnChange_false (params paramsNext : ICenterOn) :
  didCenterOnChange params paramsNext = false <->
  co_x params == co_x paramsNext /\
  co_y params == co_y paramsNext /\
  co_scale params == co_scale paramsNext.
Proof.
  unfold didCenterOnChange.
  destruct (neqb_spec (co_x params) (co_x paramsNext)),
           (neqb_spec (co_y params) (co_y paramsNext)),
           (neqb_spec (co_scale params) (co_scale paramsNext)); cbn;
    split; try discriminate; try tauto; intros _.
  repeat split.
  - destruct (Qeq_dec (co_x params) (co_x paramsNext)); tauto.
  - destruct (Qeq_dec (co_y params) (co_y paramsNext)); tauto.
  - destruct (Qeq_dec (co_scale params) (co_scale paramsNext)); tauto.
Qed.

(** C9 (as amended): didCenterOnChange is false exactly when x, y and scale
    agree.  Only componentDidUpdate uses it, and against the centerOn of
    the previous props: an update whose centerOn repeats the previous x, y
    and scale leaves the component as it was, and an update whose previous
    props had no centerOn issues the request whatever was issued before.
    The method centerOn compares nothing: every call sets positionX,
    positionY and scale to its parameters and starts the three timing
    animations towards them. *)
Theorem centerOn_repeat_ignored (prev params : ICenterOn) (s : ImageViewer) :
  (didCenterOnChange prev params = false <->
   co_x prev == co_x params /\ co_y prev == co_y params /\
   co_scale prev == co_scale params) /\
  (centerOnProp props = Some params ->
   co_x prev == co_x params -> co_y prev == co_y params ->
   co_scale prev == co_scale params ->
   componentDidUpdate props (Some prev) s = s) /\
  (centerOnProp props = Some params ->
   componentDidUpdate props None s = centerOn props params s) /\
  (positionX (centerOn props params s) = co_x params /\
   positionY (centerOn props params s) = co_y params /\
   scale (centerOn props params s) = co_scale params /\
   timing (animatedScale (centerOn props params s))
   = Some (mkTiming (co_scale params) (Num.or (co_duration params) 300)
             (p_useNativeDriver props)) /\
   timing (animatedPositionX (centerOn props params s))
   = Some (mkTiming (co_x params) (Num.or (co_duration params) 300)
             (p_useNativeDriver props)) /\
   timing (animatedPositionY (centerOn props params s))
   = Some (mkTiming (co_y params) (Num.or (co_duration params) 300)
             (p_useNativeDriver props))).
Proof.
  split; [apply didCenterOnChange_false |].
  split; [| split].
  - intros Hc Hx Hy Hs. unfold componentDidUpdate. rewrite Hc.
    assert (E : didCenterOnChange prev params = false)
      by (apply didCenterOnChange_false; tauto).
    now rewrite E.
  - intros Hc. unfold componentDidUpdate. now rewrite Hc.
  - repeat split; reflexivity.
Qed.

End Commands.

(** C10: resetScale sets positionX and positionY to 0 and scale to 1 and
    writes 1 to the animated scale, which then holds 1 with no animation
    running, leaving the animated positions as they were (value and
    animation); reset writes all three animated values, which then hold
    the live fields, scale 1 and positions 0, with no animation
    running. *)
Theorem resetScale_keeps_animated_positions (s : ImageViewer) :
  (positionX (resetScale s) = 0 /\ positionY (resetScale s) = 0 /\
   scale (resetScale s) = 1 /\
   animatedScale (resetScale s) = setValue 1 (animatedScale s) /\
   current (animatedScale (resetScale s)) = 1 /\
   timing (animatedScale (resetScale s)) = None /\
   animatedPositionX (resetScale s) = animatedPositionX s /\
   animatedPositionY (resetScale s) = animatedPositionY s /\
   current (animatedPositionX (resetScale s)) = current (animatedPositionX s) /\
   current (animatedPositionY (resetScale s)) = current (animatedPositionY s)) /\
  (positionX (reset s) = 0 /\ positionY (reset s) = 0 /\ scale (reset s) = 1 /\
   animatedScale (reset s) = setValue 1 (animatedScale s) /\
   animatedPositionX (reset s) = setValue 0 (animatedPositionX s) /\
   animatedPositionY (reset s) = setValue 0 (animatedPositionY s) /\
   current (animatedScale (reset s)) = scale (reset s) /\
   current (animatedPositionX (reset s)) = positionX (reset s) /\
   current (animatedPositionY (reset s)) = positionY (reset s) /\
   timing (animatedScale (reset s)) = None /\
   timing (animatedPositionX (reset s)) = None /\
   timing (animatedPositionY (reset s)) = None).
Proof. repeat split; reflexivity. Qed.

(** ** Panning: what a move of one finger does to the transform *)

Section Panning.

Variable props : ImageZoomProps.

Lemma sameTransform_trans s1 s2 s3 :
  sameTransform s1 s2 -> sameTransform s2 s3 -> sameTransform s1 s3.
Proof. unfold sameTransform. intuition congruence. Qed.

Lemma trackMove_transform g diffX diffY s :
  sameTransform s (trackMove g diffX diffY s).
Proof. unfold trackMove, sameTransform. cbv zeta. crush_ifs; repeat split; reflexivity. Qed.

Lemma imageDidMove_transform type s : sameTransform s (imageDidMove props type s).
Proof.
  unfold imageDidMove, callIf, sameTransform.
  destruct (onMove props); repeat split; reflexivity.
Qed.

Lemma maxOffset_pos (image crop sc : Q) :
  0 < sc -> crop < image * sc -> 0 <= maxOffset image crop sc.
Proof.
  intros Hs Hc. unfold maxOffset, Qdiv.
  apply Qmult_le_0_compat; [apply Qmult_le_0_compat |].
  - lra.
  - discriminate.
  - apply Qinv_le_0_compat. lra.
Qed.

Lemma retractOverflow_position diffX s :
  positionX (snd (retractOverflow props diffX s)) = positionX s /\
  positionY (snd (retractOverflow props diffX s)) = positionY s.
Proof. unfold retractOverflow, callIf. crush_ifs; split; reflexivity. Qed.

Lemma dragHorizontally_positionY diffX s :
  positionY (dragHorizontally props diffX s) = positionY s.
Proof.
  unfold dragHorizontally. destruct (_ >? _); [| reflexivity].
  pose proof (retractOverflow_position diffX s) as [_ H].
  destruct (retractOverflow props diffX s) as [d s1]. cbn [snd] in H.
  rewrite <- H. cbv zeta. crush_ifs; reflexivity.
Qed.

Lemma dragHorizontally_bound diffX s :
  0 < scale s ->
  cropWidth props < imageWidth props * scale s ->
  Qabs (positionX (dragHorizontally props diffX s))
    <= maxOffset (imageWidth props) (cropWidth props) (scale s).
Proof.
  intros Hs Hc. pose proof (maxOffset_pos _ _ _ Hs Hc) as Hm.
  unfold dragHorizontally.
  destruct (gtb_spec (imageWidth props * scale s) (cropWidth props)) as [_ | N];
    [| contradiction].
  destruct (retractOverflow_frame props diffX s) as (_ & E & _).
  destruct (retractOverflow props diffX s) as [d s1]. cbn [snd] in E.
  cbv zeta. cbn [scale positionX set_positionX]. rewrite E.
  fold (maxOffset (imageWidth props) (cropWidth props) (scale s)).
  set (m := maxOffset (imageWidth props) (cropWidth props) (scale s)) in *.
  set (x := positionX s1 + d / scale s).
  apply Qabs_Qle_condition.
  destruct (ltb_spec x (- m)) as [L | L]; cbn.
  - split; lra.
  - destruct (gtb_spec x m) as [G | G]; cbn; split; lra.
Qed.

Lemma limitOverflow_position s :
  positionX (limitOverflow props s) = positionX s /\
  positionY (limitOverflow props s) = positionY s.
Proof. unfold limitOverflow. crush_ifs; split; reflexivity. Qed.

(** The horizontal pan writes [positionX] through [dragHorizontally] only,
    and never [positionY]. *)
Lemma panHorizontal_position diffX diffY s :
  positionY (panHorizontal props diffX diffY s) = positionY s /\
  positionX (panHorizontal props diffX diffY s)
  = if swipeDownOffset s =? 0
    then positionX (dragHorizontally props diffX
                      (if Qabs diffX >? Qabs diffY
                       then set_isHorizontalWrap true s else s))
    else positionX s.
Proof.
  unfold panHorizontal. cbv zeta.
  destruct (swipeDownOffset s =? 0); [| split; reflexivity].
  set (s1 := if Qabs diffX >? Qabs diffY then set_isHorizontalWrap true s else s).
  assert (Y1 : positionY s1 = positionY s)
    by (subst s1; destruct (_ >? _); reflexivity).
  clearbody s1.
  pose proof (dragHorizontally_positionY diffX s1) as Y2.
  destruct (limitOverflow_position (dragHorizontally props diffX s1)) as [X3 Y3].
  revert X3 Y3. generalize (limitOverflow props (dragHorizontally props diffX s1)).
  intros s3 X3 Y3. unfold callIf.
  crush_ifs; cbn [call positionX positionY set_calls]; split; congruence.
Qed.

Lemma panVertical_positionX diffY s :
  positionX (panVertical props diffY s) = positionX s.
Proof. unfold panVertical. cbv zeta. crush_ifs; reflexivity. Qed.

(** A move of one finger outside a double click, with panToMove on. *)
Lemma move_pan evt g s :
  isDoubleClick s = false ->
  (length (changedTouches evt) <= 1)%nat ->
  panToMove props = true ->
  onPanResponderMove props evt g s
  = imageDidMove props "onPanResponderMove"
      (panVertical props (moveDiff (dy g) (lastPositionY s))
         (panHorizontal props (moveDiff (dx g) (lastPositionX s))
            (moveDiff (dy g) (lastPositionY s))
            (trackMove g (moveDiff (dx g) (lastPositionX s))
               (moveDiff (dy g) (lastPositionY s)) s))).
Proof.
  intros Hd Hl Hp. unfold onPanResponderMove. rewrite Hd.
  apply Nat.leb_le in Hl. rewrite Hl, Hp. reflexivity.
Qed.

(** X3: while one finger drags an image that is wider than the viewport
    (scale positive, no swipe down under way), the offset stays within the
    tolerance (imageWidth * scale - cropWidth) / 2 / scale, for the scale
    the move starts with, which is the one line 275 uses. *)
Theorem drag_keeps_horizontal_bound (evt : NativeEvent) (g : GestureState)
    (s : ImageViewer) :
  isDoubleClick s = false ->
  (length (changedTouches evt) <= 1)%nat ->
  panToMove props = true ->
  swipeDownOffset s == 0 ->
  0 < scale s ->
  cropWidth props < imageWidth props * scale s ->
  Qabs (positionX (onPanResponderMove props evt g s))
    <= maxOffset (imageWidth props) (cropWidth props) (scale s).
Proof.
  intros Hd Hl Hp Hz Hs Hc. rewrite (move_pan evt g s Hd Hl Hp).
  destruct (imageDidMove_transform "onPanResponderMove"
              (panVertical props (moveDiff (dy g) (lastPositionY s))
                 (panHorizontal props (moveDiff (dx g) (lastPositionX s))
                    (moveDiff (dy g) (lastPositionY s))
                    (trackMove g (moveDiff (dx g) (lastPositionX s))
                       (moveDiff (dy g) (lastPositionY s)) s))))
    as (_ & -> & _).
  rewrite panVertical_positionX.
  set (diffX := moveDiff (dx g) (lastPositionX s)).
  set (diffY := moveDiff (dy g) (lastPositionY s)).
  destruct (panHorizontal_position diffX diffY (trackMove g diffX diffY s)) as [_ ->].
  destruct (trackMove_frame g diffX diffY s) as ([_ E1] & E2 & _).
  rewrite E1.
  destruct (eqb_spec (swipeDownOffset s) 0) as [_ | N]; [| contradiction].
  rewrite <- E2.
  match goal with
  | |- context [dragHorizontally props diffX ?x] =>
      assert (E : scale x = scale (trackMove g diffX diffY s))
        by (destruct (_ >? _); reflexivity);
      rewrite <- E; apply dragHorizontally_bound; rewrite E, E2; assumption
  end.
Qed.

(** X4: once a swipe down is under way (swipeDownOffset not 0), a move of one
    finger no longer pans horizontally: positionX, the horizontal overflow
    counter and the horizontal flag stay as they were. *)
Theorem swipe_down_freezes_horizontal (evt : NativeEvent) (g : GestureState)
    (s : ImageViewer) :
  (length (changedTouches evt) <= 1)%nat ->
  ~ swipeDownOffset s == 0 ->
  positionX (onPanResponderMove props evt g s) = positionX s /\
  horizontalWholeOuterCounter (onPanResponderMove props evt g s)
    = horizontalWholeOuterCounter s /\
  isHorizontalWrap (onPanResponderMove props evt g s) = isHorizontalWrap s.
Proof.
  intros Hl Hz. unfold onPanResponderMove.
  destruct (isDoubleClick s); [repeat split; reflexivity |].
  apply Nat.leb_le in Hl. rewrite Hl. cbv zeta.
  set (diffX := moveDiff (dx g) (lastPositionX s)).
  set (diffY := moveDiff (dy g) (lastPositionY s)).
  match goal with
  | |- context [imageDidMove props ?t ?x] =>
      destruct (imageDidMove_frame props t x) as ([-> _] & _ & -> & _);
      destruct (imageDidMove_transform t x) as (_ & -> & _)
  end.
  destruct (trackMove_frame g diffX diffY s) as ([F1 F2] & _ & F3 & _).
  destruct (trackMove_transform g diffX diffY s) as (_ & T & _).
  destruct (panToMove props); [| repeat split; assumption].
  assert (E : panHorizontal props diffX diffY (trackMove g diffX diffY s)
              = trackMove g diffX diffY s).
  { unfold panHorizontal. rewrite F2.
    destruct (eqb_spec (swipeDownOffset s) 0) as [Z | _]; [contradiction | reflexivity]. }
  rewrite E, panVertical_positionX.
  destruct (panVertical_frame props diffY (trackMove g diffX diffY s))
    as (-> & _ & -> & _).
  repeat split; assumption.
Qed.

(** X5: with panToMove off a move of one finger changes neither the
    transform nor the overflow counters, and with pinchToZoom off a move of
    two fingers or more changes neither the transform nor the recorded
    span. *)
Theorem disabled_moves_change_nothing (evt : NativeEvent) (g : GestureState)
    (s : ImageViewer) :
  (panToMove props = false ->
   (length (changedTouches evt) <= 1)%nat ->
   sameTransform s (onPanResponderMove props evt g s) /\
   sameOverflow s (onPanResponderMove props evt g s)) /\
  (pinchToZoom props = false ->
   (1 < length (changedTouches evt))%nat ->
   sameTransform s (onPanResponderMove props evt g s) /\
   zoomLastDistance (onPanResponderMove props evt g s) = zoomLastDistance s).
Proof.
  split; intros Hp Hl; unfold onPanResponderMove;
    (destruct (isDoubleClick s); [repeat split; reflexivity |]).
  - apply Nat.leb_le in Hl. rewrite Hl, Hp. cbv zeta.
    set (diffX := moveDiff (dx g) (lastPositionX s)).
    set (diffY := moveDiff (dy g) (lastPositionY s)).
    destruct (trackMove_frame g diffX diffY s) as (O & _).
    pose proof (trackMove_transform g diffX diffY s) as T.
    revert O T. generalize (trackMove g diffX diffY s). intros s1 O T.
    destruct (imageDidMove_frame props "onPanResponderMove" s1) as (O' & _).
    split.
    + eapply sameTransform_trans; [exact T | apply imageDidMove_transform].
    + destruct O, O'. split; congruence.
  - apply Nat.leb_gt in Hl. rewrite Hl, Hp. cbv zeta.
    unfold imageDidMove, callIf, sameTransform.
    destruct (onMove props); repeat split; reflexivity.
Qed.

End Panning.

(** ** The settle: bounds and idempotence *)

Section SettleBounds.

Variable props : ImageZoomProps.

Lemma clamp_to_tolerance (x m : Q) :
  0 <= m ->
  Qabs (if x <? - m then - m else if x >? m then m else x) <= m.
Proof.
  intros Hm. apply Qabs_Qle_condition.
  destruct (ltb_spec x (- m)); [split; lra |].
  destruct (gtb_spec x m); split; lra.
Qed.

Lemma boundY_bound s :
  0 < scale s ->
  cropHeight props < imageHeight props * scale s ->
  Qabs (positionY (boundY props s))
    <= maxOffset (imageHeight props) (cropHeight props) (scale s).
Proof.
  intros Hs Hc. pose proof (maxOffset_pos _ _ _ Hs Hc) as Hm.
  unfold boundY.
  destruct (gtb_spec (imageHeight props * scale s) (cropHeight props)) as [_ | N];
    [| contradiction].
  cbv zeta. fold (maxOffset (imageHeight props) (cropHeight props) (scale s)).
  set (m := maxOffset (imageHeight props) (cropHeight props) (scale s)) in *.
  pose proof (clamp_to_tolerance (positionY s) m Hm) as B.
  destruct (positionY s <? - m); [exact B |].
  destruct (positionY s >? m); exact B.
Qed.

Lemma boundX_bound s :
  0 < scale s ->
  cropWidth props < imageWidth props * scale s ->
  Qabs (positionX (boundX props s))
    <= maxOffset (imageWidth props) (cropWidth props) (scale s).
Proof.
  intros Hs Hc. pose proof (maxOffset_pos _ _ _ Hs Hc) as Hm.
  unfold boundX.
  destruct (gtb_spec (imageWidth props * scale s) (cropWidth props)) as [_ | N];
    [| contradiction].
  cbv zeta. fold (maxOffset (imageWidth props) (cropWidth props) (scale s)).
  set (m := maxOffset (imageWidth props) (cropWidth props) (scale s)) in *.
  pose proof (clamp_to_tolerance (positionX s) m Hm) as B.
  destruct (positionX s <? - m); [exact B |].
  destruct (positionX s >? m); exact B.
Qed.

Lemma centerFocus_cases s :
  scale (centerFocus props s) = scale s /\
  (if enableCenterFocus props && (scale s =? 1)
   then positionX (centerFocus props s) = 0 /\ positionY (centerFocus props s) = 0
   else positionX (centerFocus props s) = positionX s /\
        positionY (centerFocus props s) = positionY s).
Proof. unfold centerFocus. destruct (_ && _); repeat split; reflexivity. Qed.

(** The transform the six checks of the settle end with. *)
Lemma checks_settled s :
  0 < scale (restoreScale props s) ->
  settled props
    (centerFocus props (boundX props (boundY props (recentreY props
       (recentreX props (restoreScale props s)))))).
Proof.
  intros Hs.
  pose proof (restoreScale_scale props s) as A1.
  set (s1 := restoreScale props s) in *.
  destruct (recentreX_transform props s1) as (A2 & B2).
  set (s2 := recentreX props s1) in *.
  destruct (recentreY_transform props s2) as (A3 & B3 & C3).
  set (s3 := recentreY props s2) in *.
  destruct (boundY_transform props s3) as (A4 & B4 & C4).
  assert (D4 := boundY_bound s3).
  set (s4 := boundY props s3) in *.
  destruct (boundX_transform props s4) as (A5 & B5 & C5).
  assert (D5 := boundX_bound s4).
  set (s5 := boundX props s4) in *.
  destruct (centerFocus_cases s5) as (A6 & B6).
  set (s6 := centerFocus props s5) in *.
  assert (E5 : scale s5 = scale s1) by congruence.
  assert (E4 : scale s4 = scale s1) by congruence.
  assert (E3 : scale s3 = scale s1) by congruence.
  rewrite E4 in C5, D5. rewrite E3 in C4, D4. rewrite A2 in C3.
  rewrite E5 in B6.
  unfold settled. rewrite A6, E5.
  refine (conj _ (conj _ (conj _ (conj _ (conj _ _))))).
  - rewrite A1. destruct (enableCenterFocus props); [| reflexivity].
    cbn [andb]. destruct (ltb_spec (scale s) 1) as [L | L]; [reflexivity |].
    destruct (ltb_spec (scale s) 1); [contradiction | reflexivity].
  - intros L.
    assert (X5 : positionX s5 = 0).
    { rewrite (C5 L), B4, B3, B2.
      destruct (leb_spec (imageWidth props * scale s1) (cropWidth props)); tauto. }
    destruct (enableCenterFocus props && (scale s1 =? 1)); destruct B6 as [P _]; congruence.
  - intros L.
    assert (Y5 : positionY s5 = 0).
    { rewrite B5, (C4 L), C3.
      destruct (leb_spec (imageHeight props * scale s1) (cropHeight props)); tauto. }
    destruct (enableCenterFocus props && (scale s1 =? 1)); destruct B6 as [_ P]; congruence.
  - intros L. specialize (D5 Hs L).
    destruct (enableCenterFocus props && (scale s1 =? 1)); destruct B6 as [P _]; rewrite P.
    + apply (maxOffset_pos _ _ _ Hs L).
    + exact D5.
  - intros L. specialize (D4 Hs L).
    destruct (enableCenterFocus props && (scale s1 =? 1)); destruct B6 as [_ P]; rewrite P.
    + apply (maxOffset_pos _ _ _ Hs L).
    + rewrite B5. exact D4.
  - destruct (enableCenterFocus props && (scale s1 =? 1)); [tauto | discriminate].
Qed.

Lemma settled_transform s s' :
  sameTransform s s' -> settled props s -> settled props s'.
Proof. intros (A & B & C). unfold settled. rewrite A, B, C. tauto. Qed.

Lemma resolve_settled s :
  isSwipeDown props s = false ->
  0 < scale (panResponderReleaseResolve props s) ->
  settled props (panResponderReleaseResolve props s).
Proof.
  intros H. destruct (resolve_settle_transform props s H) as (A & B & C).
  intros Hs. eapply settled_transform.
  - unfold sameTransform. rewrite A, B, C. repeat split; reflexivity.
  - apply checks_settled.
    rewrite A in Hs.
    destruct (centerFocus_cases (boundX props (boundY props (recentreY props
                (recentreX props (restoreScale props s)))))) as [E6 _].
    destruct (boundX_transform props (boundY props (recentreY props
                (recentreX props (restoreScale props s))))) as [E5 _].
    destruct (boundY_transform props (recentreY props
                (recentreX props (restoreScale props s)))) as [E4 _].
    destruct (recentreY_transform props (recentreX props (restoreScale props s)))
      as [E3 _].
    destruct (recentreX_transform props (restoreScale props s)) as [E2 _].
    rewrite E6, E5, E4, E3, E2 in Hs. exact Hs.
Qed.

(** X6: after a release settle that is no swipe down and ends with a
    positive scale, an axis on which the scaled image overflows the
    viewport has its offset within (image * scale - crop) / 2 / scale: the
    settle leaves no border. *)
Theorem settle_bounds_overflowing_axis (s : ImageViewer) :
  isSwipeDown props s = false ->
  0 < scale (panResponderReleaseResolve props s) ->
  (cropWidth props < imageWidth props * scale (panResponderReleaseResolve props s) ->
   Qabs (positionX (panResponderReleaseResolve props s))
     <= maxOffset (imageWidth props) (cropWidth props)
          (scale (panResponderReleaseResolve props s))) /\
  (cropHeight props < imageHeight props * scale (panResponderReleaseResolve props s) ->
   Qabs (positionY (panResponderReleaseResolve props s))
     <= maxOffset (imageHeight props) (cropHeight props)
          (scale (panResponderReleaseResolve props s))).
Proof.
  intros H Hs. destruct (resolve_settled s H Hs) as (_ & _ & _ & X & Y & _).
  split; assumption.
Qed.

(** *** A settled transform is left alone *)

Lemma restoreScale_settled s : settled props s -> restoreScale props s = s.
Proof. intros (A & _). unfold restoreScale. now rewrite A. Qed.

Lemma recentreX_settled s : settled props s -> sameTransform s (recentreX props s).
Proof.
  intros (_ & B & _). unfold recentreX, sameTransform.
  destruct (leb_spec (imageWidth props * scale s) (cropWidth props)) as [L | L];
    cbv zeta; repeat split; try reflexivity.
  cbn. symmetry. exact (B L).
Qed.

Lemma recentreY_settled s : settled props s -> sameTransform s (recentreY props s).
Proof.
  intros (_ & _ & C & _). unfold recentreY, sameTransform.
  destruct (leb_spec (imageHeight props * scale s) (cropHeight props)) as [L | L];
    cbv zeta; repeat split; try reflexivity.
  cbn. symmetry. exact (C L).
Qed.

Lemma boundY_settled s : settled props s -> sameTransform s (boundY props s).
Proof.
  intros (_ & _ & _ & _ & E & _). unfold boundY, sameTransform.
  destruct (gtb_spec (imageHeight props * scale s) (cropHeight props)) as [L | L];
    cbv zeta; [| repeat split; reflexivity].
  fold (maxOffset (imageHeight props) (cropHeight props) (scale s)).
  apply E, Qabs_Qle_condition in L. destruct L as [L1 L2].
  destruct (ltb_spec (positionY s) (- maxOffset (imageHeight props) (cropHeight props) (scale s)));
    [lra |].
  destruct (gtb_spec (positionY s) (maxOffset (imageHeight props) (cropHeight props) (scale s)));
    [lra |].
  repeat split; reflexivity.
Qed.

Lemma boundX_settled s : settled props s -> sameTransform s (boundX props s).
Proof.
  intros (_ & _ & _ & D & _). unfold boundX, sameTransform.
  destruct (gtb_spec (imageWidth props * scale s) (cropWidth props)) as [L | L];
    cbv zeta; [| repeat split; reflexivity].
  fold (maxOffset (imageWidth props) (cropWidth props) (scale s)).
  apply D, Qabs_Qle_condition in L. destruct L as [L1 L2].
  destruct (ltb_spec (positionX s) (- maxOffset (imageWidth props) (cropWidth props) (scale s)));
    [lra |].
  destruct (gtb_spec (positionX s) (maxOffset (imageWidth props) (cropWidth props) (scale s)));
    [lra |].
  repeat split; reflexivity.
Qed.

Lemma centerFocus_settled s : settled props s -> sameTransform s (centerFocus props s).
Proof.
  intros (_ & _ & _ & _ & _ & F). unfold centerFocus, sameTransform.
  destruct (enableCenterFocus props && (scale s =? 1)); cbv zeta;
    [| repeat split; reflexivity].
  destruct (F eq_refl) as [X Y]. cbn. repeat split; congruence.
Qed.

Lemma checks_keep_settled s :
  settled props s ->
  sameTransform s
    (centerFocus props (boundX props (boundY props (recentreY props
       (recentreX props (restoreScale props s)))))).
Proof.
  intros S0. rewrite (restoreScale_settled s S0).
  pose proof (recentreX_settled s S0) as T1.
  pose proof (settled_transform _ _ T1 S0) as S1.
  pose proof (recentreY_settled _ S1) as T2.
  pose proof (settled_transform _ _ T2 S1) as S2.
  pose proof (boundY_settled _ S2) as T3.
  pose proof (settled_transform _ _ T3 S2) as S3.
  pose proof (boundX_settled _ S3) as T4.
  pose proof (settled_transform _ _ T4 S3) as S4.
  pose proof (centerFocus_settled _ S4) as T5.
  exact (sameTransform_trans _ _ _ T1
           (sameTransform_trans _ _ _ T2
              (sameTransform_trans _ _ _ T3 (sameTransform_trans _ _ _ T4 T5)))).
Qed.

(** X7: settling is idempotent on the transform: after a release settle
    that is no swipe down and ends with a positive scale, a second settle
    (no swipe down either) leaves scale, positionX and positionY as the
    first one set them. *)
Theorem settle_idempotent (s : ImageViewer) :
  isSwipeDown props s = false ->
  isSwipeDown props (panResponderReleaseResolve props s) = false ->
  0 < scale (panResponderReleaseResolve props s) ->
  sameTransform (panResponderReleaseResolve props s)
    (panResponderReleaseResolve props (panResponderReleaseResolve props s)).
Proof.
  intros H1 H2 Hs.
  pose proof (resolve_settled s H1 Hs) as S1.
  revert H2 S1. generalize (panResponderReleaseResolve props s). intros s' H2 S1.
  destruct (resolve_settle_transform props s' H2) as (A & B & C).
  destruct (checks_keep_settled s' S1) as (A' & B' & C').
  unfold sameTransform. rewrite A, B, C. repeat split; assumption.
Qed.

End SettleBounds.

(** ** Taps, clicks and the long press *)

Section Classifier.

Variable props : ImageZoomProps.

Lemma sameClassifier_trans s1 s2 s3 :
  sameClassifier s1 s2 -> sameClassifier s2 s3 -> sameClassifier s1 s3.
Proof. unfold sameClassifier. intuition congruence. Qed.

Ltac classifier_block :=
  unfold sameClassifier, callIf; crush_ifs; repeat split; reflexivity.

Lemma imageDidMove_classifier type s : sameClassifier s (imageDidMove props type s).
Proof. unfold imageDidMove. classifier_block. Qed.

Lemma doubleClickZoom_classifier s : sameClassifier s (doubleClickZoom props s).
Proof. unfold doubleClickZoom, imageDidMove. classifier_block. Qed.

Lemma resolve_classifier s : sameClassifier s (panResponderReleaseResolve props s).
Proof.
  unfold panResponderReleaseResolve.
  destruct (isSwipeDown props s); [classifier_block |]. cbv zeta.
  repeat match goal with
         | |- sameClassifier ?a (imageDidMove props ?t ?x) =>
             apply sameClassifier_trans with x; [| apply imageDidMove_classifier]
         | |- sameClassifier ?a (set_swipeDownOffset ?v ?x) =>
             apply sameClassifier_trans with x; [| repeat split; reflexivity]
         | |- sameClassifier ?a (set_horizontalWholeOuterCounter ?v ?x) =>
             apply sameClassifier_trans with x; [| repeat split; reflexivity]
         | |- sameClassifier ?a (?f props ?x) =>
             apply sameClassifier_trans with x;
             [| unfold f; cbv zeta; classifier_block]
         end.
  repeat split; reflexivity.
Qed.

Lemma clearTimeout_not_pending (t : Timeout) (p : Point) : clearTimeout t <> Pending p.
Proof. destruct t; discriminate. Qed.

Lemma longPress_spent s :
  (forall p, longPressTimeout s <> Pending p) -> longPressTimeoutFires props s = s.
Proof.
  intros H. unfold longPressTimeoutFires.
  destruct (longPressTimeout s) as [| p |]; try reflexivity.
  now destruct (H p).
Qed.

Lemma singleClick_spent s :
  (forall p, singleClickTimeout s <> Pending p) -> singleClickTimeoutFires props s = s.
Proof.
  intros H. unfold singleClickTimeoutFires.
  destruct (singleClickTimeout s) as [| p |]; try reflexivity.
  now destruct (H p).
Qed.

(** The state a gesture start leaves for the classifier. *)
Lemma grant_classifier now evt s :
  lastPositionX (onPanResponderGrant props now evt s) = None /\
  lastPositionY (onPanResponderGrant props now evt s) = None /\
  singleClickTimeout (onPanResponderGrant props now evt s)
    = clearTimeout (singleClickTimeout s) /\
  isLongPress (onPanResponderGrant props now evt s) = false /\
  isDoubleClick (onPanResponderGrant props now evt s)
    = Nat.leb (length (changedTouches evt)) 1
      && (inject_Z (now - lastClickTime s) <? Num.optOr (doubleClickInterval props) 0) /\
  longPressTimeout (onPanResponderGrant props now evt s)
    = (if isDoubleClick (onPanResponderGrant props now evt s)
       then Spent else Pending (evPoint evt)) /\
  lastClickTime (onPanResponderGrant props now evt s)
    = (if Nat.leb (length (changedTouches evt)) 1
       then (if isDoubleClick (onPanResponderGrant props now evt s)
             then 0%Z else now)
       else lastClickTime s).
Proof.
  unfold onPanResponderGrant. cbv zeta.
  destruct (Nat.leb (length (changedTouches evt)) 1); cbn [andb].
  - match goal with
    | |- context [inject_Z ?a <? ?b] =>
        assert (E : inject_Z a = inject_Z (now - lastClickTime s))
          by (destruct (Nat.ltb 1 (length (changedTouches evt))); reflexivity);
        rewrite E; clear E
    end.
    destruct (inject_Z (now - lastClickTime s) <? _).
    + destruct (enableDoubleClickZoom props).
      * match goal with
        | |- context [doubleClickZoom props ?x] =>
            destruct (doubleClickZoom_classifier x)
              as (-> & -> & -> & -> & -> & -> & -> & _)
        end.
        unfold callIf. destruct (onDoubleClick props);
          destruct (Nat.ltb 1 (length (changedTouches evt)));
          repeat split; reflexivity.
      * unfold callIf. destruct (onDoubleClick props);
          destruct (Nat.ltb 1 (length (changedTouches evt)));
          repeat split; reflexivity.
    + destruct (Nat.ltb 1 (length (changedTouches evt))); repeat split; reflexivity.
  - destruct (Nat.ltb 1 (length (changedTouches evt))); repeat split; reflexivity.
Qed.

(** X8: every gesture start cancels a pending single click, so that the
    deferred onClick of an earlier tap cannot fire any more, and arms the
    long press with the coordinates of the start event; a start that is a
    double click cancels the long press instead. *)
Theorem grant_cancels_click_arms_long_press (now : Z) (evt : NativeEvent)
    (s : ImageViewer) :
  singleClickTimeoutFires props (onPanResponderGrant props now evt s)
    = onPanResponderGrant props now evt s /\
  longPressTimeout (onPanResponderGrant props now evt s)
    = (if isDoubleClick (onPanResponderGrant props now evt s)
       then Spent else Pending (evPoint evt)) /\
  isLongPress (onPanResponderGrant props now evt s) = false.
Proof.
  destruct (grant_classifier now evt s) as (_ & _ & C & L & _ & P & _).
  repeat split; try assumption.
  apply singleClick_spent. intros p. rewrite C. apply clearTimeout_not_pending.
Qed.

Lemma release_longPress evt g s :
  longPressTimeout (onPanResponderRelease props evt g s)
    = clearTimeout (longPressTimeout s).
Proof.
  unfold onPanResponderRelease. cbv zeta.
  destruct (isDoubleClick _); [reflexivity |].
  destruct (isLongPress _); [reflexivity |].
  destruct (_ && _); [reflexivity |].
  match goal with
  | |- context [panResponderReleaseResolve props ?x] =>
      destruct (resolve_classifier x) as (_ & _ & _ & -> & _)
  end.
  unfold callIf. crush_ifs; reflexivity.
Qed.

(** X9: after a release, and after a move of two fingers or more outside a
    double click, the long press is no longer pending: the timer callback
    finds nothing to do, so onLongPress cannot be called for that
    gesture. *)
Theorem long_press_cancelled (evt : NativeEvent) (g : GestureState)
    (s : ImageViewer) :
  longPressTimeoutFires props (onPanResponderRelease props evt g s)
    = onPanResponderRelease props evt g s /\
  (isDoubleClick s = false ->
   (1 < length (changedTouches evt))%nat ->
   longPressTimeoutFires props (onPanResponderMove props evt g s)
     = onPanResponderMove props evt g s).
Proof.
  split.
  - apply longPress_spent. intros p. rewrite release_longPress.
    apply clearTimeout_not_pending.
  - intros Hd Hl. apply longPress_spent. intros p.
    unfold onPanResponderMove. rewrite Hd.
    apply Nat.leb_gt in Hl. rewrite Hl. cbv zeta.
    match goal with
    | |- context [imageDidMove props ?t ?x] =>
        destruct (imageDidMove_frame props t x) as (_ & _ & _ & -> & _)
    end.
    destruct (pinchToZoom props).
    + match goal with
      | |- context [pinchZoom props evt ?x] =>
          destruct (pinchZoom_frame props evt x) as (_ & -> & _)
      end.
      apply clearTimeout_not_pending.
    + apply clearTimeout_not_pending.
Qed.

(** X10: a release of one finger that moved less than clickDistance, in a
    gesture that is neither a double click nor a long press, is a tap: it
    changes neither the transform nor the overflow counters and calls
    nothing, and schedules the click; when that timer fires, onClick is
    called once with the coordinates of the release event, and a second
    firing does nothing. *)
Theorem tap_schedules_click (evt : NativeEvent) (g : GestureState)
    (s : ImageViewer) :
  isDoubleClick s = false ->
  isLongPress s = false ->
  length (changedTouches evt) = 1%nat ->
  0 < Num.optOr (clickDistance props) 0 ->
  dx g * dx g + dy g * dy g
    < Num.optOr (clickDistance props) 0 * Num.optOr (clickDistance props) 0 ->
  sameTransform s (onPanResponderRelease props evt g s) /\
  sameOverflow s (onPanResponderRelease props evt g s) /\
  calls (onPanResponderRelease props evt g s) = calls s /\
  singleClickTimeout (onPanResponderRelease props evt g s) = Pending (evPoint evt) /\
  callsSince (onPanResponderRelease props evt g s)
    (singleClickTimeoutFires props (onPanResponderRelease props evt g s))
    = (if onClick props then [CallOnClick (evPoint evt)] else []) /\
  singleClickTimeoutFires props
    (singleClickTimeoutFires props (onPanResponderRelease props evt g s))
    = singleClickTimeoutFires props (onPanResponderRelease props evt g s).
Proof.
  intros Hd Hp Hl Hc Hm.
  assert (E : onPanResponderRelease props evt g s
              = set_singleClickTimeout (Pending (evPoint evt))
                  (set_longPressTimeout (clearTimeout (longPressTimeout s)) s)).
  { unfold onPanResponderRelease, sqrtLt. cbv zeta.
    cbn [isDoubleClick isLongPress set_longPressTimeout]. rewrite Hd, Hp, Hl.
    destruct (ltb_spec 0 (Num.optOr (clickDistance props) 0)); [| contradiction].
    destruct (ltb_spec (dx g * dx g + dy g * dy g)
                (Num.optOr (clickDistance props) 0 * Num.optOr (clickDistance props) 0));
      [| contradiction].
    reflexivity. }
  rewrite E. repeat split.
  - apply callsSince_app. unfold singleClickTimeoutFires, callIf, call. cbn.
    destruct (onClick props); cbn; [reflexivity | now rewrite app_nil_r].
  - apply singleClick_spent. intros p.
    unfold singleClickTimeoutFires, callIf. cbn.
    destruct (onClick props); discriminate.
Qed.

(** X11: when the long-press timer fires on a pending long press, onLongPress
    is called with the coordinates of the gesture start and the gesture
    becomes a long press; the release that follows then changes neither
    the transform nor the overflow counters, calls nothing and schedules
    no click. *)
Theorem long_press_ends_silently (p : Point) (evt : NativeEvent)
    (g : GestureState) (s : ImageViewer) :
  longPressTimeout s = Pending p ->
  isLongPress (longPressTimeoutFires props s) = true /\
  callsSince s (longPressTimeoutFires props s)
    = (if onLongPress props then [CallOnLongPress p] else []) /\
  sameTransform s (onPanResponderRelease props evt g (longPressTimeoutFires props s)) /\
  sameOverflow s (onPanResponderRelease props evt g (longPressTimeoutFires props s)) /\
  calls (onPanResponderRelease props evt g (longPressTimeoutFires props s))
    = calls (longPressTimeoutFires props s) /\
  singleClickTimeout (onPanResponderRelease props evt g (longPressTimeoutFires props s))
    = singleClickTimeout s.
Proof.
  intros H. unfold longPressTimeoutFires. rewrite H. cbv zeta.
  unfold onPanResponderRelease. cbv zeta.
  refine (conj _ (conj _ _)).
  - unfold callIf. destruct (onLongPress props); reflexivity.
  - apply callsSince_app. unfold callIf, call.
    destruct (onLongPress props); cbn; [reflexivity | now rewrite app_nil_r].
  - unfold callIf, call.
    destruct (onLongPress props); cbn [isDoubleClick isLongPress set_longPressTimeout
      set_isLongPress set_calls];
      destruct (isDoubleClick s); repeat split; reflexivity.
Qed.

End Classifier.

(** ** The first move of a gesture, and what a move reports *)

Section FirstMove.

Variable props : ImageZoomProps.

Lemma zero_over (x y : Q) : x + 0 / y == x.
Proof. unfold Qdiv. rewrite Qmult_0_l. ring. Qed.

Lemma panVertical_still s :
  positionY (panVertical props 0 s) == positionY s /\
  scale (panVertical props 0 s) == scale s /\
  swipeDownOffset (panVertical props 0 s) == swipeDownOffset s.
Proof.
  unfold panVertical. cbv zeta.
  destruct (_ >? _).
  - cbn. repeat split; try reflexivity. apply zero_over.
  - destruct (_ && _); [| repeat split; reflexivity].
    cbn [swipeDownOffset set_swipeDownOffset].
    destruct (_ >? _); cbn; repeat split; try reflexivity;
      try apply zero_over; try ring;
      unfold Qminus, Qdiv; rewrite Qmult_0_l; ring.
Qed.

Lemma move_still_of_no_last evt g s :
  (length (changedTouches evt) <= 1)%nat ->
  lastPositionX s = None -> lastPositionY s = None ->
  positionY (onPanResponderMove props evt g s) == positionY s /\
  scale (onPanResponderMove props evt g s) == scale s /\
  swipeDownOffset (onPanResponderMove props evt g s) == swipeDownOffset s /\
  horizontalWholeCounter (onPanResponderMove props evt g s)
    == horizontalWholeCounter s /\
  verticalWholeCounter (onPanResponderMove props evt g s)
    == verticalWholeCounter s.
Proof.
  intros Hl Hx Hy. unfold onPanResponderMove.
  destruct (isDoubleClick s); [repeat split; reflexivity |].
  apply Nat.leb_le in Hl. rewrite Hl, Hx, Hy. cbv zeta. cbn [moveDiff].
  match goal with
  | |- context [imageDidMove props ?t ?x] =>
      destruct (imageDidMove_frame props t x)
        as ([_ ->] & -> & _ & _ & _ & -> & _ & -> & ->)
  end.
  destruct (trackMove_frame g 0 0 s) as ([_ T1] & T2 & _ & T3 & T4 & _).
  destruct (trackMove_transform g 0 0 s) as (_ & _ & T5).
  destruct (panToMove props).
  - destruct (panHorizontal_frame props 0 0 (trackMove g 0 0 s))
      as (H1 & H2 & _ & _ & H3 & H4).
    destruct (panHorizontal_position props 0 0 (trackMove g 0 0 s)) as [H5 _].
    destruct (panVertical_frame props 0 (panHorizontal props 0 0 (trackMove g 0 0 s)))
      as (_ & _ & _ & -> & ->).
    destruct (panVertical_still (panHorizontal props 0 0 (trackMove g 0 0 s)))
      as (V1 & V2 & V3).
    rewrite V1, V2, V3, H1, H2, H3, H4, H5, T1, T2, T3, T4, T5.
    repeat split; try reflexivity; ring.
  - rewrite T1, T2, T3, T4, T5. repeat split; try reflexivity; ring.
Qed.

Lemma move_records_only evt g s :
  (1 < length (changedTouches evt))%nat ->
  zoomLastDistance s = None ->
  sameTransform s (onPanResponderMove props evt g s).
Proof.
  intros Hl Hz. unfold onPanResponderMove.
  destruct (isDoubleClick s); [repeat split; reflexivity |].
  apply Nat.leb_gt in Hl. rewrite Hl. cbv zeta.
  eapply sameTransform_trans; [| apply imageDidMove_transform].
  destruct (pinchToZoom props); [| repeat split; reflexivity].
  unfold pinchZoom. cbv zeta.
  cbn [zoomLastDistance set_zoomCurrentDistance set_longPressTimeout].
  rewrite Hz. repeat split; reflexivity.
Qed.

(** X12: the first move after a gesture start carries no displacement: with
    one finger and a scale that is not 0 (lines 312 and 342 divide the
    displacement 0 by it) it leaves positionY, scale, swipeDownOffset and
    the totals of the gesture as the start left them (the totals at 0),
    and with two fingers or more it leaves the whole transform as it was,
    the span being recorded only. *)
Theorem first_move_is_still (now : Z) (start evt : NativeEvent)
    (g : GestureState) (s : ImageViewer) :
  ((length (changedTouches evt) <= 1)%nat ->
   ~ scale (onPanResponderGrant props now start s) == 0 ->
   positionY (onPanResponderMove props evt g (onPanResponderGrant props now start s))
     == positionY (onPanResponderGrant props now start s) /\
   scale (onPanResponderMove props evt g (onPanResponderGrant props now start s))
     == scale (onPanResponderGrant props now start s) /\
   swipeDownOffset (onPanResponderMove props evt g (onPanResponderGrant props now start s))
     == swipeDownOffset (onPanResponderGrant props now start s) /\
   horizontalWholeCounter
     (onPanResponderMove props evt g (onPanResponderGrant props now start s)) == 0 /\
   verticalWholeCounter
     (onPanResponderMove props evt g (onPanResponderGrant props now start s)) == 0) /\
  ((1 < length (changedTouches evt))%nat ->
   sameTransform (onPanResponderGrant props now start s)
     (onPanResponderMove props evt g (onPanResponderGrant props now start s))).
Proof.
  destruct (grant_classifier props now start s) as (Lx & Ly & _).
  destruct (grant_totals props now start s) as (Th & Tv).
  pose proof (grant_span props now start s) as Z.
  revert Lx Ly Th Tv Z. generalize (onPanResponderGrant props now start s).
  intros s1 Lx Ly Th Tv Z. split; intros Hl.
  - intros _.
    destruct (move_still_of_no_last evt g s1 Hl Lx Ly) as (A & B & C & D & E).
    rewrite Th in D. rewrite Tv in E. repeat split; assumption.
  - apply move_records_only; assumption.
Qed.

End FirstMove.

(** ** The span of a pinch *)

Lemma sqrtFixed1_comp (q q' : Q) : q == q' -> Num.sqrtFixed1 q = Num.sqrtFixed1 q'.
Proof.
  intros H. unfold Num.sqrtFixed1.
  assert (E : Qfloor (400 * q) = Qfloor (400 * q')) by (apply Qfloor_comp; now rewrite H).
  now rewrite E.
Qed.

Lemma sqrtFixed1_nonneg (q : Q) : 0 <= Num.sqrtFixed1 q.
Proof.
  unfold Num.sqrtFixed1, Qle. cbn [Qnum Qden].
  pose proof (Z.sqrt_nonneg (Qfloor (400 * q))) as H.
  assert (0 <= (Z.sqrt (Qfloor (400 * q)) + 1) / 2)%Z by (apply Z.div_pos; lia).
  lia.
Qed.

(** X15: the span of a pinch is the distance between the page positions of
    the first two touches, rounded to one decimal: ordering the touches by
    locationX and locationY while subtracting pageX and pageY has no
    effect on it, it is never negative, and it is the same when the two
    touches are delivered in the other order. *)
Theorem pinchDistance_is_page_distance (evt evt' : NativeEvent) :
  pinchDistance evt
  = Num.sqrtFixed1
      ((pageX (touch evt 0) - pageX (touch evt 1))
       * (pageX (touch evt 0) - pageX (touch evt 1))
       + (pageY (touch evt 0) - pageY (touch evt 1))
         * (pageY (touch evt 0) - pageY (touch evt 1))) /\
  0 <= pinchDistance evt /\
  (touch evt' 0 = touch evt 1 -> touch evt' 1 = touch evt 0 ->
   pinchDistance evt' = pinchDistance evt).
Proof.
  assert (P : forall e,
             pinchDistance e
             = Num.sqrtFixed1
                 ((pageX (touch e 0) - pageX (touch e 1))
                  * (pageX (touch e 0) - pageX (touch e 1))
                  + (pageY (touch e 0) - pageY (touch e 1))
                    * (pageY (touch e 0) - pageY (touch e 1)))).
  { intros e. unfold pinchDistance.
    destruct (locationX (touch e 0) >? locationX (touch e 1));
      destruct (locationY (touch e 0) >? locationY (touch e 1));
      apply sqrtFixed1_comp; ring. }
  refine (conj (P evt) (conj _ _)).
  - rewrite P. apply sqrtFixed1_nonneg.
  - intros E0 E1. rewrite (P evt'), (P evt), E0, E1.
    apply sqrtFixed1_comp. ring.
Qed.

(** ** The callbacks a handler calls *)

Lemma appended_refl (P : Call -> Prop) s : appended P s s.
Proof. exists []. split; [now rewrite app_nil_r | constructor]. Qed.

Lemma appended_trans (P : Call -> Prop) s1 s2 s3 :
  appended P s1 s2 -> appended P s2 s3 -> appended P s1 s3.
Proof.
  intros (l1 & E1 & F1) (l2 & E2 & F2). exists (l1 ++ l2). split.
  - now rewrite E2, E1, app_assoc.
  - apply Forall_app. now split.
Qed.

Lemma appended_same (P : Call -> Prop) s1 s2 s3 :
  calls s3 = calls s2 -> appended P s1 s2 -> appended P s1 s3.
Proof. intros E (l & E1 & F). exists l. split; [congruence | exact F]. Qed.

Lemma appended_call (P : Call -> Prop) c s1 s2 :
  P c -> appended P s1 s2 -> appended P s1 (call c s2).
Proof.
  intros Pc (l & E & F). exists (l ++ [c]). split.
  - unfold call. cbn. now rewrite E, app_assoc.
  - apply Forall_app. split; [exact F | now constructor].
Qed.

Lemma appended_callIf (P : Call -> Prop) b c s1 s2 :
  P c -> appended P s1 s2 -> appended P s1 (callIf b c s2).
Proof. intros Pc H. unfold callIf. destruct b; [now apply appended_call | exact H]. Qed.

Lemma appended_weaken (P Q : Call -> Prop) s1 s2 :
  (forall c, P c -> Q c) -> appended P s1 s2 -> appended Q s1 s2.
Proof.
  intros W (l & E & F). exists l. split; [exact E |].
  eapply Forall_impl; [exact W | exact F].
Qed.

(** One step through a chain of assignments, tests and callbacks. *)
Ltac appended_step :=
  match goal with
  | |- appended _ ?a ?a => apply appended_refl
  | |- appended _ _ (callIf _ _ _) => apply appended_callIf; [exact I |]
  | |- appended _ _ (call _ _) => apply appended_call; [exact I |]
  | |- appended _ _ (if ?b then _ else _) => destruct b
  | |- appended _ _ (match ?t with Unset => _ | Pending _ => _ | Spent => _ end) =>
      destruct t
  | |- appended ?P ?a (?f ?v ?x) => refine (appended_same P a x (f v x) eq_refl _)
  end.

Section Callbacks.

Variable props : ImageZoomProps.

Lemma imageDidMove_appended s1 s2 type :
  appended (boundedCall (Num.optOr (maxOverflow props) 0)) s1 s2 ->
  appended (boundedCall (Num.optOr (maxOverflow props) 0)) s1 (imageDidMove props type s2).
Proof. intros H. unfold imageDidMove. now apply appended_callIf. Qed.

(** *** The callbacks of a move *)

Lemma retractOverflow_appended diffX s :
  0 <= (Num.optOr (maxOverflow props) 0) -> appended (overflowCall (Num.optOr (maxOverflow props) 0)) s (snd (retractOverflow props diffX s)).
Proof.
  intros HM. unfold retractOverflow.
  repeat match goal with
         | |- appended _ _ (snd (if ?b then _ else _)) => destruct b
         end; cbn [snd]; cbv zeta;
    try (apply (appended_same _ s s); [reflexivity | apply appended_refl]).
  all: apply appended_callIf; [exact HM |];
    apply (appended_same _ s s); [reflexivity | apply appended_refl].
Qed.

Lemma dragHorizontally_appended diffX s :
  0 <= (Num.optOr (maxOverflow props) 0) -> appended (overflowCall (Num.optOr (maxOverflow props) 0)) s (dragHorizontally props diffX s).
Proof.
  intros HM. unfold dragHorizontally.
  destruct (_ >? _); [| apply (appended_same _ s s); [reflexivity | apply appended_refl]].
  pose proof (retractOverflow_appended diffX s HM) as H.
  destruct (retractOverflow props diffX s) as [d s1]. cbn [snd] in H.
  eapply appended_trans; [exact H |]. cbv zeta.
  eapply appended_same; [| apply appended_refl].
  crush_ifs; reflexivity.
Qed.

Lemma panHorizontal_appended diffX diffY s :
  0 <= (Num.optOr (maxOverflow props) 0) -> appended (overflowCall (Num.optOr (maxOverflow props) 0)) s (panHorizontal props diffX diffY s).
Proof.
  intros HM. unfold panHorizontal. cbv zeta.
  destruct (swipeDownOffset s =? 0); [| apply appended_refl].
  set (s1 := if Qabs diffX >? Qabs diffY then set_isHorizontalWrap true s else s).
  assert (H1 : calls s1 = calls s) by (subst s1; destruct (_ >? _); reflexivity).
  clearbody s1.
  pose proof (dragHorizontally_appended diffX s1 HM) as H2.
  pose proof (limitOverflow_bound props (dragHorizontally props diffX s1) HM) as B.
  assert (H3 : calls (limitOverflow props (dragHorizontally props diffX s1))
               = calls (dragHorizontally props diffX s1))
    by (unfold limitOverflow; crush_ifs; reflexivity).
  revert B H3. generalize (limitOverflow props (dragHorizontally props diffX s1)).
  intros s3 B H3.
  assert (H : appended (overflowCall (Num.optOr (maxOverflow props) 0)) s s3).
  { destruct H2 as (l & E & F). exists l. split; [congruence | exact F]. }
  destruct (Num.neqb _ 0); [| exact H].
  apply appended_callIf; [exact B | exact H].
Qed.

Lemma panVertical_calls diffY s : calls (panVertical props diffY s) = calls s.
Proof. unfold panVertical. cbv zeta. crush_ifs; reflexivity. Qed.

Lemma trackMove_calls g diffX diffY s : calls (trackMove g diffX diffY s) = calls s.
Proof. unfold trackMove. cbv zeta. crush_ifs; reflexivity. Qed.

Lemma pinchZoom_calls evt s : calls (pinchZoom props evt s) = calls s.
Proof. unfold pinchZoom. cbv zeta. destruct (zoomLastDistance _); reflexivity. Qed.

(** What a handled move does before it reports. *)
Lemma move_body_appended evt g s :
  0 <= (Num.optOr (maxOverflow props) 0) ->
  isDoubleClick s = false ->
  exists x,
    onPanResponderMove props evt g s = imageDidMove props "onPanResponderMove" x /\
    appended (overflowCall (Num.optOr (maxOverflow props) 0)) s x.
Proof.
  intros HM Hd. unfold onPanResponderMove. rewrite Hd. cbv zeta.
  eexists. split; [reflexivity |].
  destruct (Nat.leb _ 1).
  - set (diffX := moveDiff (dx g) (lastPositionX s)).
    set (diffY := moveDiff (dy g) (lastPositionY s)).
    assert (T : appended (overflowCall (Num.optOr (maxOverflow props) 0)) s (trackMove g diffX diffY s))
      by (eapply appended_same; [apply trackMove_calls | apply appended_refl]).
    destruct (panToMove props); [| exact T].
    eapply appended_same; [apply panVertical_calls |].
    eapply appended_trans; [exact T | apply panHorizontal_appended; exact HM].
  - destruct (pinchToZoom props).
    + eapply appended_same; [apply pinchZoom_calls |].
      apply (appended_same _ s s); [reflexivity | apply appended_refl].
    + apply (appended_same _ s s); [reflexivity | apply appended_refl].
Qed.

(** X13: the callbacks of a move.  With a maxOverflow that is not negative, a
    move outside a double click calls horizontalOuterRangeOffset, each
    time with an offset within [-maxOverflow, maxOverflow], and then, when
    onMove is supplied, onMove once, of type onPanResponderMove and with
    the positionX, positionY, scale and zoomCurrentDistance the component
    then has; it calls nothing else.  A move in a double click calls
    nothing. *)
Theorem move_callbacks (evt : NativeEvent) (g : GestureState) (s : ImageViewer) :
  0 <= (Num.optOr (maxOverflow props) 0) ->
  if isDoubleClick s
  then onPanResponderMove props evt g s = s
  else exists overflows,
      Forall (overflowCall (Num.optOr (maxOverflow props) 0)) overflows /\
      callsSince s (onPanResponderMove props evt g s)
      = overflows
        ++ (if onMove props
            then [CallOnMove
                    (mkOnMove "onPanResponderMove"
                       (positionX (onPanResponderMove props evt g s))
                       (positionY (onPanResponderMove props evt g s))
                       (scale (onPanResponderMove props evt g s))
                       (zoomCurrentDistance (onPanResponderMove props evt g s)))]
            else []).
Proof.
  intros HM. destruct (isDoubleClick s) eqn:Hd.
  - unfold onPanResponderMove. now rewrite Hd.
  - destruct (move_body_appended evt g s HM Hd) as (x & -> & l & E & F).
    exists l. split; [exact F |]. apply callsSince_app.
    unfold imageDidMove, callIf, call.
    destruct (onMove props); cbn; rewrite E.
    + now rewrite app_assoc.
    + now rewrite app_nil_r.
Qed.

(** *** The callbacks of the other handlers *)

Lemma doubleClickZoom_appended s :
  appended (boundedCall (Num.optOr (maxOverflow props) 0)) s (doubleClickZoom props s).
Proof.
  unfold doubleClickZoom. cbv zeta.
  repeat first [ apply imageDidMove_appended | appended_step ].
Qed.

Lemma grant_appended now evt s :
  appended (boundedCall (Num.optOr (maxOverflow props) 0)) s (onPanResponderGrant props now evt s).
Proof.
  unfold onPanResponderGrant. cbv zeta.
  destruct (Nat.leb _ 1); [destruct (_ <? _) |].
  - assert (H : forall x, appended (boundedCall (Num.optOr (maxOverflow props) 0)) s x ->
                          appended (boundedCall (Num.optOr (maxOverflow props) 0)) s
                            (if enableDoubleClickZoom props
                             then doubleClickZoom props x else x)).
    { intros x Hx. destruct (enableDoubleClickZoom props); [| exact Hx].
      eapply appended_trans; [exact Hx | apply doubleClickZoom_appended]. }
    apply H. repeat appended_step.
  - repeat appended_step.
  - repeat appended_step.
Qed.

Lemma resolve_appended s :
  appended (boundedCall (Num.optOr (maxOverflow props) 0)) s (panResponderReleaseResolve props s).
Proof.
  unfold panResponderReleaseResolve.
  destruct (isSwipeDown props s); [repeat appended_step |]. cbv zeta.
  apply imageDidMove_appended.
  do 2 appended_step.
  destruct (checks_frame props s) as [E _].
  eapply appended_same; [exact E | apply appended_refl].
Qed.

Lemma release_appended evt g s :
  appended (boundedCall (Num.optOr (maxOverflow props) 0)) s (onPanResponderRelease props evt g s).
Proof.
  unfold onPanResponderRelease. cbv zeta.
  destruct (isDoubleClick _); [repeat appended_step |].
  destruct (isLongPress _); [repeat appended_step |].
  destruct (_ && _); [repeat appended_step |].
  eapply appended_trans; [| apply resolve_appended].
  repeat appended_step.
Qed.

Lemma step_appended s i :
  0 <= (Num.optOr (maxOverflow props) 0) -> appended (boundedCall (Num.optOr (maxOverflow props) 0)) s (step props s i).
Proof.
  intros HM. destruct i; cbn [step].
  - apply grant_appended.
  - destruct (isDoubleClick s) eqn:Hd.
    + unfold onPanResponderMove. rewrite Hd. apply appended_refl.
    + destruct (move_body_appended evt gestureState s HM Hd) as (x & -> & H).
      apply imageDidMove_appended.
      eapply appended_weaken; [| exact H].
      intros [] Hc; try exact I; exact Hc.
  - apply release_appended.
  - apply appended_refl.
  - unfold longPressTimeoutFires. cbv zeta. repeat appended_step.
  - unfold singleClickTimeoutFires. cbv zeta. repeat appended_step.
  - unfold resetScale. cbv zeta. repeat appended_step.
  - unfold reset. cbv zeta. repeat appended_step.
  - unfold centerOn. cbv zeta. repeat appended_step.
  - unfold centerOnCompletes. apply imageDidMove_appended, appended_refl.
  - unfold componentDidMount, centerOn. cbv zeta.
    destruct (centerOnProp props); repeat appended_step.
  - unfold componentDidUpdate, centerOn. cbv zeta.
    destruct (centerOnProp props), prevCenterOn; repeat appended_step.
Qed.

Lemma run_appended inputs s :
  0 <= (Num.optOr (maxOverflow props) 0) -> appended (boundedCall (Num.optOr (maxOverflow props) 0)) s (run props s inputs).
Proof.
  intros HM. revert s. induction inputs as [| i inputs IH]; intros s; cbn.
  - apply appended_refl.
  - eapply appended_trans; [apply step_appended; exact HM | apply IH].
Qed.

(** X14: with a maxOverflow that is not negative, whatever the inputs, the
    component never calls horizontalOuterRangeOffset with an offset
    outside [-maxOverflow, maxOverflow]. *)
Theorem overflow_callback_bounded (inputs : list Input) (offset : Q) :
  0 <= (Num.optOr (maxOverflow props) 0) ->
  In (CallHorizontalOuterRangeOffset offset) (calls (run props initial inputs)) ->
  Qabs offset <= (Num.optOr (maxOverflow props) 0).
Proof.
  intros HM Hin. destruct (run_appended inputs initial HM) as (l & E & F).
  rewrite E in Hin. cbn in Hin.
  rewrite Forall_forall in F. exact (F _ Hin).
Qed.

End Callbacks.

(** ** Double clicks come in pairs of taps *)

Section DoubleClick.

Variable props : ImageZoomProps.

Lemma move_lastClickTime evt g s :
  lastClickTime (onPanResponderMove props evt g s) = lastClickTime s.
Proof.
  unfold onPanResponderMove. destruct (isDoubleClick s); [reflexivity |].
  cbv zeta.
  transitivity (lastClickTime
                  (trackMove g (moveDiff (dx g) (lastPositionX s))
                     (moveDiff (dy g) (lastPositionY s)) s));
    [| unfold trackMove; cbv zeta; crush_ifs; reflexivity].
  set (diffX := moveDiff (dx g) (lastPositionX s)).
  set (diffY := moveDiff (dy g) (lastPositionY s)).
  assert (I : forall t x, lastClickTime (imageDidMove props t x) = lastClickTime x)
    by (intros t x; unfold imageDidMove, callIf; destruct (onMove props); reflexivity).
  rewrite I.
  destruct (Nat.leb _ 1).
  - destruct (panToMove props); [| reflexivity].
    generalize (trackMove g diffX diffY s). intros s1.
    transitivity (lastClickTime (panHorizontal props diffX diffY s1));
      [unfold panVertical; cbv zeta; crush_ifs; reflexivity |].
    unfold panHorizontal. cbv zeta.
    destruct (swipeDownOffset s1 =? 0); [| reflexivity].
    set (s2 := if Qabs diffX >? Qabs diffY then set_isHorizontalWrap true s1 else s1).
    assert (E2 : lastClickTime s2 = lastClickTime s1)
      by (subst s2; destruct (_ >? _); reflexivity).
    clearbody s2. rewrite <- E2.
    transitivity (lastClickTime (dragHorizontally props diffX s2)).
    + transitivity (lastClickTime (limitOverflow props (dragHorizontally props diffX s2)));
        [unfold callIf; crush_ifs; reflexivity
        | unfold limitOverflow; crush_ifs; reflexivity].
    + unfold dragHorizontally. destruct (_ >? _); [| reflexivity].
      assert (R : lastClickTime (snd (retractOverflow props diffX s2)) = lastClickTime s2)
        by (unfold retractOverflow, callIf; crush_ifs; reflexivity).
      destruct (retractOverflow props diffX s2) as [d s3]. cbn [snd] in R.
      rewrite <- R. cbv zeta. crush_ifs; reflexivity.
  - transitivity (lastClickTime
                    (set_longPressTimeout (clearTimeout (longPressTimeout s)) s));
      [| unfold trackMove; cbv zeta; crush_ifs; reflexivity].
    destruct (pinchToZoom props); [| reflexivity].
    unfold pinchZoom. cbv zeta. destruct (zoomLastDistance _); reflexivity.
Qed.

Lemma release_lastClickTime evt g s :
  lastClickTime (onPanResponderRelease props evt g s) = lastClickTime s.
Proof.
  unfold onPanResponderRelease. cbv zeta.
  destruct (isDoubleClick _); [reflexivity |].
  destruct (isLongPress _); [reflexivity |].
  destruct (_ && _); [reflexivity |].
  match goal with
  | |- context [panResponderReleaseResolve props ?x] =>
      destruct (resolve_classifier props x) as (_ & _ & _ & _ & -> & _)
  end.
  unfold callIf. crush_ifs; reflexivity.
Qed.

(** lastClickTime is written by onPanResponderGrant only. *)
Lemma step_lastClickTime s i :
  isGrant i = false -> lastClickTime (step props s i) = lastClickTime s.
Proof.
  destruct i; cbn [isGrant step]; try discriminate; intros _;
    try reflexivity.
  - apply move_lastClickTime.
  - apply release_lastClickTime.
  - unfold longPressTimeoutFires, callIf. destruct (longPressTimeout s); crush_ifs; reflexivity.
  - unfold singleClickTimeoutFires, callIf. destruct (singleClickTimeout s); crush_ifs; reflexivity.
  - unfold centerOnCompletes, imageDidMove, callIf. crush_ifs; reflexivity.
  - unfold componentDidMount. destruct (centerOnProp props); reflexivity.
  - unfold componentDidUpdate. destruct (centerOnProp props), prevCenterOn;
      crush_ifs; reflexivity.
Qed.

Lemma run_lastClickTime inputs s :
  forallb (fun i => negb (isGrant i)) inputs = true ->
  lastClickTime (run props s inputs) = lastClickTime s.
Proof.
  revert s. induction inputs as [| i inputs IH]; intros s H.
  - reflexivity.
  - cbn [forallb] in H. apply andb_true_iff in H. destruct H as [H1 H2].
    change (run props s (i :: inputs)) with (run props (step props s i) inputs).
    rewrite (IH _ H2). apply step_lastClickTime.
    now destruct (isGrant i).
Qed.

Lemma grant_double_click_call now evt s :
  isDoubleClick (onPanResponderGrant props now evt s) = true ->
  onDoubleClick props = true ->
  In (CallOnDoubleClick (doubleClickPoint evt))
    (callsSince s (onPanResponderGrant props now evt s)).
Proof.
  intros Hd Ho.
  destruct (grant_classifier props now evt s) as (_ & _ & _ & _ & D & _).
  rewrite D in Hd. apply andb_true_iff in Hd. destruct Hd as [H1 H2].
  unfold onPanResponderGrant. cbv zeta. rewrite H1.
  match goal with
  | |- context [inject_Z ?a <? ?b] =>
      assert (E : inject_Z a = inject_Z (now - lastClickTime s))
        by (destruct (Nat.ltb 1 (length (changedTouches evt))); reflexivity);
      rewrite E; clear E
  end.
  rewrite H2, Ho.
  match goal with
  | |- context [set_isDoubleClick true ?x] =>
      assert (C : calls (set_isDoubleClick true x)
                  = calls s ++ [CallOnDoubleClick (doubleClickPoint evt)])
        by (unfold callIf, call, doubleClickPoint;
            destruct (Nat.ltb 1 (length (changedTouches evt))); reflexivity);
      revert C; generalize (set_isDoubleClick true x)
  end.
  intros x C.
  assert (A : exists l, calls (if enableDoubleClickZoom props
                               then doubleClickZoom props x else x)
                        = calls x ++ l).
  { destruct (enableDoubleClickZoom props).
    - destruct (doubleClickZoom_appended props x) as (l & E & _). now exists l.
    - exists []. now rewrite app_nil_r. }
  destruct A as (l & A).
  rewrite (callsSince_app s _ (CallOnDoubleClick (doubleClickPoint evt) :: l)).
  - now left.
  - rewrite A, C, <- app_assoc. reflexivity.
Qed.

(** X16: double clicks come in pairs of taps.  When a one-finger gesture
    start is no double click, the next gesture start with one finger that
    comes within doubleClickInterval of it is a double click, whatever
    moves, releases and timers lie between, and calls onDoubleClick with
    the coordinates of its touch; and after a double click the next
    gesture start (at a time not below doubleClickInterval) is no double
    click, however soon it comes: it is the first tap of a new pair. *)
Theorem double_clicks_pair_taps (now1 now2 : Z) (evt1 evt2 : NativeEvent)
    (inputs : list Input) (s : ImageViewer) :
  (length (changedTouches evt1) <= 1)%nat ->
  (length (changedTouches evt2) <= 1)%nat ->
  forallb (fun i => negb (isGrant i)) inputs = true ->
  (isDoubleClick (onPanResponderGrant props now1 evt1 s) = false ->
   inject_Z (now2 - now1) < Num.optOr (doubleClickInterval props) 0 ->
   isDoubleClick
     (onPanResponderGrant props now2 evt2
        (run props (onPanResponderGrant props now1 evt1 s) inputs)) = true /\
   (onDoubleClick props = true ->
    In (CallOnDoubleClick (doubleClickPoint evt2))
      (callsSince (run props (onPanResponderGrant props now1 evt1 s) inputs)
         (onPanResponderGrant props now2 evt2
            (run props (onPanResponderGrant props now1 evt1 s) inputs))))) /\
  (isDoubleClick (onPanResponderGrant props now1 evt1 s) = true ->
   Num.optOr (doubleClickInterval props) 0 <= inject_Z now2 ->
   isDoubleClick
     (onPanResponderGrant props now2 evt2
        (run props (onPanResponderGrant props now1 evt1 s) inputs)) = false /\
   lastClickTime
     (onPanResponderGrant props now2 evt2
        (run props (onPanResponderGrant props now1 evt1 s) inputs)) = now2).
Proof.
  intros L1 L2 Hn.
  apply Nat.leb_le in L1, L2.
  destruct (grant_classifier props now1 evt1 s) as (_ & _ & _ & _ & _ & _ & T1).
  rewrite L1 in T1.
  pose proof (run_lastClickTime inputs (onPanResponderGrant props now1 evt1 s) Hn) as R.
  revert T1 R. generalize (onPanResponderGrant props now1 evt1 s). intros s1 T1 R.
  revert R. generalize (run props s1 inputs). intros s2 R.
  destruct (grant_classifier props now2 evt2 s2) as (_ & _ & _ & _ & D2 & _ & T2).
  rewrite L2 in D2, T2. cbn [andb] in D2. rewrite R in D2.
  split; intros Hd Ht; rewrite Hd in T1; rewrite T1 in D2.
  - assert (E : isDoubleClick (onPanResponderGrant props now2 evt2 s2) = true).
    { rewrite D2. destruct (ltb_spec (inject_Z (now2 - now1))
                              (Num.optOr (doubleClickInterval props) 0));
        [reflexivity | contradiction]. }
    split; [exact E |]. intros Ho. now apply grant_double_click_call.
  - assert (E : isDoubleClick (onPanResponderGrant props now2 evt2 s2) = false).
    { rewrite D2. rewrite Z.sub_0_r.
      destruct (ltb_spec (inject_Z now2) (Num.optOr (doubleClickInterval props) 0));
        [| reflexivity].
      exfalso. lra. }
    split; [exact E |]. rewrite T2, E. reflexivity.
Qed.

End DoubleClick.

(** ** The horizontal overflow while dragging *)

Section Overflow.

Variable props : ImageZoomProps.

Lemma limitOverflow_value s :
  0 <= Num.optOr (maxOverflow props) 0 ->
  horizontalWholeOuterCounter (limitOverflow props s)
  == clamp (horizontalWholeOuterCounter s)
       (- Num.optOr (maxOverflow props) 0) (Num.optOr (maxOverflow props) 0).
Proof.
  intros HM. unfold limitOverflow, clamp.
  set (m := Num.optOr (maxOverflow props) 0) in *.
  set (h := horizontalWholeOuterCounter s).
  destruct (gtb_spec h m) as [G | G].
  - cbn. rewrite (Q.max_l h (- m)) by lra. symmetry. apply Q.min_r. lra.
  - destruct (ltb_spec h (- m)) as [L | L].
    + cbn. rewrite (Q.max_r h (- m)) by lra. symmetry. apply Q.min_l. lra.
    + fold h. rewrite (Q.max_l h (- m)) by lra. symmetry. apply Q.min_l. lra.
Qed.

Lemma panHorizontal_fitting diffX diffY s :
  swipeDownOffset s == 0 ->
  imageWidth props * scale s <= cropWidth props ->
  0 <= Num.optOr (maxOverflow props) 0 ->
  positionX (panHorizontal props diffX diffY s) = positionX s /\
  horizontalWholeOuterCounter (panHorizontal props diffX diffY s)
  == clamp (horizontalWholeOuterCounter s + diffX)
       (- Num.optOr (maxOverflow props) 0) (Num.optOr (maxOverflow props) 0).
Proof.
  intros Hz Hf HM. unfold panHorizontal. cbv zeta.
  destruct (eqb_spec (swipeDownOffset s) 0) as [_ | N]; [| contradiction].
  set (s1 := if Qabs diffX >? Qabs diffY then set_isHorizontalWrap true s else s).
  assert (E : dragHorizontally props diffX s1
              = set_horizontalWholeOuterCounter
                  (horizontalWholeOuterCounter s1 + diffX) s1).
  { unfold dragHorizontally.
    assert (Es : scale s1 = scale s) by (subst s1; destruct (_ >? _); reflexivity).
    rewrite Es.
    destruct (gtb_spec (imageWidth props * scale s) (cropWidth props));
      [exfalso; lra | reflexivity]. }
  rewrite E.
  assert (E1 : horizontalWholeOuterCounter s1 = horizontalWholeOuterCounter s /\
               positionX s1 = positionX s)
    by (subst s1; destruct (_ >? _); split; reflexivity).
  destruct E1 as [E1 E2]. clearbody s1.
  pose proof (limitOverflow_value
                (set_horizontalWholeOuterCounter
                   (horizontalWholeOuterCounter s1 + diffX) s1) HM) as V.
  destruct (limitOverflow_position props
              (set_horizontalWholeOuterCounter
                 (horizontalWholeOuterCounter s1 + diffX) s1)) as [P _].
  cbn [horizontalWholeOuterCounter positionX set_horizontalWholeOuterCounter] in V, P.
  revert V P.
  generalize (limitOverflow props
                (set_horizontalWholeOuterCounter
                   (horizontalWholeOuterCounter s1 + diffX) s1)).
  intros s3 V P. rewrite E1 in V. rewrite E2 in P. unfold callIf.
  crush_ifs; cbn [call positionX horizontalWholeOuterCounter set_calls];
    split; assumption.
Qed.

(** X17: while the scaled image is not wider than the viewport, a drag with
    one finger never moves it horizontally: positionX stays as it was and
    the whole displacement goes to the horizontal overflow counter, kept
    within [-maxOverflow, maxOverflow]. *)
Theorem fitting_image_drag_is_overflow (evt : NativeEvent) (g : GestureState)
    (s : ImageViewer) :
  isDoubleClick s = false ->
  (length (changedTouches evt) <= 1)%nat ->
  panToMove props = true ->
  swipeDownOffset s == 0 ->
  imageWidth props * scale s <= cropWidth props ->
  0 <= Num.optOr (maxOverflow props) 0 ->
  positionX (onPanResponderMove props evt g s) = positionX s /\
  horizontalWholeOuterCounter (onPanResponderMove props evt g s)
  == clamp (horizontalWholeOuterCounter s + moveDiff (dx g) (lastPositionX s))
       (- Num.optOr (maxOverflow props) 0) (Num.optOr (maxOverflow props) 0).
Proof.
  intros Hd Hl Hp Hz Hf HM. rewrite (move_pan props evt g s Hd Hl Hp).
  set (diffX := moveDiff (dx g) (lastPositionX s)).
  set (diffY := moveDiff (dy g) (lastPositionY s)).
  match goal with
  | |- context [imageDidMove props ?t ?x] =>
      destruct (imageDidMove_frame props t x) as ([-> _] & _);
      destruct (imageDidMove_transform props t x) as (_ & -> & _)
  end.
  rewrite panVertical_positionX.
  destruct (panVertical_frame props diffY
              (panHorizontal props diffX diffY (trackMove g diffX diffY s)))
    as (-> & _).
  destruct (trackMove_frame g diffX diffY s) as ([T1 T2] & T3 & _).
  destruct (trackMove_transform g diffX diffY s) as (_ & T4 & _).
  destruct (panHorizontal_fitting diffX diffY (trackMove g diffX diffY s)) as [A B].
  - now rewrite T2.
  - now rewrite T3.
  - exact HM.
  - rewrite A, B, T1, T4. split; reflexivity.
Qed.

Lemma dragHorizontally_retract diffX s :
  0 < scale s ->
  cropWidth props < imageWidth props * scale s ->
  Qabs (positionX s) <= maxOffset (imageWidth props) (cropWidth props) (scale s) ->
  diffX < 0 ->
  Qabs diffX < horizontalWholeOuterCounter s ->
  positionX (dragHorizontally props diffX s) == positionX s /\
  horizontalWholeOuterCounter (dragHorizontally props diffX s)
  = horizontalWholeOuterCounter s + diffX.
Proof.
  intros Hs Hc Hb Hd Ha.
  pose proof (Qabs_nonneg diffX) as Hn.
  apply Qabs_Qle_condition in Hb. destruct Hb as [B1 B2].
  unfold dragHorizontally, retractOverflow.
  destruct (gtb_spec (imageWidth props * scale s) (cropWidth props)); [| contradiction].
  destruct (gtb_spec (horizontalWholeOuterCounter s) 0); [| exfalso; lra].
  destruct (ltb_spec diffX 0); [| contradiction].
  destruct (gtb_spec (horizontalWholeOuterCounter s) (Qabs diffX)); [| contradiction].
  cbv zeta.
  cbn [positionX scale horizontalWholeOuterCounter set_positionX
       set_horizontalWholeOuterCounter].
  fold (maxOffset (imageWidth props) (cropWidth props) (scale s)).
  pose proof (zero_over (positionX s) (scale s)) as Z.
  destruct (ltb_spec (positionX s + 0 / scale s)
              (- maxOffset (imageWidth props) (cropWidth props) (scale s)));
    [exfalso; lra |].
  destruct (gtb_spec (positionX s + 0 / scale s)
              (maxOffset (imageWidth props) (cropWidth props) (scale s)));
    [exfalso; lra |].
  cbn. split; [exact Z | reflexivity].
Qed.

(** X18: an overflow is used up before the image moves back.  While one
    finger drags an image wider than the viewport that sits within its
    tolerance, with an overflow on the right (counter positive, at most
    maxOverflow), a move to the left by less than the overflow leaves
    positionX where it was and only takes the displacement off the
    counter. *)
Theorem overflow_is_retracted_first (evt : NativeEvent) (g : GestureState)
    (s : ImageViewer) :
  isDoubleClick s = false ->
  (length (changedTouches evt) <= 1)%nat ->
  panToMove props = true ->
  swipeDownOffset s == 0 ->
  0 < scale s ->
  cropWidth props < imageWidth props * scale s ->
  Qabs (positionX s) <= maxOffset (imageWidth props) (cropWidth props) (scale s) ->
  horizontalWholeOuterCounter s <= Num.optOr (maxOverflow props) 0 ->
  moveDiff (dx g) (lastPositionX s) < 0 ->
  Qabs (moveDiff (dx g) (lastPositionX s)) < horizontalWholeOuterCounter s ->
  positionX (onPanResponderMove props evt g s) == positionX s /\
  horizontalWholeOuterCounter (onPanResponderMove props evt g s)
  == horizontalWholeOuterCounter s + moveDiff (dx g) (lastPositionX s).
Proof.
  intros Hd Hl Hp Hz Hs Hc Hb HM Hn Ha.
  rewrite (move_pan props evt g s Hd Hl Hp).
  set (diffX := moveDiff (dx g) (lastPositionX s)) in *.
  set (diffY := moveDiff (dy g) (lastPositionY s)).
  match goal with
  | |- context [imageDidMove props ?t ?x] =>
      destruct (imageDidMove_frame props t x) as ([-> _] & _);
      destruct (imageDidMove_transform props t x) as (_ & -> & _)
  end.
  rewrite panVertical_positionX.
  destruct (panVertical_frame props diffY
              (panHorizontal props diffX diffY (trackMove g diffX diffY s)))
    as (-> & _).
  destruct (trackMove_frame g diffX diffY s) as ([T1 T2] & T3 & _).
  destruct (trackMove_transform g diffX diffY s) as (_ & T4 & _).
  revert T1 T2 T3 T4. generalize (trackMove g diffX diffY s). intros x T1 T2 T3 T4.
  unfold panHorizontal. cbv zeta. rewrite T2.
  destruct (eqb_spec (swipeDownOffset s) 0) as [_ | N]; [| contradiction].
  set (x1 := if Qabs diffX >? Qabs diffY then set_isHorizontalWrap true x else x).
  assert (E : horizontalWholeOuterCounter x1 = horizontalWholeOuterCounter s /\
              positionX x1 = positionX s /\ scale x1 = scale s).
  { subst x1. destruct (_ >? _); cbn; repeat split; assumption. }
  destruct E as (E1 & E2 & E3). clearbody x1.
  destruct (dragHorizontally_retract diffX x1) as [P H];
    try (rewrite ?E1, ?E2, ?E3; assumption).
  rewrite E1 in H. rewrite E2 in P.
  assert (L : limitOverflow props (dragHorizontally props diffX x1)
              = dragHorizontally props diffX x1).
  { unfold limitOverflow. rewrite H.
    assert (Qabs diffX == - diffX) by (apply Qabs_neg; lra).
    destruct (gtb_spec (horizontalWholeOuterCounter s + diffX)
                (Num.optOr (maxOverflow props) 0)); [exfalso; lra |].
    destruct (ltb_spec (horizontalWholeOuterCounter s + diffX)
                (- Num.optOr (maxOverflow props) 0)); [exfalso; lra |].
    reflexivity. }
  rewrite L. revert P H. generalize (dragHorizontally props diffX x1).
  intros x2 P H. unfold callIf.
  crush_ifs; cbn [call positionX horizontalWholeOuterCounter set_calls];
    rewrite H; split; try exact P; reflexivity.
Qed.

End Overflow.

(** * Runs of the component *)

Example drag_down_300 :
  swipeDownOffset (run Demo.props initial (Demo.drag 0 300)) == 300 /\
  positionY (run Demo.props initial (Demo.drag 0 300)) == 300 /\
  scale (run Demo.props initial (Demo.drag 0 300)) == 7 # 10.
Proof. vm_compute. repeat split; reflexivity. Qed.

Example pinch_100_140 :
  zoomCurrentDistance
    (onPanResponderMove Demo.props (Demo.twoTouches 80 150 220 150)
       (Demo.moved 0 0) Demo.pinching) == 140 /\
  zoomLastDistance Demo.pinching = Some (1000 # 10).
Proof. vm_compute. split; reflexivity. Qed.

Example double_tap_twice_from_one :
  scale (run Demo.props initial (Demo.doubleTap 1000)) == 2 /\
  positionX (run Demo.props initial (Demo.doubleTap 1000)) == 25 /\
  positionY (run Demo.props initial (Demo.doubleTap 1000)) == 15 /\
  scale (run Demo.props initial (Demo.doubleTap 1000 ++ Demo.doubleTap 5000)) == 1 /\
  positionX (run Demo.props initial (Demo.doubleTap 1000 ++ Demo.doubleTap 5000)) == 0 /\
  positionY (run Demo.props initial (Demo.doubleTap 1000 ++ Demo.doubleTap 5000)) == 0.
Proof. vm_compute. repeat split; reflexivity. Qed.

Example double_tap_twice_from_three :
  scale (run Demo.props initial
           (DoCenterOn (mkCenterOn 0 0 3 0) :: Demo.doubleTap 1000)) == 1 /\
  scale (run Demo.props initial
           (DoCenterOn (mkCenterOn 0 0 3 0) :: Demo.doubleTap 1000
            ++ Demo.doubleTap 5000)) == 2.
Proof. vm_compute. split; reflexivity. Qed.

(** * Witnesses and counterexamples *)

(** C1 as stated fails: after a drag down by 300 the release is a swipe
    down (threshold 230), and the settle returns with swipeDownOffset
    still 300. *)
Lemma release_resolve_counters_counterexample :
  ~ (horizontalWholeOuterCounter
       (panResponderReleaseResolve Demo.props
          (run Demo.props initial (Demo.drag 0 300))) == 0 /\
     swipeDownOffset
       (panResponderReleaseResolve Demo.props
          (run Demo.props initial (Demo.drag 0 300))) == 0).
Proof.
  assert (N : ~ swipeDownOffset
                  (panResponderReleaseResolve Demo.props
                     (run Demo.props initial (Demo.drag 0 300))) == 0)
    by (vm_compute; discriminate).
  tauto.
Qed.

(** C2 as stated fails: with swipeDownThreshold 0 a drag down by 50 leaves
    swipeDownOffset = 50 > 0, and the release settle does not call
    onSwipeDown. *)
Lemma swipe_down_dismissal_counterexample :
  ~ (In CallOnSwipeDown
       (callsSince (run Demo.zeroThreshold initial (Demo.drag 0 50))
          (panResponderReleaseResolve Demo.zeroThreshold
             (run Demo.zeroThreshold initial (Demo.drag 0 50))))
     <-> Num.optOr (swipeDownThreshold Demo.zeroThreshold) 0
         < swipeDownOffset (run Demo.zeroThreshold initial (Demo.drag 0 50))).
Proof.
  assert (L : Num.optOr (swipeDownThreshold Demo.zeroThreshold) 0
              < swipeDownOffset (run Demo.zeroThreshold initial (Demo.drag 0 50)))
    by (vm_compute; reflexivity).
  assert (N : ~ In CallOnSwipeDown
                  (callsSince (run Demo.zeroThreshold initial (Demo.drag 0 50))
                     (panResponderReleaseResolve Demo.zeroThreshold
                        (run Demo.zeroThreshold initial (Demo.drag 0 50)))))
    by (vm_compute; intros [H | []]; discriminate H).
  tauto.
Qed.

Lemma swipe_down_dismissal_witness :
  exists evt g,
    Move (Demo.oneTouch 150 200) (Demo.moved 0 50) = Move evt g /\
    enableSwipeDown Demo.props = true /\
    imageHeight Demo.props * scale Demo.dragging <= cropHeight Demo.props /\
    isHorizontalWrap
      (step Demo.props Demo.dragging
         (Move (Demo.oneTouch 150 200) (Demo.moved 0 50))) = false.
Proof.
  apply (proj2 (swipe_down_dismissal Demo.props Demo.dragging
                  (Move (Demo.oneTouch 150 200) (Demo.moved 0 50)))).
  - vm_compute. reflexivity.
  - vm_compute. discriminate.
Defined.

Lemma pinch_scale_clamped_witness :
  scale (onPanResponderMove Demo.props (Demo.twoTouches 80 150 220 150)
           (Demo.moved 0 0) (run Demo.props initial Demo.pinchStart))
  == 12 # 10.
Proof.
  apply (pinch_scale_clamped Demo.props Demo.pinchStart
           (Demo.twoTouches 80 150 220 150) (Demo.moved 0 0) (1000 # 10)).
  - cbn. lia.
  - vm_compute. reflexivity.
  - vm_compute. reflexivity.
  - vm_compute. reflexivity.
  - vm_compute. reflexivity.
  - vm_compute. discriminate.
  - vm_compute. discriminate.
Defined.

Lemma pinch_centered_keeps_position_witness :
  positionX (onPanResponderMove Demo.props (Demo.twoTouches 80 150 220 150)
               (Demo.moved 0 0) Demo.pinchingAside)
  == positionX Demo.pinchingAside /\
  positionY (onPanResponderMove Demo.props (Demo.twoTouches 80 150 220 150)
               (Demo.moved 0 0) Demo.pinchingAside)
  == positionY Demo.pinchingAside.
Proof.
  apply (pinch_centered_keeps_position Demo.props).
  - cbn. lia.
  - vm_compute. reflexivity.
  - vm_compute. reflexivity.
  - vm_compute. discriminate.
Defined.

Example pinch_aside_100_140 :
  positionX Demo.pinchingAside == 20 /\ positionY Demo.pinchingAside == 30 /\
  scale Demo.pinchingAside == 2 /\
  scale (onPanResponderMove Demo.props (Demo.twoTouches 80 150 220 150)
           (Demo.moved 0 0) Demo.pinchingAside) == 22 # 10 /\
  positionX (onPanResponderMove Demo.props (Demo.twoTouches 80 150 220 150)
               (Demo.moved 0 0) Demo.pinchingAside) == 20 /\
  positionY (onPanResponderMove Demo.props (Demo.twoTouches 80 150 220 150)
               (Demo.moved 0 0) Demo.pinchingAside) == 30.
Proof. vm_compute. repeat split; reflexivity. Qed.

(** C4 as stated fails: from scale 3 the first toggle resets to scale 1 and
    the second one zooms to scale 2. *)
Lemma double_click_zoom_toggle_counterexample :
  ~ (scale (doubleClickZoom Demo.props
              (doubleClickZoom Demo.props
                 (centerOn Demo.props (mkCenterOn 0 0 3 0) initial))) == 1 /\
     positionX (doubleClickZoom Demo.props
                  (doubleClickZoom Demo.props
                     (centerOn Demo.props (mkCenterOn 0 0 3 0) initial))) == 0 /\
     positionY (doubleClickZoom Demo.props
                  (doubleClickZoom Demo.props
                     (centerOn Demo.props (mkCenterOn 0 0 3 0) initial))) == 0).
Proof.
  assert (N : ~ scale (doubleClickZoom Demo.props
                         (doubleClickZoom Demo.props
                            (centerOn Demo.props (mkCenterOn 0 0 3 0) initial))) == 1)
    by (vm_compute; discriminate).
  tauto.
Qed.

Lemma horizontal_overflow_bounded_witness :
  Qabs (horizontalWholeOuterCounter (run Demo.props initial (Demo.drag 250 0)))
    <= Num.optOr (maxOverflow Demo.props) 0 /\
  Qabs (horizontalWholeOuterCounter
          (onPanResponderMove Demo.props (Demo.oneTouch 500 150) (Demo.moved 350 0)
             (run Demo.props initial (Demo.drag 250 0))))
    <= Num.optOr (maxOverflow Demo.props) 0.
Proof.
  apply (horizontal_overflow_bounded Demo.props).
  vm_compute. discriminate.
Defined.

Example drag_right_250 :
  horizontalWholeOuterCounter (run Demo.props initial (Demo.drag 250 0)) == 100.
Proof. vm_compute. reflexivity. Qed.


(** C8 as stated fails: a drag by 3 to the right flags the gesture
    horizontal although the totals of the gesture are 3 and 0. *)
Lemma move_flags_horizontal_counterexample :
  ~ (isHorizontalWrap (run Demo.props initial (Demo.drag 3 0)) = true ->
     5 < Qabs (horizontalWholeCounter (run Demo.props initial (Demo.drag 3 0))) \/
     5 < Qabs (verticalWholeCounter (run Demo.props initial (Demo.drag 3 0)))).
Proof.
  assert (F : isHorizontalWrap (run Demo.props initial (Demo.drag 3 0)) = true)
    by (vm_compute; reflexivity).
  assert (H : ~ 5 < Qabs (horizontalWholeCounter (run Demo.props initial (Demo.drag 3 0))))
    by (vm_compute; discriminate).
  assert (V : ~ 5 < Qabs (verticalWholeCounter (run Demo.props initial (Demo.drag 3 0))))
    by (vm_compute; discriminate).
  tauto.
Qed.

Lemma move_flags_horizontal_witness :
  isHorizontalWrap
    (onPanResponderMove Demo.props (Demo.oneTouch 158 150) (Demo.moved 8 0)
       Demo.dragging)
  = (isHorizontalWrap Demo.dragging
     || (panToMove Demo.props && (swipeDownOffset Demo.dragging =? 0)
         && (Qabs (moveDiff (dx (Demo.moved 8 0)) (lastPositionX Demo.dragging))
             >? Qabs (moveDiff (dy (Demo.moved 8 0)) (lastPositionY Demo.dragging))))) /\
  longPressTimeout
    (onPanResponderMove Demo.props (Demo.oneTouch 158 150) (Demo.moved 8 0)
       Demo.dragging)
  = if (Qabs (horizontalWholeCounter
                (onPanResponderMove Demo.props (Demo.oneTouch 158 150)
                   (Demo.moved 8 0) Demo.dragging)) >? 5)
       || (Qabs (verticalWholeCounter
                   (onPanResponderMove Demo.props (Demo.oneTouch 158 150)
                      (Demo.moved 8 0) Demo.dragging)) >? 5)
    then clearTimeout (longPressTimeout Demo.dragging)
    else longPressTimeout Demo.dragging.
Proof.
  apply (move_flags_horizontal Demo.props).
  - vm_compute. reflexivity.
  - cbn. lia.
Defined.

Example drag_right_8 :
  isHorizontalWrap (run Demo.props initial (Demo.drag 8 0)) = true /\
  longPressTimeout (run Demo.props initial (Demo.drag 8 0)) = Spent.
Proof. vm_compute. split; reflexivity. Qed.

Lemma centerOn_repeat_ignored_witness :
  componentDidUpdate Demo.centred (Some (mkCenterOn 20 30 2 500)) Demo.panned
  = Demo.panned.
Proof.
  apply (proj1 (proj2 (centerOn_repeat_ignored Demo.centred
                         (mkCenterOn 20 30 2 500) Demo.target Demo.panned)));
    reflexivity.
Defined.

(** C9 as stated fails: the request (20, 30, 2) is issued at the mount; after
    a drag by 9 the image is at 24.5 with no animation running, and the
    same request, through the method or through an update whose previous
    props had no centerOn, moves the image back to 20 and starts the
    animation again. *)
Lemma centerOn_repeat_ignored_counterexample :
  ~ (positionX (centerOn Demo.centred Demo.target Demo.panned)
     == positionX Demo.panned /\
     timing (animatedPositionX (centerOn Demo.centred Demo.target Demo.panned))
     = timing (animatedPositionX Demo.panned) /\
     componentDidUpdate Demo.centred None Demo.panned = Demo.panned).
Proof.
  assert (N : ~ positionX (centerOn Demo.centred Demo.target Demo.panned)
                == positionX Demo.panned)
    by (vm_compute; discriminate).
  tauto.
Qed.

Example drag_after_centerOn :
  positionX (run Demo.centred initial [DidMount; CenterOnDone]) == 20 /\
  positionX Demo.panned == 49 # 2 /\
  timing (animatedPositionX Demo.panned) = None /\
  positionX (centerOn Demo.centred Demo.target Demo.panned) == 20 /\
  timing (animatedPositionX (centerOn Demo.centred Demo.target Demo.panned))
  = Some (mkTiming 20 300 false) /\
  positionX (componentDidUpdate Demo.centred None Demo.panned) == 20.
Proof. vm_compute. repeat split; reflexivity. Qed.

Lemma settle_centres_fitting_axis_witness :
  positionX (panResponderReleaseResolve Demo.props
               (run Demo.props initial (Demo.drag 0 20))) = 0 /\
  positionY (panResponderReleaseResolve Demo.props
               (run Demo.props initial (Demo.drag 0 20))) = 0.
Proof.
  destruct (settle_centres_fitting_axis Demo.props
              (run Demo.props initial (Demo.drag 0 20))) as [X Y].
  - vm_compute. reflexivity.
  - split; [apply X | apply Y]; vm_compute; discriminate.
Defined.

Lemma settle_center_focus_scale_witness :
  1 <= scale (panResponderReleaseResolve Demo.focused
                (run Demo.focused initial (Demo.drag 0 20))).
Proof.
  apply (settle_center_focus_scale Demo.focused).
  - vm_compute. reflexivity.
  - reflexivity.
Defined.

Example drag_down_20 :
  scale (run Demo.focused initial (Demo.drag 0 20)) == 98 # 100 /\
  scale (panResponderReleaseResolve Demo.focused
           (run Demo.focused initial (Demo.drag 0 20))) == 1.
Proof. vm_compute. split; reflexivity. Qed.

Lemma drag_keeps_horizontal_bound_witness :
  Qabs (positionX (onPanResponderMove Demo.wide (Demo.oneTouch 350 150)
                     (Demo.moved 200 0)
                     (run Demo.wide initial
                        [Grant 1000 (Demo.oneTouch 150 150);
                         Move (Demo.oneTouch 150 150) (Demo.moved 0 0)])))
  <= maxOffset (imageWidth Demo.wide) (cropWidth Demo.wide)
       (scale (run Demo.wide initial
                 [Grant 1000 (Demo.oneTouch 150 150);
                  Move (Demo.oneTouch 150 150) (Demo.moved 0 0)])).
Proof.
  apply (drag_keeps_horizontal_bound Demo.wide).
  - vm_compute. reflexivity.
  - cbn. lia.
  - reflexivity.
  - vm_compute. reflexivity.
  - vm_compute. reflexivity.
  - vm_compute. reflexivity.
Defined.

Lemma swipe_down_freezes_horizontal_witness :
  positionX (onPanResponderMove Demo.props (Demo.oneTouch 180 200) (Demo.moved 30 50)
               (run Demo.props initial (Demo.drag 0 50)))
  = positionX (run Demo.props initial (Demo.drag 0 50)) /\
  horizontalWholeOuterCounter
    (onPanResponderMove Demo.props (Demo.oneTouch 180 200) (Demo.moved 30 50)
       (run Demo.props initial (Demo.drag 0 50)))
  = horizontalWholeOuterCounter (run Demo.props initial (Demo.drag 0 50)) /\
  isHorizontalWrap
    (onPanResponderMove Demo.props (Demo.oneTouch 180 200) (Demo.moved 30 50)
       (run Demo.props initial (Demo.drag 0 50)))
  = isHorizontalWrap (run Demo.props initial (Demo.drag 0 50)).
Proof.
  apply (swipe_down_freezes_horizontal Demo.props).
  - cbn. lia.
  - vm_compute. discriminate.
Defined.

Lemma disabled_moves_change_nothing_witness :
  sameTransform Demo.dragging
    (onPanResponderMove Demo.locked (Demo.oneTouch 180 200) (Demo.moved 30 50)
       Demo.dragging) /\
  sameOverflow Demo.dragging
    (onPanResponderMove Demo.locked (Demo.oneTouch 180 200) (Demo.moved 30 50)
       Demo.dragging).
Proof.
  apply (proj1 (disabled_moves_change_nothing Demo.locked
                  (Demo.oneTouch 180 200) (Demo.moved 30 50) Demo.dragging)).
  - reflexivity.
  - cbn. lia.
Defined.

Lemma settle_bounds_overflowing_axis_witness :
  Qabs (positionX (panResponderReleaseResolve Demo.wide
                     (centerOn Demo.wide (mkCenterOn 500 40 1 0) initial)))
  <= maxOffset (imageWidth Demo.wide) (cropWidth Demo.wide)
       (scale (panResponderReleaseResolve Demo.wide
                 (centerOn Demo.wide (mkCenterOn 500 40 1 0) initial))).
Proof.
  assert (A : isSwipeDown Demo.wide
                (centerOn Demo.wide (mkCenterOn 500 40 1 0) initial) = false)
    by (vm_compute; reflexivity).
  assert (B : 0 < scale (panResponderReleaseResolve Demo.wide
                           (centerOn Demo.wide (mkCenterOn 500 40 1 0) initial)))
    by (vm_compute; reflexivity).
  assert (C : cropWidth Demo.wide
              < imageWidth Demo.wide
                * scale (panResponderReleaseResolve Demo.wide
                           (centerOn Demo.wide (mkCenterOn 500 40 1 0) initial)))
    by (vm_compute; reflexivity).
  exact (proj1 (settle_bounds_overflowing_axis Demo.wide
                  (centerOn Demo.wide (mkCenterOn 500 40 1 0) initial) A B) C).
Defined.

Lemma settle_idempotent_witness :
  sameTransform
    (panResponderReleaseResolve Demo.wide
       (centerOn Demo.wide (mkCenterOn 500 40 1 0) initial))
    (panResponderReleaseResolve Demo.wide
       (panResponderReleaseResolve Demo.wide
          (centerOn Demo.wide (mkCenterOn 500 40 1 0) initial))).
Proof.
  apply (settle_idempotent Demo.wide).
  - vm_compute. reflexivity.
  - vm_compute. reflexivity.
  - vm_compute. reflexivity.
Defined.

Example settle_far_right :
  positionX (centerOn Demo.wide (mkCenterOn 500 40 1 0) initial) == 500 /\
  positionX (panResponderReleaseResolve Demo.wide
               (centerOn Demo.wide (mkCenterOn 500 40 1 0) initial)) == 150 /\
  positionY (panResponderReleaseResolve Demo.wide
               (centerOn Demo.wide (mkCenterOn 500 40 1 0) initial)) == 0.
Proof. vm_compute. repeat split; reflexivity. Qed.

Lemma long_press_cancelled_witness :
  longPressTimeoutFires Demo.props
    (onPanResponderMove Demo.props (Demo.twoTouches 100 150 200 150)
       (Demo.moved 0 0)
       (onPanResponderGrant Demo.props 1000 (Demo.twoTouches 100 150 200 150)
          initial))
  = onPanResponderMove Demo.props (Demo.twoTouches 100 150 200 150)
      (Demo.moved 0 0)
      (onPanResponderGrant Demo.props 1000 (Demo.twoTouches 100 150 200 150)
         initial).
Proof.
  apply (proj2 (long_press_cancelled Demo.props (Demo.twoTouches 100 150 200 150)
                  (Demo.moved 0 0)
                  (onPanResponderGrant Demo.props 1000
                     (Demo.twoTouches 100 150 200 150) initial))).
  - vm_compute. reflexivity.
  - cbn. lia.
Defined.

Example long_press_pending_after_grant :
  longPressTimeout
    (onPanResponderGrant Demo.props 1000 (Demo.twoTouches 100 150 200 150) initial)
  = Pending (evPoint (Demo.twoTouches 100 150 200 150)) /\
  longPressTimeout
    (onPanResponderMove Demo.props (Demo.twoTouches 100 150 200 150)
       (Demo.moved 0 0)
       (onPanResponderGrant Demo.props 1000 (Demo.twoTouches 100 150 200 150)
          initial))
  = Spent.
Proof. vm_compute. split; reflexivity. Qed.

Lemma tap_schedules_click_witness :
  callsSince
    (onPanResponderRelease Demo.props (Demo.oneTouch 102 120) (Demo.moved 2 0)
       (onPanResponderGrant Demo.props 1000 (Demo.oneTouch 100 120) initial))
    (singleClickTimeoutFires Demo.props
       (onPanResponderRelease Demo.props (Demo.oneTouch 102 120) (Demo.moved 2 0)
          (onPanResponderGrant Demo.props 1000 (Demo.oneTouch 100 120) initial)))
  = (if onClick Demo.props
     then [CallOnClick (evPoint (Demo.oneTouch 102 120))] else []).
Proof.
  apply (tap_schedules_click Demo.props (Demo.oneTouch 102 120) (Demo.moved 2 0)
           (onPanResponderGrant Demo.props 1000 (Demo.oneTouch 100 120) initial)).
  - vm_compute. reflexivity.
  - vm_compute. reflexivity.
  - reflexivity.
  - vm_compute. reflexivity.
  - vm_compute. reflexivity.
Defined.

Lemma long_press_ends_silently_witness :
  isLongPress
    (longPressTimeoutFires Demo.props
       (onPanResponderGrant Demo.props 1000 (Demo.oneTouch 100 120) initial)) = true /\
  callsSince (onPanResponderGrant Demo.props 1000 (Demo.oneTouch 100 120) initial)
    (longPressTimeoutFires Demo.props
       (onPanResponderGrant Demo.props 1000 (Demo.oneTouch 100 120) initial))
  = (if onLongPress Demo.props
     then [CallOnLongPress (evPoint (Demo.oneTouch 100 120))] else []).
Proof.
  destruct (long_press_ends_silently Demo.props (evPoint (Demo.oneTouch 100 120))
              (Demo.oneTouch 100 120) (Demo.moved 0 0)
              (onPanResponderGrant Demo.props 1000 (Demo.oneTouch 100 120) initial))
    as (A & B & _).
  - vm_compute. reflexivity.
  - split; [exact A | exact B].
Defined.

Lemma first_move_is_still_witness :
  positionY
    (onPanResponderMove Demo.props (Demo.oneTouch 150 190) (Demo.moved 0 40)
       (onPanResponderGrant Demo.props 1000 (Demo.oneTouch 150 150)
          (centerOn Demo.props Demo.target initial)))
  == positionY
       (onPanResponderGrant Demo.props 1000 (Demo.oneTouch 150 150)
          (centerOn Demo.props Demo.target initial)) /\
  sameTransform
    (onPanResponderGrant Demo.props 1000 (Demo.twoTouches 100 150 200 150)
       (centerOn Demo.props Demo.target initial))
    (onPanResponderMove Demo.props (Demo.twoTouches 80 150 220 150) (Demo.moved 0 0)
       (onPanResponderGrant Demo.props 1000 (Demo.twoTouches 100 150 200 150)
          (centerOn Demo.props Demo.target initial))).
Proof.
  assert (L1 : (length (changedTouches (Demo.oneTouch 150 190)) <= 1)%nat)
    by (cbn; lia).
  assert (N : ~ scale (onPanResponderGrant Demo.props 1000 (Demo.oneTouch 150 150)
                         (centerOn Demo.props Demo.target initial)) == 0)
    by (vm_compute; discriminate).
  assert (L2 : (1 < length (changedTouches (Demo.twoTouches 80 150 220 150)))%nat)
    by (cbn; lia).
  split.
  - exact (proj1 (proj1 (first_move_is_still Demo.props 1000
                           (Demo.oneTouch 150 150) (Demo.oneTouch 150 190)
                           (Demo.moved 0 40)
                           (centerOn Demo.props Demo.target initial)) L1 N)).
  - exact (proj2 (first_move_is_still Demo.props 1000
                    (Demo.twoTouches 100 150 200 150)
                    (Demo.twoTouches 80 150 220 150) (Demo.moved 0 0)
                    (centerOn Demo.props Demo.target initial)) L2).
Defined.

Lemma move_callbacks_witness :
  if isDoubleClick (run Demo.props initial (Demo.drag 250 0))
  then onPanResponderMove Demo.props (Demo.oneTouch 450 150) (Demo.moved 300 0)
         (run Demo.props initial (Demo.drag 250 0))
       = run Demo.props initial (Demo.drag 250 0)
  else exists overflows,
      Forall (overflowCall (Num.optOr (maxOverflow Demo.props) 0)) overflows /\
      callsSince (run Demo.props initial (Demo.drag 250 0))
        (onPanResponderMove Demo.props (Demo.oneTouch 450 150) (Demo.moved 300 0)
           (run Demo.props initial (Demo.drag 250 0)))
      = overflows
        ++ (if onMove Demo.props
            then [CallOnMove
                    (mkOnMove "onPanResponderMove"
                       (positionX
                          (onPanResponderMove Demo.props (Demo.oneTouch 450 150)
                             (Demo.moved 300 0)
                             (run Demo.props initial (Demo.drag 250 0))))
                       (positionY
                          (onPanResponderMove Demo.props (Demo.oneTouch 450 150)
                             (Demo.moved 300 0)
                             (run Demo.props initial (Demo.drag 250 0))))
                       (scale
                          (onPanResponderMove Demo.props (Demo.oneTouch 450 150)
                             (Demo.moved 300 0)
                             (run Demo.props initial (Demo.drag 250 0))))
                       (zoomCurrentDistance
                          (onPanResponderMove Demo.props (Demo.oneTouch 450 150)
                             (Demo.moved 300 0)
                             (run Demo.props initial (Demo.drag 250 0)))))]
            else []).
Proof.
  apply (move_callbacks Demo.props).
  vm_compute. discriminate.
Defined.

Lemma overflow_callback_bounded_witness :
  Qabs 100 <= Num.optOr (maxOverflow Demo.props) 0.
Proof.
  apply (overflow_callback_bounded Demo.props (Demo.drag 250 0) 100).
  - vm_compute. discriminate.
  - vm_compute. right. left. reflexivity.
Defined.

Lemma pinchDistance_is_page_distance_witness :
  pinchDistance (Demo.twoTouches 220 150 80 150)
  = pinchDistance (Demo.twoTouches 80 150 220 150).
Proof.
  apply (proj2 (proj2 (pinchDistance_is_page_distance
                         (Demo.twoTouches 80 150 220 150)
                         (Demo.twoTouches 220 150 80 150)))); reflexivity.
Defined.

Lemma double_clicks_pair_taps_witness :
  isDoubleClick
    (onPanResponderGrant Demo.props 1100 (Demo.oneTouch 100 120)
       (run Demo.props
          (onPanResponderGrant Demo.props 1000 (Demo.oneTouch 100 120) initial)
          [Release (Demo.oneTouch 100 120) (Demo.moved 0 0)])) = true.
Proof.
  assert (L : (length (changedTouches (Demo.oneTouch 100 120)) <= 1)%nat)
    by (cbn; lia).
  assert (A : isDoubleClick
                (onPanResponderGrant Demo.props 1000 (Demo.oneTouch 100 120) initial)
              = false) by (vm_compute; reflexivity).
  assert (B : inject_Z (1100 - 1000) < Num.optOr (doubleClickInterval Demo.props) 0)
    by (vm_compute; reflexivity).
  exact (proj1 (proj1 (double_clicks_pair_taps Demo.props 1000 1100
                  (Demo.oneTouch 100 120) (Demo.oneTouch 100 120)
                  [Release (Demo.oneTouch 100 120) (Demo.moved 0 0)] initial
                  L L eq_refl) A B)).
Defined.

Lemma fitting_image_drag_is_overflow_witness :
  positionX (onPanResponderMove Demo.props (Demo.oneTouch 180 150) (Demo.moved 30 0)
               Demo.dragging)
  = positionX Demo.dragging /\
  horizontalWholeOuterCounter
    (onPanResponderMove Demo.props (Demo.oneTouch 180 150) (Demo.moved 30 0)
       Demo.dragging)
  == clamp (horizontalWholeOuterCounter Demo.dragging
            + moveDiff (dx (Demo.moved 30 0)) (lastPositionX Demo.dragging))
       (- Num.optOr (maxOverflow Demo.props) 0)
       (Num.optOr (maxOverflow Demo.props) 0).
Proof.
  apply (fitting_image_drag_is_overflow Demo.props).
  - vm_compute. reflexivity.
  - cbn. lia.
  - reflexivity.
  - vm_compute. reflexivity.
  - vm_compute. discriminate.
  - vm_compute. discriminate.
Defined.

Lemma overflow_is_retracted_first_witness :
  positionX
    (onPanResponderMove Demo.wide (Demo.oneTouch 380 150) (Demo.moved 230 0)
       (run Demo.wide initial
          (Demo.drag 200 0 ++ [Move (Demo.oneTouch 410 150) (Demo.moved 260 0)])))
  == positionX
       (run Demo.wide initial
          (Demo.drag 200 0 ++ [Move (Demo.oneTouch 410 150) (Demo.moved 260 0)])) /\
  horizontalWholeOuterCounter
    (onPanResponderMove Demo.wide (Demo.oneTouch 380 150) (Demo.moved 230 0)
       (run Demo.wide initial
          (Demo.drag 200 0 ++ [Move (Demo.oneTouch 410 150) (Demo.moved 260 0)])))
  == horizontalWholeOuterCounter
       (run Demo.wide initial
          (Demo.drag 200 0 ++ [Move (Demo.oneTouch 410 150) (Demo.moved 260 0)]))
     + moveDiff (dx (Demo.moved 230 0))
         (lastPositionX
            (run Demo.wide initial
               (Demo.drag 200 0
                ++ [Move (Demo.oneTouch 410 150) (Demo.moved 260 0)]))).
Proof.
  apply (overflow_is_retracted_first Demo.wide).
  - vm_compute. reflexivity.
  - cbn. lia.
  - reflexivity.
  - vm_compute. reflexivity.
  - vm_compute. reflexivity.
  - vm_compute. reflexivity.
  - vm_compute. discriminate.
  - vm_compute. discriminate.
  - vm_compute. reflexivity.
  - vm_compute. reflexivity.
Defined.
